(** * Alexandria CLI: document parser, view builder, coverage and validation

    A shallow embedding of [src/utils/documentParser.ts],
    [src/utils/viewCreation.ts], [src/utils/coverage.ts],
    [src/utils/validation.ts] and [src/utils/repository.ts], and the
    properties of these functions.

    Strings are sequences of UTF-16 code units in the source; here a string
    is a [string] whose characters are the code units below 256. *)

From Stdlib Require Import String Ascii List Arith PeanoNat ZArith Lia Bool.
From Stdlib Require Import Floats Uint63 Permutation Sorted.
Import ListNotations.
Open Scope string_scope.
Open Scope list_scope.
Open Scope nat_scope.

(** ** String primitives of the host language *)

Module Str.

Definition code (c : ascii) : nat := nat_of_ascii c.

(** [WhiteSpace] and [LineTerminator] code units (below 256): TAB, LF, VT,
    FF, CR, SPACE and NBSP.  [String.prototype.trim] and the regular
    expression class [\s] use the same set. *)
Definition is_space (c : ascii) : bool :=
  let n := code c in
  ((9 <=? n) && (n <=? 13)) || (n =? 32) || (n =? 160).

Fixpoint trimStart (s : string) : string :=
  match s with
  | EmptyString => EmptyString
  | String c s' => if is_space c then trimStart s' else s
  end.

(** Trailing white space removed: a character is kept when it is not a
    space or when something is kept after it. *)
Fixpoint trimEnd (s : string) : string :=
  match s with
  | EmptyString => EmptyString
  | String c s' =>
      match trimEnd s' with
      | EmptyString => if is_space c then EmptyString else String c EmptyString
      | t => String c t
      end
  end.

Definition trim (s : string) : string := trimEnd (trimStart s).

(** [s.startsWith(p)] *)
Fixpoint startsWith (s p : string) {struct p} : bool :=
  match p with
  | EmptyString => true
  | String c p' =>
      match s with
      | String d s' => Ascii.eqb d c && startsWith s' p'
      | EmptyString => false
      end
  end.

(** [s.substring(n)], for [n] a natural number *)
Fixpoint substring_from (n : nat) (s : string) : string :=
  match n, s with
  | O, _ => s
  | S n', String _ s' => substring_from n' s'
  | S _, EmptyString => EmptyString
  end.

(** [s.split(sep)] for a one-character separator: never empty. *)
Fixpoint split (sep : ascii) (s : string) : list string :=
  match s with
  | EmptyString => [EmptyString]
  | String c s' =>
      if Ascii.eqb c sep then EmptyString :: split sep s'
      else match split sep s' with
           | h :: t => String c h :: t
           | [] => [String c EmptyString]
           end
  end.

(** A string is truthy when it is not empty. *)
Definition truthy (s : string) : bool := negb (String.eqb s EmptyString).

Definition is_lower (c : ascii) : bool := (97 <=? code c) && (code c <=? 122).
Definition is_upper (c : ascii) : bool := (65 <=? code c) && (code c <=? 90).
Definition is_digit (c : ascii) : bool := (48 <=? code c) && (code c <=? 57).

(** ASCII case mapping.  The pattern characters compared with it are all
    ASCII, and the case mapping of a code unit above 127 never yields an
    ASCII code unit in a pattern without the [u] flag. *)
Definition upper (c : ascii) : ascii :=
  if is_lower c then ascii_of_nat (code c - 32) else c.
Definition lower (c : ascii) : ascii :=
  if is_upper c then ascii_of_nat (code c + 32) else c.

(** A string has ink when one of its characters is not white space. *)
Fixpoint has_ink (s : string) : bool :=
  match s with
  | EmptyString => false
  | String c s' => negb (is_space c) || has_ink s'
  end.

(** [xs.join(sep)] *)
Fixpoint join (sep : string) (xs : list string) : string :=
  match xs with
  | [] => EmptyString
  | [x] => x
  | x :: rest => (x ++ sep ++ join sep rest)%string
  end.

End Str.

(** ** Regular expressions: a backtracking matcher

    The fragment of the host language's regular expressions used by the
    parser, with its matching order: greedy repetition, alternatives tried
    left to right, and the [i] flag on every character comparison. *)

Module Regex.

Inductive citem : Type :=
| CChar (c : ascii)
| CRange (lo hi : ascii).

(** One-character matchers: a literal, a class [[...]] or [[^...]], [\s]. *)
Inductive atom : Type :=
| ALit (c : ascii)
| ASet (negated : bool) (items : list citem)
| ASpace.

Inductive regex : Type :=
| RAtom (a : atom)
| RPlus (a : atom)               (* a+, greedy *)
| RSeq (r1 r2 : regex)
| RAlt (r1 r2 : regex)
| RGroup (n : nat) (r : regex)   (* capture group number n *)
| RBol                           (* ^ *)
| REol.                          (* $ *)

Definition in_item (x : ascii) (it : citem) : bool :=
  match it with
  | CChar c => Ascii.eqb x c
  | CRange lo hi => (Str.code lo <=? Str.code x) && (Str.code x <=? Str.code hi)
  end.

(** Membership under the [i] flag: some character with the same
    canonical form belongs to the class. *)
Definition in_class (items : list citem) (c : ascii) : bool :=
  existsb (fun x => existsb (in_item x) items) [c; Str.upper c; Str.lower c].

Definition atom_match (a : atom) (c : ascii) : bool :=
  match a with
  | ALit l => Ascii.eqb (Str.upper c) (Str.upper l)
  | ASet negated items => xorb negated (in_class items c)
  | ASpace => Str.is_space c
  end.

(** Captures: group number to (start, end) offsets. *)
Definition caps : Type := list (nat * (nat * nat)).

Definition cont : Type := nat -> string -> caps -> option (nat * caps).

Fixpoint plus_match (a : atom) (pos : nat) (rest : string) (cs : caps)
         (k : cont) : option (nat * caps) :=
  match rest with
  | EmptyString => None
  | String c rest' =>
      if atom_match a c then
        match plus_match a (S pos) rest' cs k with
        | Some r => Some r
        | None => k (S pos) rest' cs
        end
      else None
  end.

Fixpoint rmatch (r : regex) (pos : nat) (rest : string) (cs : caps)
         (k : cont) : option (nat * caps) :=
  match r with
  | RAtom a =>
      match rest with
      | String c rest' => if atom_match a c then k (S pos) rest' cs else None
      | EmptyString => None
      end
  | RPlus a => plus_match a pos rest cs k
  | RSeq r1 r2 =>
      rmatch r1 pos rest cs (fun pos' rest' cs' => rmatch r2 pos' rest' cs' k)
  | RAlt r1 r2 =>
      match rmatch r1 pos rest cs k with
      | Some res => Some res
      | None => rmatch r2 pos rest cs k
      end
  | RGroup n r1 =>
      rmatch r1 pos rest cs
             (fun pos' rest' cs' => k pos' rest' ((n, (pos, pos')) :: cs'))
  | RBol => if pos =? 0 then k pos rest cs else None
  | REol => match rest with
            | EmptyString => k pos rest cs
            | String _ _ => None
            end
  end.

(** A pattern that cannot match the empty string. *)
Fixpoint consumes (r : regex) : bool :=
  match r with
  | RAtom _ | RPlus _ => true
  | RSeq r1 r2 => consumes r1 || consumes r2
  | RAlt r1 r2 => consumes r1 && consumes r2
  | RGroup _ r1 => consumes r1
  | RBol | REol => false
  end.

(** One match attempt at offset [pos]; the result is the end offset and
    the captures. *)
Definition match_at (r : regex) (pos : nat) (rest : string)
  : option (nat * caps) :=
  rmatch r pos rest [] (fun e _ cs => Some (e, cs)).

(** A match object: index, end offset (the new [lastIndex]) and captures. *)
Record rmatch_result : Type := MkMatch {
  m_start : nat;
  m_end : nat;
  m_caps : caps
}.

(** The loop [while ((m = re.exec(line)) !== null)] for a pattern with the
    [g] flag: [exec] tries the offsets from [lastIndex] on, the first
    success is returned and [lastIndex] moves to its end.  [skip] counts
    the offsets still before [lastIndex].  A match of one of the parser's
    patterns is never empty, so [lastIndex] always moves forward. *)
Fixpoint exec_all (r : regex) (pos : nat) (rest : string) (skip : nat)
  : list rmatch_result :=
  match skip with
  | S skip' =>
      match rest with
      | String _ rest' => exec_all r (S pos) rest' skip'
      | EmptyString => []
      end
  | O =>
      match match_at r pos rest with
      | Some (e, cs) =>
          MkMatch pos e cs ::
            match rest with
            | String _ rest' => exec_all r (S pos) rest' (e - pos - 1)
            | EmptyString => []
            end
      | None =>
          match rest with
          | String _ rest' => exec_all r (S pos) rest' 0
          | EmptyString => []
          end
      end
  end.

Definition matches (r : regex) (line : string) : list rmatch_result :=
  exec_all r 0 line 0.

Fixpoint lookup_cap (n : nat) (cs : caps) : option (nat * nat) :=
  match cs with
  | [] => None
  | (m, se) :: cs' => if n =? m then Some se else lookup_cap n cs'
  end.

(** [match[n]]: [None] stands for [undefined]. *)
Definition group (line : string) (m : rmatch_result) (n : nat) : option string :=
  match lookup_cap n (m_caps m) with
  | Some (s, e) => Some (String.substring s (e - s) line)
  | None => None
  end.

(** Building blocks *)
Fixpoint lits (s : string) : regex :=
  match s with
  | EmptyString => RBol (* unused: literals are not empty *)
  | String c EmptyString => RAtom (ALit c)
  | String c s' => RSeq (RAtom (ALit c)) (lits s')
  end.

Fixpoint alts (xs : list string) : regex :=
  match xs with
  | [] => RBol (* unused: alternations are not empty *)
  | [x] => lits x
  | x :: rest => RAlt (lits x) (alts rest)
  end.

End Regex.

(** ** Objects used as string-keyed records

    The own properties of an object, in the order of their creation.
    Assigning to an existing key replaces the value in place; assigning an
    object to the key [__proto__] of an ordinary object sets its prototype
    and creates no own property.  (The host language enumerates integer-like
    keys first; nothing below depends on the enumeration order.) *)

Module Obj.

Definition t (A : Type) : Type := list (string * A).

Definition empty {A : Type} : t A := [].

Fixpoint get {A : Type} (k : string) (o : t A) : option A :=
  match o with
  | [] => None
  | (k', v) :: o' => if String.eqb k k' then Some v else get k o'
  end.

Fixpoint put {A : Type} (k : string) (v : A) (o : t A) : t A :=
  match o with
  | [] => [(k, v)]
  | (k', v') :: o' =>
      if String.eqb k k' then (k', v) :: o' else (k', v') :: put k v o'
  end.

(** [o[k] = v] for an object value [v] *)
Definition set {A : Type} (k : string) (v : A) (o : t A) : t A :=
  if String.eqb k "__proto__" then o else put k v o.

(** [Object.keys(o)], up to order *)
Definition keys {A : Type} (o : t A) : list string := map fst o.

Definition values {A : Type} (o : t A) : list A := map snd o.

End Obj.

(** ** documentParser.ts *)

Record CodebaseViewFileCell : Type := MkCell {
  coordinates : nat * nat;
  files : list string;
  priority : nat
}.

Record ExtractedStructure : Type := MkExtracted {
  ex_name : string;
  ex_description : string;
  ex_referenceGroups : Obj.t CodebaseViewFileCell;
  ex_rows : nat;
  ex_cols : nat
}.

Definition placeholder : string := "Codebase View".

Definition default_description : string :=
  "Codebase view extracted from documentation".

Module Patterns.
Import Regex.

Infix ";;" := RSeq (at level 61, right associativity).

Definition ch (s : string) : regex := lits s.
Definition none_of (c : ascii) : atom := ASet true [CChar c].

(** [(ts|tsx|js|jsx|mjs|cjs|json|yaml|yml|md|txt|css|scss|html)] *)
Definition extensions : list string :=
  ["ts"; "tsx"; "js"; "jsx"; "mjs"; "cjs"; "json"; "yaml"; "yml"; "md";
   "txt"; "css"; "scss"; "html"].

(** [X+\.(ext)] with the extension in capture group [n] *)
Definition path_of (a : atom) (n : nat) : regex :=
  RPlus a ;; ch "." ;; RGroup n (alts extensions).

(** [/`([^`]+\.(ext))`/gi] *)
Definition backtick : regex :=
  ch "`" ;; RGroup 1 (path_of (none_of "`") 2) ;; ch "`".

(** [/\*\*([^*]+\.(ext))\*\*/gi] *)
Definition bold : regex :=
  ch "**" ;; RGroup 1 (path_of (none_of "*") 2) ;; ch "**".

(** [/\[([^\]]+)\]\(([^)]+\.(ext))\)/gi] *)
Definition link : regex :=
  ch "[" ;; RGroup 1 (RPlus (none_of "]")) ;; ch "](" ;;
  RGroup 2 (path_of (none_of ")") 3) ;; ch ")".

(** [[a-zA-Z0-9_\-/.]] *)
Definition path_char : atom :=
  ASet false [CRange "a" "z"; CRange "A" "Z"; CRange "0" "9";
              CChar "_"; CChar "-"; CChar "/"; CChar "."].

(** [/(?:^|\s)([a-zA-Z0-9_\-/.]+\.(ext))(?:\s|$)/gi] *)
Definition bare : regex :=
  RAlt RBol (RAtom ASpace) ;; RGroup 1 (path_of path_char 2) ;;
  RAlt (RAtom ASpace) REol.

Definition filePatterns : list regex := [backtick; bold; link; bare].

End Patterns.

Record PState : Type := MkPState {
  name : string;
  description : string;
  inDescription : bool;
  currentSection : string;
  currentFiles : list string;
  sectionIndex : nat;
  maxRow : nat;
  maxCol : nat;
  referenceGroups : Obj.t CodebaseViewFileCell
}.

Definition initial : PState :=
  MkPState placeholder "" false "" [] 0 0 0 Obj.empty.

Definition set_title (t : string) (st : PState) : PState :=
  MkPState t (description st) true (currentSection st) (currentFiles st)
           (sectionIndex st) (maxRow st) (maxCol st) (referenceGroups st).

Definition set_description (d : string) (b : bool) (st : PState) : PState :=
  MkPState (name st) d b (currentSection st) (currentFiles st)
           (sectionIndex st) (maxRow st) (maxCol st) (referenceGroups st).

Definition set_section (s : string) (fs : list string) (st : PState) : PState :=
  MkPState (name st) (description st) (inDescription st) s fs
           (sectionIndex st) (maxRow st) (maxCol st) (referenceGroups st).

Definition set_files (fs : list string) (st : PState) : PState :=
  set_section (currentSection st) fs st.

Definition next_index (st : PState) : PState :=
  MkPState (name st) (description st) (inDescription st) (currentSection st)
           (currentFiles st) (S (sectionIndex st)) (maxRow st) (maxCol st)
           (referenceGroups st).

(** [currentSection && currentFiles.length > 0] *)
Definition has_files (st : PState) : bool :=
  Str.truthy (currentSection st) && (0 <? length (currentFiles st)).

(** The body shared by the two "save section" blocks: coordinates from
    [sectionIndex], the running maxima, and the assignment into
    [referenceGroups]. *)
Definition saveSection (st : PState) : PState :=
  let row := sectionIndex st / 3 in
  let col := sectionIndex st mod 3 in
  MkPState (name st) (description st) (inDescription st) (currentSection st)
           (currentFiles st) (sectionIndex st)
           (Nat.max (maxRow st) row) (Nat.max (maxCol st) col)
           (Obj.set (currentSection st)
                    (MkCell (row, col) (currentFiles st) 0)
                    (referenceGroups st)).

Fixpoint drop_hashes (s : string) : string :=
  match s with
  | String "#" s' => drop_hashes s'
  | _ => s
  end.

(** [line.replace(/^#+\s*/, '')] *)
Definition strip_heading (line : string) : string :=
  match line with
  | String "#" _ => Str.trimStart (drop_hashes line)
  | _ => line
  end.

Definition is_title (line : string) : bool := Str.startsWith line "# ".

Definition is_section (line : string) : bool :=
  Str.startsWith line "## " || Str.startsWith line "### ".

(** A line of a paragraph: not empty and not starting with [#]. *)
Definition is_prose (line : string) : bool :=
  Str.truthy line && negb (Str.startsWith line "#").

Definition includes (x : string) (xs : list string) : bool :=
  existsb (String.eqb x) xs.

Module Parser.

Section Defs.

(** [path.join] and [fs.existsSync] of the host platform. *)
Variable path_join : string -> string -> string.
Variable existsSync : string -> bool.

(** [repositoryPath?: string] *)
Variable repositoryPath : option string.

(** [match[2] || match[1]] *)
Definition matched_path (line : string) (m : Regex.rmatch_result) : option string :=
  match Regex.group line m 2 with
  | Some g => if Str.truthy g then Some g else Regex.group line m 1
  | None => Regex.group line m 1
  end.

(** The existence check: only when [repositoryPath] is truthy. *)
Definition missing (cleanPath : string) : bool :=
  match repositoryPath with
  | Some repo => Str.truthy repo && negb (existsSync (path_join repo cleanPath))
  | None => false
  end.

(** The body of the [while] loop for one match. *)
Definition add_match (line : string) (fs : list string)
           (m : Regex.rmatch_result) : list string :=
  match matched_path line m with
  | Some filePath =>
      if Str.truthy filePath && negb (Str.startsWith filePath "http")
         && negb (Str.startsWith filePath "//")
      then
        let cleanPath := Str.trim filePath in
        if missing cleanPath then fs
        else if includes cleanPath fs then fs
        else fs ++ [cleanPath]
      else fs
  | None => fs
  end.

(** [for (const pattern of filePatterns) { while (...) {...} }] *)
Definition scan_line (line : string) (fs : list string) : list string :=
  fold_left
    (fun acc pattern => fold_left (add_match line) (Regex.matches pattern line) acc)
    Patterns.filePatterns fs.

(** The description branch of the loop body. *)
Definition capture_description (line : string) (st : PState) : PState :=
  if inDescription st && Str.truthy line && negb (Str.startsWith line "#") then
    let d := if Str.truthy (description st)
             then (description st ++ " ")%string else description st in
    set_description (d ++ line)%string true st
  else if inDescription st
          && (Str.startsWith line "#" || String.eqb line "") then
    set_description (description st) false st
  else st.

(** One iteration of the loop over the lines. *)
Definition step (st : PState) (raw : string) : PState :=
  let line := Str.trim raw in
  if is_title line && String.eqb (name st) placeholder then
    set_title (Str.trim (Str.substring_from 2 line)) st
  else
    let st1 := capture_description line st in
    if is_section line then
      let st2 := if has_files st1 then next_index (saveSection st1) else st1 in
      set_section (Str.trim (strip_heading line)) [] st2
    else
      set_files (scan_line line (currentFiles st1)) st1.

(** "Save the last section if it has files" *)
Definition save_last (st : PState) : PState :=
  if has_files st then saveSection st else st.

Definition finish (st : PState) : ExtractedStructure :=
  let st' := save_last st in
  let groups := referenceGroups st' in
  let n := length (Obj.keys groups) in
  MkExtracted
    (if Str.truthy (name st') then name st' else placeholder)
    (if Str.truthy (description st') then description st' else default_description)
    groups
    (if 0 <? n then maxRow st' + 1 else 1)
    (if 0 <? n then Nat.min (maxCol st' + 1) 3 else 1).

Definition run (lines : list string) : PState := fold_left step lines initial.

Definition extractStructureFromMarkdown (content : string) : ExtractedStructure :=
  finish (run (Str.split "010" content)).

(** *** The parser's result, stated on the document

    The definitions below describe the result without the loop state:
    which lines are scanned, how they split into sections, which paths a
    section's body mentions, and how the emitted sections are placed. *)

(** The accepted path of one match, if any. *)
Definition candidate (line : string) (m : Regex.rmatch_result) : list string :=
  match matched_path line m with
  | Some filePath =>
      if Str.truthy filePath && negb (Str.startsWith filePath "http")
         && negb (Str.startsWith filePath "//")
      then if missing (Str.trim filePath) then [] else [Str.trim filePath]
      else []
  | None => []
  end.

(** The accepted paths of a line, in discovery order, duplicates included:
    pattern after pattern, match after match. *)
Definition candidates (line : string) : list string :=
  flat_map (fun pattern => flat_map (candidate line) (Regex.matches pattern line))
           Patterns.filePatterns.

(** First occurrences, in order. *)
Fixpoint first_seen (seen xs : list string) : list string :=
  match xs with
  | [] => []
  | x :: rest =>
      if includes x seen then first_seen seen rest
      else x :: first_seen (x :: seen) rest
  end.

Definition keep_first (xs : list string) : list string := first_seen [] xs.

(** The lines that reach the section and file scanning part of the loop
    body, trimmed: a line consumed as the title is not one of them. *)
Fixpoint scanned_lines (nm : string) (ls : list string) : list string :=
  match ls with
  | [] => []
  | raw :: ls' =>
      let line := Str.trim raw in
      if is_title line && String.eqb nm placeholder
      then scanned_lines (Str.trim (Str.substring_from 2 line)) ls'
      else line :: scanned_lines nm ls'
  end.

Definition label_of (line : string) : string := Str.trim (strip_heading line).

(** The lines before the first section heading, and the sections: the
    label of each heading with the lines up to the next heading. *)
Fixpoint split_sections (ls : list string)
  : list string * list (string * list string) :=
  match ls with
  | [] => ([], [])
  | l :: ls' =>
      let (pre, secs) := split_sections ls' in
      if is_section l then ([], (label_of l, pre) :: secs) else (l :: pre, secs)
  end.

Definition body_candidates (body : list string) : list string :=
  flat_map candidates body.

(** Every section of the document, with the lines of its body. *)
Definition section_bodies (lines : list string) : list (string * list string) :=
  snd (split_sections (scanned_lines placeholder lines)).

(** Every section of the document, with the files found in its body. *)
Definition sections (lines : list string) : list (string * list string) :=
  map (fun s => (fst s, keep_first (body_candidates (snd s))))
      (section_bodies lines).

Definition nonempty (s : string * list string) : bool := 0 <? length (snd s).

(** The sections that are emitted: those with at least one file. *)
Definition flushed (lines : list string) : list (string * list string) :=
  filter nonempty (sections lines).

(** The same from a loop state: the section in progress, then the
    sections of the remaining lines. *)
Definition open_sections (st : PState) (ls : list string)
  : list (string * list string) :=
  let split := split_sections (scanned_lines (name st) ls) in
  (currentSection st,
   currentFiles st ++ first_seen (currentFiles st) (body_candidates (fst split)))
    :: map (fun s => (fst s, keep_first (body_candidates (snd s)))) (snd split).

Definition emitted (s : string * list string) : bool :=
  Str.truthy (fst s) && nonempty s.

(** The largest row and column among the indices [i], ..., [i + n - 1],
    starting from the maxima [m]. *)
Fixpoint grid_max (i n : nat) (m : nat * nat) : nat * nat :=
  match n with
  | O => m
  | S n' => grid_max (S i) n' (Nat.max (fst m) (i / 3), Nat.max (snd m) (i mod 3))
  end.

(** The [i]-th emitted section is stored at [[floor(i/3), i mod 3]]. *)
Definition cell_at (i : nat) (fs : list string) : CodebaseViewFileCell :=
  MkCell (i / 3, i mod 3) fs 0.

Fixpoint assign (i : nat) (secs : list (string * list string))
         (o : Obj.t CodebaseViewFileCell) : Obj.t CodebaseViewFileCell :=
  match secs with
  | [] => o
  | s :: rest => assign (S i) rest (Obj.set (fst s) (cell_at i (snd s)) o)
  end.

(** What remains to be placed from a loop state: the sections still to
    emit, and the maxima and groups once they are placed. *)
Definition pending (st : PState) (ls : list string) : list (string * list string) :=
  filter emitted (open_sections st ls).

Definition placement (st : PState) (secs : list (string * list string))
  : nat * nat * Obj.t CodebaseViewFileCell :=
  (grid_max (sectionIndex st) (length secs) (maxRow st, maxCol st),
   assign (sectionIndex st) secs (referenceGroups st)).

(** The three variables of title and description capture. *)
Definition heading_state (st : PState) : string * string * bool :=
  (name st, description st, inDescription st).

(** The description after one more line of the paragraph. *)
Definition glue (d line : string) : string :=
  ((if Str.truthy d then d ++ " " else d) ++ line)%string.

(** A line as the loop sees it. *)
Definition trimmed (l : string) : Prop := exists raw, l = Str.trim raw.

End Defs.

End Parser.

(** ** Effects: exceptions and the outside world

    The library and platform calls of [viewCreation.ts] and [validation.ts]
    read and change the file system and the view store, and may throw.  A
    computation takes the state of the world and gives an outcome and the
    next state. *)

Inductive thrown : Type :=
| ErrorObject (message : string)   (* an instance of [Error] *)
| OtherValue (text : string).      (* any other value [v], with [String(v)] *)

(** [error instanceof Error ? error.message : String(error)] *)
Definition error_text (e : thrown) : string :=
  match e with
  | ErrorObject m => m
  | OtherValue t => t
  end.

Inductive outcome (A : Type) : Type :=
| Return (a : A)
| Throw (e : thrown).

Arguments Return {A} a.
Arguments Throw {A} e.

Definition M (W A : Type) : Type := W -> outcome A * W.

Definition ret {W A : Type} (a : A) : M W A := fun w => (Return a, w).

Definition bind {W A B : Type} (c : M W A) (k : A -> M W B) : M W B :=
  fun w =>
    match c w with
    | (Return a, w') => k a w'
    | (Throw e, w') => (Throw e, w')
    end.

(** [try { body } catch (e) { handler }] *)
Definition try_catch {W A : Type} (body : M W A) (handler : thrown -> M W A) : M W A :=
  fun w =>
    match body w with
    | (Return a, w') => (Return a, w')
    | (Throw e, w') => handler e w'
    end.

(** The outcome of a call made inside its own [try] block. *)
Definition attempt {W A : Type} (c : M W A) : M W (outcome A) :=
  fun w => let (o, w') := c w in (Return o, w').

(** A read of the world that cannot fail. *)
Definition observe {W A : Type} (f : W -> A) : M W A := fun w => (Return (f w), w).

Notation "x <- c ;; k" := (bind c (fun x => k))
  (at level 61, c at next level, right associativity).

(** [a || b] on strings *)
Definition or_string (a b : string) : string := if Str.truthy a then a else b.

(** [opt || b] for an optional string *)
Definition or_default (opt : option string) (b : string) : string :=
  match opt with
  | Some a => or_string a b
  | None => b
  end.

(** Truthiness of an optional flag *)
Definition flag (opt : option bool) : bool :=
  match opt with
  | Some b => b
  | None => false
  end.

(** ** The records of the core library and of viewCreation.ts *)

Module View.
Record Ui : Type := MkUi {
  enabled : bool;
  ui_rows : nat;
  ui_cols : nat;
  showCellLabels : bool;
  cellLabelPosition : string
}.

Record Metadata : Type := MkMetadata {
  generationType : string;
  ui : Ui
}.

(** [CodebaseView] *)
Record t : Type := Mk {
  id : string;
  version : string;
  name : string;
  description : string;
  rows : nat;
  cols : nat;
  referenceGroups : Obj.t CodebaseViewFileCell;
  overviewPath : string;
  category : string;
  displayOrder : nat;
  timestamp : string;
  metadata : Metadata
}.
End View.

Module Validation.
(** An issue of the core library's validator: severity, message, and the
    optional location and context. *)
Record Issue : Type := MkIssue {
  severity : string;
  message : string;
  location : option string;
  context : option string
}.

Record Summary : Type := MkSummary {
  errors : nat;
  warnings : nat;
  info : nat
}.

(** [CodebaseValidationResult] *)
Record Result : Type := MkResult {
  isValid : bool;
  issues : list Issue;
  validatedView : View.t;
  summary : Summary
}.
End Validation.

Module Doc.
(** [UntrackedDocumentInfo] *)
Record t : Type := Mk {
  filePath : string;
  relativePath : string;
  fullPath : string
}.
End Doc.

Module Options.
(** [ViewCreationOptions] *)
Record t : Type := Mk {
  category : option string;
  skipValidation : option bool;
  dryRun : option bool;
  name : option string;
  description : option string
}.

Definition none : t := Mk None None None None None.
End Options.

Module Creation.
(** [ViewCreationResult] *)
Record t : Type := Mk {
  file : string;
  success : bool;
  viewName : option string;
  viewId : option string;
  error : option string;
  issues : option nat;
  view : option View.t
}.

Definition failed (f e : string) : t :=
  Mk f false None None (Some e) None None.

End Creation.

(** ** The platform and the core library, as used by the CLI

    [node:path], [node:fs], [Date] and [@principal-ai/alexandria-core-library]
    are not part of this repository: their operations are taken as given.
    Every call that may throw is a computation; a constructor call is one
    too. *)

Record Host (W : Type) : Type := MkHost {
  path_join : string -> string -> string;
  path_basename : string -> string -> string;
  path_extname : string -> string;
  path_dirname : string -> string;
  (* fs.existsSync: false on any error *)
  fs_existsSync : W -> string -> bool;
  fs_readFileSync : string -> M W string;
  (* new NodeFileSystemAdapter(); new MemoryPalace(repositoryPath, adapter) *)
  new_NodeFileSystemAdapter : M W unit;
  new_MemoryPalace : string -> M W unit;
  (* MemoryPalace.validateRelativePath(repositoryPath, fullPath, adapter) *)
  validateRelativePath : string -> string -> M W string;
  (* fileSystemAdapter.exists(path) *)
  adapter_exists : string -> M W bool;
  generateViewIdFromName : string -> M W string;
  (* new Date().toISOString() *)
  now_ISOString : M W string;
  (* the methods of the palace of a repository *)
  saveView : string -> View.t -> M W unit;
  saveViewWithValidation : string -> View.t -> M W Validation.Result;
  listViews : string -> M W (list View.t);
  validateView : string -> View.t -> M W Validation.Result
}.

Arguments path_join {W} h _ _.
Arguments path_basename {W} h _ _.
Arguments path_extname {W} h _.
Arguments path_dirname {W} h _.
Arguments fs_existsSync {W} h _ _.
Arguments fs_readFileSync {W} h _.
Arguments new_NodeFileSystemAdapter {W} h.
Arguments new_MemoryPalace {W} h _.
Arguments validateRelativePath {W} h _ _.
Arguments adapter_exists {W} h _.
Arguments generateViewIdFromName {W} h _.
Arguments now_ISOString {W} h.
Arguments saveView {W} h _ _.
Arguments saveViewWithValidation {W} h _ _.
Arguments listViews {W} h _.
Arguments validateView {W} h _ _.

(** ** viewCreation.ts *)

Module Title.

Fixpoint map (f : ascii -> ascii) (s : string) : string :=
  match s with
  | EmptyString => EmptyString
  | String c s' => String (f c) (map f s')
  end.

(** [\w] *)
Definition is_word (c : ascii) : bool :=
  Str.is_lower c || Str.is_upper c || Str.is_digit c || Ascii.eqb c "_".

(** [.replace(/[-_]/g, ' ')] *)
Definition spaces (s : string) : string :=
  map (fun c => if Ascii.eqb c "-" || Ascii.eqb c "_" then " "%char else c) s.

(** [.replace(/[-_/]/g, ' ')] *)
Definition dir_spaces (s : string) : string :=
  map (fun c => if Ascii.eqb c "-" || Ascii.eqb c "_" || Ascii.eqb c "/"
                then " "%char else c) s.

(** [.replace(/\b\w/g, (l) => l.toUpperCase())]: a word character is
    replaced when the character before it is not a word character. *)
Fixpoint capitalize_from (after_word : bool) (s : string) : string :=
  match s with
  | EmptyString => EmptyString
  | String c s' =>
      String (if is_word c && negb after_word then Str.upper c else c)
             (capitalize_from (is_word c) s')
  end.

Definition capitalize (s : string) : string := capitalize_from false s.

End Title.

Section ViewCreation.

Variable W : Type.
Variable h : Host W.

Definition generateViewNameFromPath (filePath : string) : string :=
  let fileName := path_basename h filePath (path_extname h filePath) in
  let dirName := path_dirname h filePath in
  if String.eqb dirName "." then
    Title.capitalize (Title.spaces fileName)
  else
    let formattedDir := Title.capitalize (Title.dir_spaces dirName) in
    let formattedFile := Title.capitalize (Title.spaces fileName) in
    (formattedDir ++ " - " ++ formattedFile)%string.

(** [let viewName = options.name || extracted.name;
     if (viewName === 'Codebase View' || !viewName) viewName = generate...] *)
Definition resolve_name (options : Options.t) (extracted : ExtractedStructure)
           (filePath : string) : string :=
  let viewName := or_default (Options.name options) (ex_name extracted) in
  if String.eqb viewName placeholder || negb (Str.truthy viewName)
  then generateViewNameFromPath filePath
  else viewName.

Definition resolve_description (options : Options.t)
           (extracted : ExtractedStructure) (filePath : string) : string :=
  or_default (Options.description options)
    (or_string (ex_description extracted)
               ("Documentation-based view for " ++ filePath)%string).

(** Name resolution as the specification words it, with the explicit name
    set aside when it is the placeholder: the supplied name, else the
    extracted title, else the name derived from the path. *)
Definition name_from_title (title filePath : string) : string :=
  if String.eqb title placeholder then generateViewNameFromPath filePath else title.

Definition specified_name (supplied : option string) (title filePath : string)
  : string :=
  match supplied with
  | Some n =>
      if Str.truthy n then
        if String.eqb n placeholder then generateViewNameFromPath filePath else n
      else name_from_title title filePath
  | None => name_from_title title filePath
  end.

(** [n || 1] *)
Definition or_one (n : nat) : nat := if n =? 0 then 1 else n.

Definition build_view (viewId viewName description relativePath category stamp : string)
           (extracted : ExtractedStructure) : View.t :=
  View.Mk viewId "1.0.0" viewName description
          (or_one (ex_rows extracted)) (or_one (ex_cols extracted))
          (ex_referenceGroups extracted) relativePath category 0 stamp
          (View.MkMetadata "user"
             (View.MkUi true (or_one (ex_rows extracted))
                        (or_one (ex_cols extracted)) true "top")).

(** The part of [createViewFromDocument] after the document was read. *)
Definition build_and_save (repositoryPath : string) (docInfo : Doc.t)
           (options : Options.t) (category relativePath docContent : string)
  : M W Creation.t :=
  extracted <- observe (fun w =>
    Parser.extractStructureFromMarkdown (path_join h) (fs_existsSync h w)
                                 (Some repositoryPath) docContent) ;;
  let viewName := resolve_name options extracted (Doc.filePath docInfo) in
  let description := resolve_description options extracted (Doc.filePath docInfo) in
  viewId <- generateViewIdFromName h viewName ;;
  stamp <- now_ISOString h ;;
  let view := build_view viewId viewName description relativePath category
                         stamp extracted in
  if flag (Options.dryRun options) then
    ret (Creation.Mk (Doc.filePath docInfo) true (Some viewName)
                     (Some (View.id view)) None None (Some view))
  else if flag (Options.skipValidation options) then
    _ <- saveView h repositoryPath view ;;
    ret (Creation.Mk (Doc.filePath docInfo) true (Some viewName)
                     (Some (View.id view)) None None (Some view))
  else
    validationResult <- saveViewWithValidation h repositoryPath view ;;
    ret (Creation.Mk (Doc.filePath docInfo) true (Some viewName)
                     (Some (View.id view)) None
                     (Some (length (Validation.issues validationResult)))
                     (Some (Validation.validatedView validationResult))).

(** The body of the outer [try] block. *)
Definition guarded (repositoryPath : string) (docInfo : Doc.t)
           (options : Options.t) (category : string) : M W Creation.t :=
  validated <- attempt (validateRelativePath h repositoryPath (Doc.fullPath docInfo)) ;;
  match validated with
  | Throw _ =>
      ret (Creation.failed (Doc.filePath docInfo) "File must be within repository")
  | Return relativePath =>
      found <- adapter_exists h (Doc.fullPath docInfo) ;;
      if negb found then
        ret (Creation.failed (Doc.filePath docInfo) "File not found")
      else
        content <- attempt (fs_readFileSync h (Doc.fullPath docInfo)) ;;
        match content with
        | Throw e =>
            ret (Creation.failed (Doc.filePath docInfo)
                   ("Cannot read file: " ++ error_text e)%string)
        | Return docContent =>
            build_and_save repositoryPath docInfo options category
                           relativePath docContent
        end
  end.

Definition createViewFromDocument (repositoryPath : string) (docInfo : Doc.t)
           (options : Options.t) : M W Creation.t :=
  _ <- new_NodeFileSystemAdapter h ;;
  _ <- new_MemoryPalace h repositoryPath ;;
  let category := or_default (Options.category options) "docs" in
  try_catch (guarded repositoryPath docInfo options category)
            (fun e => ret (Creation.failed (Doc.filePath docInfo) (error_text e))).

(** [for (const docInfo of documents) { results.push(...) }] *)
Fixpoint create_loop (repositoryPath : string) (options : Options.t)
         (documents : list Doc.t) (results : list Creation.t)
  : M W (list Creation.t) :=
  match documents with
  | [] => ret results
  | docInfo :: rest =>
      result <- createViewFromDocument repositoryPath docInfo options ;;
      create_loop repositoryPath options rest (results ++ [result])
  end.

Definition createViewsFromDocuments (repositoryPath : string)
           (documents : list Doc.t) (options : Options.t)
  : M W (list Creation.t) :=
  create_loop repositoryPath options documents [].

End ViewCreation.

Arguments generateViewNameFromPath {W} h filePath.
Arguments name_from_title {W} h title filePath.
Arguments specified_name {W} h supplied title filePath.
Arguments resolve_name {W} h options extracted filePath.
Arguments build_and_save {W} h repositoryPath docInfo options category relativePath docContent.
Arguments guarded {W} h repositoryPath docInfo options category.
Arguments createViewFromDocument {W} h repositoryPath docInfo options.
Arguments create_loop {W} h repositoryPath options documents results.
Arguments createViewsFromDocuments {W} h repositoryPath documents options.

(** ** coverage.ts *)

Module Coverage.

Record ExtStats : Type := MkStats {
  total : nat;
  covered : nat
}.

(** [CoverageMetrics]: [coveragePercentage] is a double, the counts are
    the sizes of a set and of an array. *)
Record Metrics : Type := MkMetrics {
  totalFiles : nat;
  coveredFiles : nat;
  coveredFilesList : list string;
  uncoveredFiles : list string;
  coveragePercentage : float;
  filesByExtension : Obj.t ExtStats
}.

(** The double of a count (exact for every size an array can have). *)
Definition number (n : nat) : float :=
  PrimFloat.of_uint63 (Uint63.of_Z (Z.of_nat n)).

(** [s.toLowerCase()] on the code units below 256 *)
Definition lower_unit (c : ascii) : ascii :=
  let n := Str.code c in
  if Str.is_upper c then ascii_of_nat (n + 32)
  else if (192 <=? n) && (n <=? 222) && negb (n =? 215) then ascii_of_nat (n + 32)
  else c.

Definition toLowerCase (s : string) : string := Title.map lower_unit s.

(** [xs.sort()]: ascending code unit order *)
Fixpoint insert_sorted (x : string) (xs : list string) : list string :=
  match xs with
  | [] => [x]
  | y :: rest => if String.leb x y then x :: xs else y :: insert_sorted x rest
  end.

Fixpoint sort (xs : list string) : list string :=
  match xs with
  | [] => []
  | x :: rest => insert_sorted x (sort rest)
  end.

(** The three accumulators of the loop over [sourceFiles]. *)
Record Acc : Type := MkAcc {
  acc_uncovered : list string;
  acc_covered : list string;
  acc_byExt : Obj.t ExtStats
}.

Section Metrics.

Variable path_extname : string -> string.

(** [path.extname(file).toLowerCase() || 'no-ext'] *)
Definition ext_of (file : string) : string :=
  or_string (toLowerCase (path_extname file)) "no-ext".

(** One iteration; a [Set] or [Map] is the list of its elements in
    insertion order, [has] is membership and a [Map] entry is updated
    in place. *)
Definition visit (referencedFiles : list string) (a : Acc) (file : string) : Acc :=
  let ext := ext_of file in
  let byExt := match Obj.get ext (acc_byExt a) with
               | Some _ => acc_byExt a
               | None => Obj.put ext (MkStats 0 0) (acc_byExt a)
               end in
  let extStats := match Obj.get ext byExt with
                  | Some st => st
                  | None => MkStats 0 0
                  end in
  if includes file referencedFiles then
    MkAcc (acc_uncovered a) (acc_covered a ++ [file])
          (Obj.put ext (MkStats (S (total extStats)) (S (covered extStats))) byExt)
  else
    MkAcc (acc_uncovered a ++ [file]) (acc_covered a)
          (Obj.put ext (MkStats (S (total extStats)) (covered extStats)) byExt).

Definition calculateCoverageMetrics (sourceFiles referencedFiles : list string)
  : Metrics :=
  let a := fold_left (visit referencedFiles) sourceFiles (MkAcc [] [] Obj.empty) in
  let uncovered := sort (acc_uncovered a) in
  let coveredList := sort (acc_covered a) in
  let totalFiles := length sourceFiles in
  let coveredFiles := length coveredList in
  let coveragePercentage :=
    if 0 <? totalFiles
    then PrimFloat.mul (PrimFloat.div (number coveredFiles) (number totalFiles))
                       100%float
    else 100%float in
  MkMetrics totalFiles coveredFiles coveredList uncovered coveragePercentage
            (acc_byExt a).

End Metrics.

End Coverage.

(** ** validation.ts *)

Module Validate.

(** [ViewValidationResult] *)
Record ViewResult : Type := MkViewResult {
  viewId : string;
  viewName : string;
  success : bool;
  validationResult : Validation.Result;
  error : option string
}.

(** [ValidationSummary] *)
Record Summary : Type := MkSummary {
  totalViews : nat;
  validViews : nat;
  invalidViews : nat;
  totalIssues : nat;
  errorCount : nat;
  warningCount : nat;
  infoCount : nat;
  results : list ViewResult
}.

(** The result pushed in the [try] block. *)
Definition checked (view : View.t) (r : Validation.Result) : ViewResult :=
  MkViewResult (View.id view) (View.name view) (Validation.isValid r) r None.

(** The result pushed in the [catch] block. *)
Definition caught (view : View.t) (e : thrown) : ViewResult :=
  MkViewResult (View.id view) (View.name view) false
    (Validation.MkResult false [] view (Validation.MkSummary 1 0 0))
    (Some (error_text e)).

Definition result_of (view : View.t) (o : outcome Validation.Result) : ViewResult :=
  match o with
  | Return r => checked view r
  | Throw e => caught view e
  end.

Definition sum_of (f : ViewResult -> nat) (rs : list ViewResult) : nat :=
  fold_left (fun acc r => acc + f r) rs 0.

Definition summarize (rs : list ViewResult) : Summary :=
  MkSummary
    (length rs)
    (length (filter success rs))
    (length (filter (fun r => negb (success r)) rs))
    (sum_of (fun r => length (Validation.issues (validationResult r))) rs)
    (sum_of (fun r => Validation.errors (Validation.summary (validationResult r))) rs)
    (sum_of (fun r => Validation.warnings (Validation.summary (validationResult r))) rs)
    (sum_of (fun r => Validation.info (Validation.summary (validationResult r))) rs)
    rs.

Section All.

Variable W : Type.
Variable h : Host W.

(** [for (const view of views) { try {...} catch (error) {...} }] *)
Fixpoint validate_loop (repositoryPath : string) (views : list View.t)
         (rs : list ViewResult) : M W (list ViewResult) :=
  match views with
  | [] => ret rs
  | view :: rest =>
      o <- attempt (validateView h repositoryPath view) ;;
      validate_loop repositoryPath rest (rs ++ [result_of view o])
  end.

(** The outcomes of the calls to [palace.validateView], one per view, each
    made in the world left by the one before. *)
Fixpoint validate_each (repositoryPath : string) (views : list View.t) (w : W)
  : list (outcome Validation.Result) * W :=
  match views with
  | [] => ([], w)
  | view :: rest =>
      let (o, w1) := validateView h repositoryPath view w in
      let (os, w2) := validate_each repositoryPath rest w1 in
      (o :: os, w2)
  end.

Definition validateAllViews (repositoryPath : string) : M W Summary :=
  _ <- new_NodeFileSystemAdapter h ;;
  _ <- new_MemoryPalace h repositoryPath ;;
  views <- listViews h repositoryPath ;;
  rs <- validate_loop repositoryPath views [] ;;
  ret (summarize rs).

End All.

Arguments validate_loop {W} h repositoryPath views rs.
Arguments validate_each {W} h repositoryPath views w.
Arguments validateAllViews {W} h repositoryPath.

End Validate.

(** ** A small repository

    A host with a fixed disk and the saved views as its state, and the
    documents used in the examples below.  The path functions are the POSIX
    ones on paths without trailing separators. *)

Module Example.

Definition nl : string := String "010" EmptyString.

Definition text (ls : list string) : string := Str.join nl ls.

Definition join (a b : string) : string := (a ++ "/" ++ b)%string.

Definition dirname (p : string) : string :=
  match rev (Str.split "/" p) with
  | _ :: (_ :: _) as dirs => Str.join "/" (rev dirs)
  | _ => "."
  end.

Definition base (p : string) : string := hd EmptyString (rev (Str.split "/" p)).

Definition extname (p : string) : string :=
  match rev (Str.split "." (base p)) with
  | [] | [_] => EmptyString
  | [_; EmptyString] => EmptyString
  | e :: _ => String "." e
  end.

Definition basename (p ext : string) : string :=
  let b := base p in
  let n := String.length b - String.length ext in
  if String.eqb (String.substring n (String.length ext) b) ext && negb (String.eqb b ext)
  then String.substring 0 n b
  else b.

Definition slug (s : string) : string :=
  Title.map (fun c => if Str.is_lower c || Str.is_upper c || Str.is_digit c
                      then Str.lower c else "-"%char) s.

Definition lookup (disk : list (string * string)) (p : string) : option string :=
  option_map snd (find (fun e => String.eqb (fst e) p) disk).

Definition World : Type := list View.t.

Definition valid (v : View.t) : Validation.Result :=
  Validation.MkResult true [] v (Validation.MkSummary 0 0 0).

Definition host_on (disk : list (string * string))
           (construct : string -> M World unit) : Host World :=
  MkHost World join basename extname dirname
    (fun _ p => match lookup disk p with Some _ => true | None => false end)
    (fun p w => match lookup disk p with
                | Some c => (Return c, w)
                | None => (Throw (ErrorObject ("ENOENT: no such file, open " ++ p)), w)
                end)
    (ret tt)
    construct
    (fun repo full w =>
       if Str.startsWith full (repo ++ "/")
       then (Return (Str.substring_from (String.length repo + 1) full), w)
       else (Throw (ErrorObject "Path is outside the repository"), w))
    (fun p => ret (match lookup disk p with Some _ => true | None => false end))
    (fun n => ret (slug n))
    (ret "2025-01-01T00:00:00.000Z")
    (fun _ v w => (Return tt, w ++ [v]))
    (fun _ v w => (Return (valid v), w ++ [v]))
    (fun _ w => (Return w, w))
    (fun _ v w => if String.eqb (View.id v) "broken"
                  then (Throw (ErrorObject "cannot validate"), w)
                  else (Return (valid v), w)).

Definition repo : string := "/repo".

(** The scenario of the specification: [src/a.ts] exists, [src/b.ts] does not. *)
Definition scenario : string :=
  text ["# My View"; "Intro paragraph."; "";
        "## Section A"; "See `src/a.ts` and `src/b.ts`."; "";
        "## Section B"; "Nothing here."].

Definition guide : string :=
  text ["# Guide"; "How the parts fit"; "together."; ""; "A later paragraph.";
        "## Parser"; "[parser](src/a.ts) and [again](src/a.ts)";
        "[helper](src/c.ts) then [parser](src/a.ts)"].

Definition disk : list (string * string) :=
  [("/repo/src/a.ts", "export {}"); ("/repo/src/c.ts", "export {}");
   ("/repo/docs/api-guide.md", guide); ("/repo/README.md", scenario)].

Definition host : Host World := host_on disk (fun _ => ret tt).


Definition on_disk (p : string) : bool := fs_existsSync host [] p.

(** The parser on this disk. *)
Definition extract (repositoryPath : option string) (content : string)
  : ExtractedStructure :=
  Parser.extractStructureFromMarkdown join on_disk repositoryPath content.

Definition section_of (label : string) : list string :=
  [("## " ++ label)%string; "[file](src/a.ts)"].

(** Seven sections with a file each: distinct labels, one label repeated,
    and the reserved key among the labels. *)
Definition seven (labels : list string) : string :=
  text ("# Grid" :: flat_map section_of labels).

Definition seven_distinct : string := seven ["A"; "B"; "C"; "D"; "E"; "F"; "G"].
Definition seven_same : string := seven ["A"; "A"; "A"; "A"; "A"; "A"; "A"].
Definition seven_reserved : string :=
  seven ["A"; "B"; "C"; "D"; "E"; "F"; "__proto__"].

Definition api_guide : Doc.t :=
  Doc.Mk "docs/api-guide.md" "docs/api-guide.md" "/repo/docs/api-guide.md".
Definition readme : Doc.t := Doc.Mk "README.md" "README.md" "/repo/README.md".
Definition missing_doc : Doc.t := Doc.Mk "gone.md" "gone.md" "/repo/gone.md".
Definition outside_doc : Doc.t := Doc.Mk "../x.md" "../x.md" "/elsewhere/x.md".

Definition dry_run (supplied : option string) : Options.t :=
  Options.Mk None None (Some true) supplied None.

Definition stored (viewId : string) : View.t :=
  View.Mk viewId "1.0.0" viewId "" 1 1 [] "README.md" "docs" 0
          "2025-01-01T00:00:00.000Z"
          (View.MkMetadata "user" (View.MkUi true 1 1 true "top")).

(** Capture groups 1 and 2 of every match of a pattern on a line. *)
Definition groups_of (r : Regex.regex) (line : string)
  : list (option string * option string) :=
  map (fun m => (Regex.group line m 1, Regex.group line m 2)) (Regex.matches r line).

End Example.

(** * Further definitions *)

(** The groups after placing sections up to index [i]: distinct keys,
    distinct coordinates, each coordinate that of an index below [i]. *)
Definition well_placed (i : nat) (o : Obj.t CodebaseViewFileCell) : Prop :=
  NoDup (map fst o)
  /\ NoDup (map (fun kv => coordinates (snd kv)) o)
  /\ Forall (fun kv => exists j, j < i /\ coordinates (snd kv) = (j / 3, j mod 3)) o.

(** ** viewCreation.ts: statistics and discovery *)

Module Stats.
(** The object returned by [getViewCreationStats] *)
Record t : Type := Mk {
  successful : nat;
  failed : nat;
  total : nat;
  totalIssues : nat;
  totalFiles : nat;
  totalCells : nat;
  failures : list Creation.t;
  successes : list Creation.t
}.
End Stats.

(** [r.issues || 0] *)
Definition issues_or_zero (r : Creation.t) : nat :=
  match Creation.issues r with
  | Some n => n
  | None => 0
  end.

(** [Object.values(groups).reduce((cellSum, cell) => cellSum + cell.files.length, 0)] *)
Definition files_in (groups : Obj.t CodebaseViewFileCell) : nat :=
  fold_left (fun cellSum cell => cellSum + length (files cell)) (Obj.values groups) 0.

Definition getViewCreationStats (results : list Creation.t) : Stats.t :=
  let successful := length (filter Creation.success results) in
  let failed := length (filter (fun r => negb (Creation.success r)) results) in
  let totalIssues := fold_left (fun sum r => sum + issues_or_zero r) results 0 in
  let totalFiles :=
    fold_left (fun sum r => match Creation.view r with
                            | Some view => sum + files_in (View.referenceGroups view)
                            | None => sum
                            end) results 0 in
  let totalCells :=
    fold_left (fun sum r => match Creation.view r with
                            | Some view =>
                                sum + length (Obj.keys (View.referenceGroups view))
                            | None => sum
                            end) results 0 in
  Stats.Mk successful failed (length results) totalIssues totalFiles totalCells
           (filter (fun r => negb (Creation.success r)) results)
           (filter Creation.success results).

(** A failure carries a message and nothing else; a success carries a
    name, an identifier and a view, and no message. *)
Definition shaped (r : Creation.t) : Prop :=
  if Creation.success r
  then Creation.error r = None
       /\ (exists name, Creation.viewName r = Some name)
       /\ (exists viewId, Creation.viewId r = Some viewId)
       /\ (exists view, Creation.view r = Some view)
  else (exists msg, Creation.error r = Some msg)
       /\ Creation.viewName r = None /\ Creation.viewId r = None
       /\ Creation.issues r = None /\ Creation.view r = None.

(** A host with other [saveView] and [saveViewWithValidation] methods. *)
Definition with_saves {W : Type} (h : Host W)
           (save : string -> View.t -> M W unit)
           (saveValidated : string -> View.t -> M W Validation.Result) : Host W :=
  MkHost W (path_join h) (path_basename h) (path_extname h) (path_dirname h)
         (fs_existsSync h) (fs_readFileSync h) (new_NodeFileSystemAdapter h)
         (new_MemoryPalace h) (validateRelativePath h) (adapter_exists h)
         (generateViewIdFromName h) (now_ISOString h)
         save saveValidated (listViews h) (validateView h).

(** A value or an exception that does not depend on the world. *)
Definition lift {W A : Type} (o : outcome A) : M W A := fun w => (o, w).

(** [xs.filter((x) => !f(x))] for an [f] that may throw: the first
    exception ends the filtering. *)
Fixpoint reject (f : string -> outcome bool) (xs : list string)
  : outcome (list string) :=
  match xs with
  | [] => Return []
  | x :: rest =>
      match f x with
      | Throw e => Throw e
      | Return ignored =>
          match reject f rest with
          | Throw e => Throw e
          | Return kept => Return (if ignored then kept else x :: kept)
          end
      end
  end.

(** [p.replace(/^\.\//, '')] *)
Definition normalize (p : string) : string :=
  if Str.startsWith p "./" then Str.substring_from 2 p else p.

(** The body of [views.forEach]: a [Set] is the list of its elements in
    insertion order. *)
Definition add_overview (overviewPaths : list string) (view : View.t)
  : list string :=
  if Str.truthy (View.overviewPath view) then
    let normalizedPath := normalize (View.overviewPath view) in
    if includes normalizedPath overviewPaths then overviewPaths
    else overviewPaths ++ [normalizedPath]
  else overviewPaths.

Section Discovery.

Variable W : Type.
Variable h : Host W.

(** [await globby(['**/*.md', '**/*.markdown', '**/*.mdx'],
      {cwd, gitignore: true, absolute: false, onlyFiles: true})] *)
Variable globby : string -> M W (list string).

(** [ignore().add(content).ignores(file)], with no content added when
    there is no [.gitignore]; it throws on a path it does not accept. *)
Variable ignores : option string -> string -> outcome bool.

(** [ALEXANDRIA_DIRS.PRIMARY] of the core library *)
Variable PRIMARY : string.

Definition findUntrackedDocuments (repositoryPath : string) : M W (list Doc.t) :=
  let gitignorePath := path_join h repositoryPath ".gitignore" in
  found <- observe (fun w => fs_existsSync h w gitignorePath) ;;
  ig <- (if found : bool
         then gitignoreContent <- fs_readFileSync h gitignorePath ;;
              ret (Some gitignoreContent)
         else ret None) ;;
  allMarkdownFiles <- globby repositoryPath ;;
  gitFilteredFiles <- lift (reject (ignores ig) allMarkdownFiles) ;;
  let nonAlexandriaFiles :=
    filter (fun file => negb (Str.startsWith file (PRIMARY ++ "/")%string))
           gitFilteredFiles in
  _ <- new_NodeFileSystemAdapter h ;;
  _ <- new_MemoryPalace h repositoryPath ;;
  views <- listViews h repositoryPath ;;
  let overviewPaths := fold_left add_overview views [] in
  let untrackedFiles :=
    filter (fun file => negb (includes file overviewPaths)) nonAlexandriaFiles in
  ret (map (fun file => Doc.Mk file file (path_join h repositoryPath file))
           untrackedFiles).

End Discovery.

Arguments findUntrackedDocuments {W} h globby ignores PRIMARY repositoryPath.

(** A file is tracked when it is the normalised overview path of a view. *)
Definition tracked (views : list View.t) (file : string) : bool :=
  existsb (fun view => Str.truthy (View.overviewPath view)
                       && String.eqb (normalize (View.overviewPath view)) file)
          views.

(** A file is ignored when [ignores] returns [true] for it. *)
Definition is_ignored (ignores : string -> outcome bool) (file : string) : bool :=
  match ignores file with
  | Return ignored => ignored
  | Throw _ => false
  end.

(** ** validation.ts: chosen views and views by status *)

Module Status.
(** The object returned by [getViewsByStatus] *)
Record t : Type := Mk {
  valid : list Validate.ViewResult;
  validWithWarnings : list Validate.ViewResult;
  invalid : list Validate.ViewResult
}.
End Status.

(** [(result) => !result.success || result.validationResult.issues.length > 0] *)
Definition has_issues (result : Validate.ViewResult) : bool :=
  negb (Validate.success result)
  || (0 <? length (Validation.issues (Validate.validationResult result))).

(** [(r) => r.success && r.validationResult.issues.length === 0] *)
Definition is_clean (r : Validate.ViewResult) : bool :=
  Validate.success r
  && (length (Validation.issues (Validate.validationResult r)) =? 0).

(** [(r) => r.success && r.validationResult.issues.length > 0] *)
Definition has_warnings (r : Validate.ViewResult) : bool :=
  Validate.success r
  && (0 <? length (Validation.issues (Validate.validationResult r))).

(** [allViews.find((v) => v.id === identifier || v.name === identifier)] *)
Definition find_view (allViews : list View.t) (identifier : string) : option View.t :=
  find (fun v => String.eqb (View.id v) identifier
                 || String.eqb (View.name v) identifier) allViews.

Section ChosenViews.

Variable W : Type.
Variable h : Host W.

(** [{} as CodebaseView]: an object without a property, where a view is
    expected; none of its fields is read here. *)
Variable no_view : View.t.

(** The result pushed for an identifier that no view carries. *)
Definition not_found (identifier : string) : Validate.ViewResult :=
  Validate.MkViewResult identifier identifier false
    (Validation.MkResult false [] no_view (Validation.MkSummary 1 0 0))
    (Some ("View not found: " ++ identifier)%string).


(** [for (const identifier of viewIdentifiers) {...}] *)
Fixpoint chosen_loop (repositoryPath : string) (allViews : list View.t)
         (viewIdentifiers : list string) (rs : list Validate.ViewResult)
  : M W (list Validate.ViewResult) :=
  match viewIdentifiers with
  | [] => ret rs
  | identifier :: rest =>
      match find_view allViews identifier with
      | None =>
          chosen_loop repositoryPath allViews rest (rs ++ [not_found identifier])
      | Some view =>
          o <- attempt (validateView h repositoryPath view) ;;
          chosen_loop repositoryPath allViews rest
                      (rs ++ [Validate.result_of view o])
      end
  end.

Definition validateSpecificViews (repositoryPath : string)
           (viewIdentifiers : list string) : M W Validate.Summary :=
  _ <- new_NodeFileSystemAdapter h ;;
  _ <- new_MemoryPalace h repositoryPath ;;
  allViews <- listViews h repositoryPath ;;
  rs <- chosen_loop repositoryPath allViews viewIdentifiers [] ;;
  ret (Validate.summarize rs).

Definition getViewsWithIssues (repositoryPath : string)
  : M W (list Validate.ViewResult) :=
  summary <- Validate.validateAllViews h repositoryPath ;;
  ret (filter has_issues (Validate.results summary)).

Definition getViewsByStatus (repositoryPath : string) : M W Status.t :=
  summary <- Validate.validateAllViews h repositoryPath ;;
  ret (Status.Mk (filter is_clean (Validate.results summary))
                 (filter has_warnings (Validate.results summary))
                 (filter (fun r => negb (Validate.success r))
                         (Validate.results summary))).

Definition areAllViewsValid (repositoryPath : string) : M W bool :=
  summary <- Validate.validateAllViews h repositoryPath ;;
  ret (Validate.invalidViews summary =? 0).

End ChosenViews.

Arguments chosen_loop {W} h no_view repositoryPath allViews viewIdentifiers rs.
Arguments validateSpecificViews {W} h no_view repositoryPath viewIdentifiers.
Arguments getViewsWithIssues {W} h repositoryPath.
Arguments getViewsByStatus {W} h repositoryPath.
Arguments areAllViewsValid {W} h repositoryPath.

(** ** repository.ts: the repository root *)

Definition not_in_repository : string :=
  "Not in a git repository. Please run this command from within a git repository.".

Section Repository.

Variable W : Type.
Variable h : Host W.

(** [process.cwd()] and [path.resolve(p)] *)
Variable process_cwd : M W string.
Variable path_resolve : string -> M W string.

(** The [while] loop of [findRepositoryRoot], run for at most [fuel]
    tests of its condition: [None] when more are needed, [Some None] for
    [null]. *)
Fixpoint climb (fuel : nat) (existsSync : string -> bool) (currentPath : string)
  : option (option string) :=
  match fuel with
  | O => None
  | S fuel' =>
      if negb (String.eqb currentPath (path_dirname h currentPath)) then
        if existsSync (path_join h currentPath ".git") then Some (Some currentPath)
        else climb fuel' existsSync (path_dirname h currentPath)
      else Some None
  end.

(** [startPath] is [None] when the argument is left out. *)
Definition findRepositoryRoot (fuel : nat) (startPath : option string)
  : M W (option (option string)) :=
  start <- match startPath with
           | Some p => ret p
           | None => process_cwd
           end ;;
  currentPath <- path_resolve start ;;
  observe (fun w => climb fuel (fs_existsSync h w) currentPath).

(** [searchPath || process.cwd()] *)
Definition search_start (searchPath : option string) : M W string :=
  match searchPath with
  | Some p => if Str.truthy p then ret p else process_cwd
  | None => process_cwd
  end.

(** The root found, or the exception of [createMemoryPalace] and
    [getRepositoryRoot]; [None] when the search needs more fuel. *)
Definition getRepositoryRoot (fuel : nat) (searchPath : option string)
  : M W (option string) :=
  start <- search_start searchPath ;;
  found <- findRepositoryRoot fuel (Some start) ;;
  match found with
  | None => ret None
  | Some None => fun w => (Throw (ErrorObject not_in_repository), w)
  | Some (Some repoPath) => ret (Some repoPath)
  end.

(** The palace is known by the path it is constructed with. *)
Definition createMemoryPalace (fuel : nat) (searchPath : option string)
  : M W (option string) :=
  start <- search_start searchPath ;;
  found <- findRepositoryRoot fuel (Some start) ;;
  match found with
  | None => ret None
  | Some None => fun w => (Throw (ErrorObject not_in_repository), w)
  | Some (Some repoPath) =>
      _ <- new_NodeFileSystemAdapter h ;;
      _ <- new_MemoryPalace h repoPath ;;
      ret (Some repoPath)
  end.

End Repository.

Arguments climb {W} h fuel existsSync currentPath.
Arguments findRepositoryRoot {W} h process_cwd path_resolve fuel startPath.
Arguments search_start {W} process_cwd searchPath.
Arguments getRepositoryRoot {W} h process_cwd path_resolve fuel searchPath.
Arguments createMemoryPalace {W} h process_cwd path_resolve fuel searchPath.

(** ** coverage.ts: the files of a repository and of its views *)

Module CoverageOptions.
Record t : Type := Mk {
  includeExtensions : option (list string);
  excludePatterns : option (list string);
  useGitignore : option bool
}.

Definition none : t := Mk None None None.
End CoverageOptions.

Definition DEFAULT_SOURCE_EXTENSIONS : list string :=
  [".ts"; ".tsx"; ".js"; ".jsx"; ".mjs"; ".cjs"; ".py"; ".rb"; ".go"; ".java";
   ".cpp"; ".c"; ".h"; ".rs"; ".swift"; ".kt"; ".scala"; ".php"; ".cs"; ".vue";
   ".svelte"; ".astro"; ".md"; ".mdx"; ".json"; ".yaml"; ".yml"; ".toml"; ".xml";
   ".css"; ".scss"; ".sass"; ".less"; ".html"].

(** [file.startsWith('/') ? file.slice(1) : file] *)
Definition strip_slash (file : string) : string :=
  if Str.startsWith file "/" then Str.substring_from 1 file else file.

(** [referencedFiles.add(normalizedFile)] *)
Definition add_file (referencedFiles : list string) (file : string) : list string :=
  let normalizedFile := strip_slash file in
  if includes normalizedFile referencedFiles then referencedFiles
  else referencedFiles ++ [normalizedFile].

Definition add_cell (referencedFiles : list string) (cell : CodebaseViewFileCell)
  : list string :=
  fold_left add_file (files cell) referencedFiles.

(** The cells of a view, in the order of the model of its groups: the
    members of the set do not depend on the order of the enumeration. *)
Definition add_view (referencedFiles : list string) (view : View.t) : list string :=
  fold_left add_cell (Obj.values (View.referenceGroups view)) referencedFiles.

Section ContextCoverage.

Variable W : Type.
Variable h : Host W.
Variable process_cwd : M W string.
Variable path_resolve : string -> M W string.

(** [ALEXANDRIA_DIRS.PRIMARY] of the core library *)
Variable PRIMARY : string.

(** [await globby(patterns, {cwd, ignore, gitignore, dot: true, onlyFiles: true})] *)
Variable globby : list string -> string -> list string -> bool -> M W (list string).

Definition getIgnorePatterns : list string :=
  [("**/" ++ PRIMARY ++ "/**")%string; (PRIMARY ++ "/**")%string;
   ("." ++ PRIMARY ++ "/**")%string;
   "**/node_modules/**"; "**/.git/**"; "**/dist/**"; "**/build/**";
   "**/coverage/**"; "**/*.log"; "**/.DS_Store"; "**/Thumbs.db"].

(** An array is truthy, an empty one too: [options.excludePatterns ||
    getIgnorePatterns()]; [options.useGitignore !== false]. *)
Definition getAllSourceFiles (repoPath : string) (options : CoverageOptions.t)
  : M W (list string) :=
  let ignorePatterns := match CoverageOptions.excludePatterns options with
                        | Some given => given
                        | None => getIgnorePatterns
                        end in
  let validExtensions := match CoverageOptions.includeExtensions options with
                         | Some given => given
                         | None => DEFAULT_SOURCE_EXTENSIONS
                         end in
  let patterns := map (fun ext => ("**/*" ++ ext)%string) validExtensions in
  files <- globby patterns repoPath ignorePatterns
                  (match CoverageOptions.useGitignore options with
                   | Some false => false
                   | _ => true
                   end) ;;
  ret (Parser.keep_first files).

(** [None] when the search for the root needs more fuel. *)
Definition getReferencedFiles (fuel : nat) (repoPath : string)
  : M W (option (list string)) :=
  palace <- createMemoryPalace h process_cwd path_resolve fuel (Some repoPath) ;;
  match palace with
  | None => ret None
  | Some root =>
      views <- listViews h root ;;
      ret (Some (fold_left add_view views []))
  end.

Definition getContextCoverage (fuel : nat) (repoPath : string)
           (options : CoverageOptions.t) : M W (option Coverage.Metrics) :=
  sourceFiles <- getAllSourceFiles repoPath options ;;
  referenced <- getReferencedFiles fuel repoPath ;;
  match referenced with
  | None => ret None
  | Some referencedFiles =>
      ret (Some (Coverage.calculateCoverageMetrics (path_extname h)
                   sourceFiles referencedFiles))
  end.

End ContextCoverage.

Arguments getAllSourceFiles {W} PRIMARY globby repoPath options.
Arguments getReferencedFiles {W} h process_cwd path_resolve fuel repoPath.
Arguments getContextCoverage {W} h process_cwd path_resolve PRIMARY globby fuel repoPath options.

(** The order of [Array.prototype.sort] without a comparison function. *)
Definition ascending (a b : string) : Prop := String.leb a b = true.

(** ** coverage.ts: the statistics by extension *)

(** The entry of an extension before a file is visited. *)
Definition entry (ext : string) (byExt : Obj.t Coverage.ExtStats) : Coverage.ExtStats :=
  match Obj.get ext byExt with
  | Some st => st
  | None => Coverage.MkStats 0 0
  end.

Definition one_if (b : bool) : nat := if b then 1 else 0.

Section ByExtension.

Variable path_extname : string -> string.

(** The files of an extension, and those of them that are referenced. *)
Definition with_ext (ext : string) (fs : list string) : list string :=
  filter (fun f => String.eqb (Coverage.ext_of path_extname f) ext) fs.

Definition covered_with_ext (referenced : list string) (ext : string)
           (fs : list string) : list string :=
  filter (fun f => includes f referenced) (with_ext ext fs).

End ByExtension.

(** ** repository.ts: the ancestors of a path *)

Section Ancestors.

Variable W : Type.
Variable h : Host W.

(** The directory [k] levels above a path. *)
Definition ancestor (k : nat) (p : string) : string :=
  Nat.iter k (path_dirname h) p.

(** A path that is its own parent: where the loop stops. *)
Definition is_top (p : string) : bool := String.eqb p (path_dirname h p).

(** The levels below [k] are not the top and hold no [.git]. *)
Definition passed (existsSync : string -> bool) (p : string) (k : nat) : Prop :=
  forall j, j < k ->
            is_top (ancestor j p) = false
            /\ existsSync (path_join h (ancestor j p) ".git") = false.

(** What the loop answers, when it answers. *)
Definition located (existsSync : string -> bool) (p : string) (r : option string) : Prop :=
  exists k,
    passed existsSync p k
    /\ match r with
       | Some root => root = ancestor k p /\ is_top root = false
                      /\ existsSync (path_join h root ".git") = true
       | None => is_top (ancestor k p) = true
       end.

End Ancestors.

Arguments ancestor {W} h k p.
Arguments is_top {W} h p.
Arguments passed {W} h existsSync p k.
Arguments located {W} h existsSync p r.


(** ** documentParser.ts: the text of a level-1 heading *)

(** [line.substring(2).trim()] for the trimmed line. *)
Definition heading_text (raw : string) : string :=
  Str.trim (Str.substring_from 2 (Str.trim raw)).

(** A level-1 heading whose text is not the placeholder. *)
Definition names_document (raw : string) : bool :=
  is_title (Str.trim raw) && negb (String.eqb (heading_text raw) placeholder).

(** ** viewCreation.ts: the characters of a generated name *)

(** A string mentions a character when it holds it. *)
Fixpoint mentions (c : ascii) (s : string) : bool :=
  match s with
  | EmptyString => false
  | String d s' => Ascii.eqb d c || mentions c s'
  end.

(** ** A repository with a root, an ignore file and a view *)

Module Sample.
Import Example.

(** [path.dirname] on normalised POSIX paths. *)
Definition dirname (p : string) : string :=
  match rev (Str.split "/" p) with
  | [] | [_] => "."
  | [_; EmptyString] => "/"
  | _ :: dirs => Str.join "/" (rev dirs)
  end.

Definition disk : list (string * string) :=
  ("/repo/.git", "") :: ("/repo/.gitignore", "node_modules") :: Example.disk.

Definition host : Host World :=
  let h := host_on disk (fun _ => ret tt) in
  MkHost World (path_join h) (path_basename h) (path_extname h) dirname
         (fs_existsSync h) (fs_readFileSync h) (new_NodeFileSystemAdapter h)
         (new_MemoryPalace h) (validateRelativePath h) (adapter_exists h)
         (generateViewIdFromName h) (now_ISOString h)
         (saveView h) (saveViewWithValidation h) (listViews h) (validateView h).

Definition cwd : M World string := ret "/repo/docs".

Definition resolve (p : string) : M World string := ret p.

(** The markdown files of the repository. *)
Definition markdown (_ : string) : M World (list string) :=
  ret ["README.md"; "docs/api-guide.md"; ".alexandria/notes.md";
       "node_modules/pkg/README.md"].

(** Ignore rules that are directory names, one per line. *)
Definition ignores (ig : option string) (file : string) : outcome bool :=
  match ig with
  | Some rules =>
      Return (existsb (fun rule => Str.startsWith file (rule ++ "/")%string)
                      (Str.split "010" rules))
  | None => Return false
  end.

(** The source files of the repository, one of them found twice. *)
Definition sources (_ : list string) (_ : string) (_ : list string) (_ : bool)
  : M World (list string) :=
  ret ["src/a.ts"; "src/c.ts"; "src/a.ts"; "README.md"].

(** A view of the read-me that lists one file, with and without a
    leading slash. *)
Definition view : View.t :=
  View.Mk "readme" "1.0.0" "Read me" "The read-me" 1 1
          [("Parser", MkCell (0, 0) ["/src/a.ts"; "src/a.ts"] 0)]
          "./README.md" "docs" 0 "2025-01-01T00:00:00.000Z"
          (View.MkMetadata "user" (View.MkUi true 1 1 true "top")).

End Sample.

(** * Properties *)

Import Parser.

(** ** Facts about the string primitives *)

Lemma includes_In (x : string) (xs : list string) :
  includes x xs = true <-> In x xs.
Proof.
  unfold includes. rewrite existsb_exists. split.
  - intros [y [Hy He]]. apply String.eqb_eq in He. now subst.
  - intros H. exists x. split; [assumption | apply String.eqb_refl].
Qed.

Lemma includes_false (x : string) (xs : list string) :
  includes x xs = false <-> ~ In x xs.
Proof.
  rewrite <- includes_In. destruct (includes x xs); split; congruence.
Qed.

Lemma includes_app (x : string) (xs ys : list string) :
  includes x (xs ++ ys) = includes x xs || includes x ys.
Proof. unfold includes. apply existsb_app. Qed.

Lemma trimStart_ink (s : string) : Str.has_ink (Str.trimStart s) = Str.has_ink s.
Proof.
  induction s as [|c s IH]; simpl; [reflexivity|].
  destruct (Str.is_space c) eqn:E; simpl; [assumption | now rewrite E].
Qed.

Lemma trimEnd_empty (s : string) :
  Str.trimEnd s = EmptyString <-> Str.has_ink s = false.
Proof.
  induction s as [|c s IH]; simpl; [tauto|].
  destruct (Str.trimEnd s) eqn:E.
  - destruct (Str.is_space c); simpl; split; intros H; try discriminate; tauto.
  - split; [discriminate|]. intros H. apply orb_false_iff in H.
    destruct H as [_ H]. apply IH in H. discriminate.
Qed.

Lemma truthy_trimEnd (s : string) : Str.truthy (Str.trimEnd s) = Str.has_ink s.
Proof.
  unfold Str.truthy. destruct (Str.has_ink s) eqn:E.
  - destruct (Str.trimEnd s) eqn:T; [|reflexivity].
    apply trimEnd_empty in T. congruence.
  - apply trimEnd_empty in E. now rewrite E.
Qed.

Lemma truthy_trim (s : string) : Str.truthy (Str.trim s) = Str.has_ink s.
Proof. unfold Str.trim. now rewrite truthy_trimEnd, trimStart_ink. Qed.

(** Every non-empty suffix of a string without trailing white space has ink. *)
Lemma trimEnd_suffix_ink (s a b : string) :
  Str.trimEnd s = (a ++ b)%string -> b <> EmptyString -> Str.has_ink b = true.
Proof.
  revert a b. induction s as [|c s IH]; intros a b H Hb; simpl in H.
  - destruct a; simpl in H; [congruence | discriminate].
  - destruct (Str.trimEnd s) as [|c' t] eqn:E.
    + destruct (Str.is_space c) eqn:Ec.
      * destruct a; simpl in H; [congruence | discriminate].
      * destruct a as [|x a]; simpl in H.
        -- subst b. simpl. now rewrite Ec.
        -- injection H as _ H. destruct a; simpl in H; [congruence | discriminate].
    + destruct a as [|x a]; simpl in H.
      * subst b. change (negb (Str.is_space c) || Str.has_ink (String c' t) = true).
        rewrite (IH EmptyString (String c' t) eq_refl); [|discriminate].
        apply orb_true_r.
      * injection H as _ H. now apply (IH a b).
Qed.

Lemma trim_suffix_ink (raw a b : string) :
  Str.trim raw = (a ++ b)%string -> b <> EmptyString -> Str.has_ink b = true.
Proof. unfold Str.trim. apply trimEnd_suffix_ink. Qed.

Lemma startsWith_split (p s : string) :
  Str.startsWith s p = true -> exists t, s = (p ++ t)%string.
Proof.
  revert s. induction p as [|c p IH]; intros s H; simpl in H.
  - now exists s.
  - destruct s as [|d s]; [discriminate|].
    apply andb_true_iff in H. destruct H as [Hc H].
    apply Ascii.eqb_eq in Hc. subst d.
    destruct (IH s H) as [t ->]. now exists t.
Qed.

(** The text of a title heading is never empty. *)
Lemma title_truthy (raw : string) :
  is_title (Str.trim raw) = true ->
  Str.truthy (Str.trim (Str.substring_from 2 (Str.trim raw))) = true.
Proof.
  unfold is_title. intros H. rewrite truthy_trim.
  apply startsWith_split in H. destruct H as [t Ht]. rewrite Ht. simpl.
  pose proof (trim_suffix_ink raw "#" (String " " t) Ht) as Hi.
  simpl in Hi. apply Hi. discriminate.
Qed.

(** The label of a section heading is never empty. *)
Lemma label_truthy (raw : string) :
  is_section (Str.trim raw) = true -> Str.truthy (label_of (Str.trim raw)) = true.
Proof.
  unfold is_section, label_of. intros H.
  rewrite truthy_trim.
  apply orb_true_iff in H. destruct H as [H|H];
    apply startsWith_split in H; destruct H as [t Ht]; rewrite Ht; simpl;
    rewrite trimStart_ink.
  - apply (trim_suffix_ink raw "##" (String " " t)); [assumption | discriminate].
  - apply (trim_suffix_ink raw "###" (String " " t)); [assumption | discriminate].
Qed.


(** * Facts about the matcher *)

Lemma plus_match_advances (a : Regex.atom) (rest : string) (pos : nat)
      (cs : Regex.caps) (k : Regex.cont) (res : nat * Regex.caps) :
  Regex.plus_match a pos rest cs k = Some res ->
  exists pos' rest' cs', k pos' rest' cs' = Some res /\ pos < pos'.
Proof.
  revert pos. induction rest as [|c rest IH]; intros pos H; simpl in H;
    [discriminate|].
  destruct (Regex.atom_match a c); [|discriminate].
  destruct (Regex.plus_match a (S pos) rest cs k) as [r|] eqn:E.
  - injection H as ->. destruct (IH _ E) as (p & r' & c' & Hk & Hp).
    exists p, r', c'. split; [assumption | lia].
  - exists (S pos), rest, cs. split; [assumption | lia].
Qed.

Lemma rmatch_advances (r : Regex.regex) :
  forall pos rest cs k res,
    Regex.rmatch r pos rest cs k = Some res ->
    exists pos' rest' cs',
      k pos' rest' cs' = Some res /\ pos <= pos'
      /\ (Regex.consumes r = true -> pos < pos').
Proof.
  induction r as [a|a|r1 IH1 r2 IH2|r1 IH1 r2 IH2|n r1 IH1| |];
    intros pos rest cs k res H; simpl in H.
  - destruct rest as [|c rest]; [discriminate|].
    destruct (Regex.atom_match a c); [|discriminate].
    exists (S pos), rest, cs. repeat split; [assumption | lia | lia].
  - apply plus_match_advances in H. destruct H as (p & r' & c' & Hk & Hp).
    exists p, r', c'. repeat split; [assumption | lia | lia].
  - apply IH1 in H. destruct H as (p1 & t1 & c1 & H & Hle1 & Hlt1).
    apply IH2 in H. destruct H as (p2 & t2 & c2 & H & Hle2 & Hlt2).
    exists p2, t2, c2. repeat split; [assumption | lia |].
    simpl. intros Hc. apply orb_true_iff in Hc.
    destruct Hc as [Hc|Hc]; [specialize (Hlt1 Hc) | specialize (Hlt2 Hc)]; lia.
  - destruct (Regex.rmatch r1 pos rest cs k) as [x|] eqn:E.
    + injection H as ->. apply IH1 in E.
      destruct E as (p & t & c & Hk & Hle & Hlt).
      exists p, t, c. repeat split; [assumption | lia |].
      simpl. intros Hc. apply andb_true_iff in Hc. now apply Hlt.
    + apply IH2 in H. destruct H as (p & t & c & Hk & Hle & Hlt).
      exists p, t, c. repeat split; [assumption | lia |].
      simpl. intros Hc. apply andb_true_iff in Hc. now apply Hlt.
  - apply IH1 in H. destruct H as (p & t & c & Hk & Hle & Hlt).
    exists p, t, ((n, (pos, p)) :: c). repeat split; assumption.
  - destruct (pos =? 0); [|discriminate].
    exists pos, rest, cs. repeat split; [assumption | lia | discriminate].
  - destruct rest; [|discriminate].
    exists pos, EmptyString, cs. repeat split; [assumption | lia | discriminate].
Qed.

(** A match of a consuming pattern ends after its start: the scanning loop
    always moves forward. *)
Lemma match_at_advances (r : Regex.regex) (pos : nat) (rest : string)
      (e : nat) (cs : Regex.caps) :
  Regex.consumes r = true -> Regex.match_at r pos rest = Some (e, cs) -> pos < e.
Proof.
  intros Hc H. unfold Regex.match_at in H. apply rmatch_advances in H.
  destruct H as (p & t & c & Hk & _ & Hlt). injection Hk as -> _. now apply Hlt.
Qed.

Lemma filePatterns_consume :
  Forall (fun r => Regex.consumes r = true) Patterns.filePatterns.
Proof. repeat constructor. Qed.

(** * Facts about objects *)

Section ObjFacts.

Context {A : Type}.

Lemma get_put_same (k : string) (v : A) (o : Obj.t A) :
  Obj.get k (Obj.put k v o) = Some v.
Proof.
  induction o as [|[k' v'] o IH]; simpl.
  - now rewrite String.eqb_refl.
  - destruct (String.eqb k k') eqn:E; simpl; rewrite E; [reflexivity | assumption].
Qed.

Lemma get_put_other (k k' : string) (v : A) (o : Obj.t A) :
  k <> k' -> Obj.get k (Obj.put k' v o) = Obj.get k o.
Proof.
  intros H. induction o as [|[k2 v2] o IH]; simpl.
  - apply String.eqb_neq in H. now rewrite H.
  - destruct (String.eqb k' k2) eqn:E; simpl.
    + apply String.eqb_eq in E. subst k2. apply String.eqb_neq in H. now rewrite H.
    + destruct (String.eqb k k2); [reflexivity | assumption].
Qed.

Lemma In_put (k : string) (v : A) (o : Obj.t A) (e : string * A) :
  In e (Obj.put k v o) -> In e o \/ e = (k, v).
Proof.
  induction o as [|[k' v'] o IH]; simpl.
  - intros [H|[]]. now right.
  - destruct (String.eqb k k') eqn:E; simpl.
    + apply String.eqb_eq in E. subst k'. intros [H|H]; [now right | left; now right].
    + intros [H|H]; [left; now left|]. destruct (IH H) as [H1|H1]; [left; now right | now right].
Qed.

Lemma In_set (k : string) (v : A) (o : Obj.t A) (e : string * A) :
  In e (Obj.set k v o) -> In e o \/ e = (k, v).
Proof.
  unfold Obj.set. destruct (String.eqb k "__proto__"); [now left | apply In_put].
Qed.

Lemma put_length (k : string) (v : A) (o : Obj.t A) :
  length (Obj.put k v o)
  = match Obj.get k o with Some _ => length o | None => S (length o) end.
Proof.
  induction o as [|[k' v'] o IH]; simpl; [reflexivity|].
  destruct (String.eqb k k'); simpl; [reflexivity|].
  rewrite IH. now destruct (Obj.get k o).
Qed.

Lemma put_not_empty (k : string) (v : A) (o : Obj.t A) : Obj.put k v o <> [].
Proof.
  destruct o as [|[k' v'] o]; simpl; [discriminate|].
  destruct (String.eqb k k'); discriminate.
Qed.

End ObjFacts.

(** * Facts about the grid *)

Lemma grid_max_list (i n : nat) (m : nat * nat) :
  grid_max i n m
  = (Nat.max (fst m) (list_max (map (fun k => k / 3) (seq i n))),
     Nat.max (snd m) (list_max (map (fun k => k mod 3) (seq i n)))).
Proof.
  revert i m. induction n as [|n IH]; intros i [r c]; simpl.
  - now rewrite !Nat.max_0_r.
  - rewrite IH. simpl. now rewrite !Nat.max_assoc.
Qed.

Lemma assign_In (i : nat) (secs : list (string * list string))
      (o : Obj.t CodebaseViewFileCell) (e : string * CodebaseViewFileCell) :
  In e (assign i secs o) ->
  In e o \/ exists j fs, nth_error secs j = Some (fst e, fs) /\ snd e = cell_at (i + j) fs.
Proof.
  revert i o. induction secs as [|[l fs] secs IH]; intros i o H; simpl in H.
  - now left.
  - destruct (IH _ _ H) as [H1|(j & fs' & Hj & Hc)].
    + destruct (In_set _ _ _ _ H1) as [H2|H2]; [now left|].
      right. exists 0, fs. subst e. simpl. rewrite Nat.add_0_r. split; reflexivity.
    + right. exists (S j), fs'. simpl. rewrite Nat.add_succ_r. split; assumption.
Qed.

Lemma assign_get_other (l : string) (i : nat) (secs : list (string * list string))
      (o : Obj.t CodebaseViewFileCell) :
  ~ In l (map fst secs) -> Obj.get l (assign i secs o) = Obj.get l o.
Proof.
  revert i o. induction secs as [|[l' fs] secs IH]; intros i o H; simpl; [reflexivity|].
  simpl in H. rewrite IH by tauto.
  unfold Obj.set. destruct (String.eqb l' "__proto__"); [reflexivity|].
  apply get_put_other. intros ->. tauto.
Qed.

Lemma assign_get (secs : list (string * list string)) (i j : nat)
      (o : Obj.t CodebaseViewFileCell) (l : string) (fs : list string) :
  NoDup (map fst secs) -> l <> "__proto__" ->
  nth_error secs j = Some (l, fs) ->
  Obj.get l (assign i secs o) = Some (cell_at (i + j) fs).
Proof.
  revert i j o. induction secs as [|[l' fs'] secs IH]; intros i j o Hn Hp Hj.
  - destruct j; discriminate.
  - simpl in Hn. inversion Hn as [|? ? Hnot Hrest]; subst.
    destruct j as [|j]; simpl in Hj.
    + injection Hj as -> ->. simpl. rewrite assign_get_other by assumption.
      unfold Obj.set. apply String.eqb_neq in Hp. rewrite Hp.
      rewrite Nat.add_0_r. apply get_put_same.
    + simpl. rewrite (IH (S i) j) by assumption. now rewrite Nat.add_succ_r.
Qed.

Lemma assign_length (secs : list (string * list string)) (i : nat)
      (o : Obj.t CodebaseViewFileCell) :
  NoDup (map fst secs) -> ~ In "__proto__" (map fst secs) ->
  (forall l, In l (map fst secs) -> Obj.get l o = None) ->
  length (assign i secs o) = length o + length secs.
Proof.
  revert i o. induction secs as [|[l fs] secs IH]; intros i o Hn Hp Ho; simpl.
  - now rewrite Nat.add_0_r.
  - simpl in Hn, Hp. inversion Hn as [|? ? Hnot Hrest]; subst.
    assert (Hl : String.eqb l "__proto__" = false).
    { apply String.eqb_neq. intros ->. tauto. }
    rewrite IH; [| assumption | tauto |].
    + unfold Obj.set. rewrite Hl, put_length, (Ho l) by now left. lia.
    + intros l' Hl'. unfold Obj.set. rewrite Hl.
      rewrite get_put_other; [apply Ho; now right | intros ->; contradiction].
Qed.

(** * Facts about the parser *)

Section ParserFacts.

Variable path_join : string -> string -> string.
Variable existsSync : string -> bool.
Variable repositoryPath : option string.

Local Abbreviation candidate := (Parser.candidate path_join existsSync repositoryPath).
Local Abbreviation candidates := (Parser.candidates path_join existsSync repositoryPath).
Local Abbreviation body_candidates := (Parser.body_candidates path_join existsSync repositoryPath).
Local Abbreviation add_match := (Parser.add_match path_join existsSync repositoryPath).
Local Abbreviation scan_line := (Parser.scan_line path_join existsSync repositoryPath).
Local Abbreviation step := (Parser.step path_join existsSync repositoryPath).
Local Abbreviation open_sections := (Parser.open_sections path_join existsSync repositoryPath).
Local Abbreviation sections := (Parser.sections path_join existsSync repositoryPath).
Local Abbreviation flushed := (Parser.flushed path_join existsSync repositoryPath).
Local Abbreviation run := (Parser.run path_join existsSync repositoryPath).
Local Abbreviation pending := (Parser.pending path_join existsSync repositoryPath).
Local Abbreviation extract := (Parser.extractStructureFromMarkdown path_join existsSync repositoryPath).

(** ** First occurrences *)

Lemma first_seen_ext (s1 s2 xs : list string) :
  (forall x, includes x s1 = includes x s2) ->
  first_seen s1 xs = first_seen s2 xs.
Proof.
  revert s1 s2. induction xs as [|x xs IH]; intros s1 s2 H; simpl; [reflexivity|].
  rewrite (H x). destruct (includes x s2); [now apply IH|].
  f_equal. apply IH. intros y. simpl. now rewrite (H y).
Qed.

Lemma first_seen_app (seen xs ys : list string) :
  first_seen seen (xs ++ ys)
  = first_seen seen xs ++ first_seen (seen ++ first_seen seen xs) ys.
Proof.
  revert seen. induction xs as [|x xs IH]; intros seen; simpl.
  - now rewrite app_nil_r.
  - destruct (includes x seen) eqn:E; [apply IH|].
    simpl. f_equal. rewrite IH. f_equal. apply first_seen_ext.
    intros y. unfold includes. simpl. rewrite !existsb_app. simpl.
    destruct (String.eqb y x); destruct (existsb (String.eqb y) seen);
      simpl; reflexivity.
Qed.

Lemma first_seen_fresh (seen xs : list string) (x : string) :
  In x (first_seen seen xs) -> In x xs /\ ~ In x seen.
Proof.
  revert seen. induction xs as [|y xs IH]; intros seen H; simpl in H; [contradiction|].
  destruct (includes y seen) eqn:E.
  - destruct (IH _ H) as [H1 H2]. split; [now right | assumption].
  - destruct H as [->|H].
    + split; [now left | now apply includes_false].
    + destruct (IH _ H) as [H1 H2]. split; [now right|].
      intros Hs. apply H2. now right.
Qed.

Lemma first_seen_complete (seen xs : list string) (x : string) :
  In x xs -> ~ In x seen -> In x (first_seen seen xs).
Proof.
  revert seen. induction xs as [|y xs IH]; intros seen H Hs; simpl; [contradiction|].
  destruct (includes y seen) eqn:E.
  - destruct H as [->|H]; [|now apply IH].
    apply includes_In in E. contradiction.
  - destruct (String.eqb_spec x y) as [->|Hxy]; [now left|].
    right. destruct H as [->|H]; [congruence|].
    apply IH; [assumption|]. intros [?|?]; [congruence | contradiction].
Qed.



Lemma keep_first_In (xs : list string) (x : string) :
  In x (keep_first xs) <-> In x xs.
Proof.
  split.
  - intros H. now apply first_seen_fresh in H.
  - intros H. apply first_seen_complete; [assumption | intros []].
Qed.


(** ** The scanning loops append first occurrences *)

Lemma fold_first_seen {A : Type} (f : list string -> A -> list string)
      (g : A -> list string) :
  (forall fs a, f fs a = fs ++ first_seen fs (g a)) ->
  forall xs fs, fold_left f xs fs = fs ++ first_seen fs (flat_map g xs).
Proof.
  intros Hf xs. induction xs as [|a xs IH]; intros fs; simpl.
  - now rewrite app_nil_r.
  - rewrite IH, Hf, first_seen_app, app_assoc. reflexivity.
Qed.

Lemma add_match_spec (line : string) (fs : list string) (m : Regex.rmatch_result) :
  add_match line fs m = fs ++ first_seen fs (candidate line m).
Proof.
  unfold Parser.add_match, Parser.candidate.
  destruct (matched_path line m) as [fp|]; [|now rewrite app_nil_r].
  destruct (Str.truthy fp && negb (Str.startsWith fp "http")
            && negb (Str.startsWith fp "//")); [|now rewrite app_nil_r].
  destruct (missing path_join existsSync repositoryPath (Str.trim fp));
    [now rewrite app_nil_r|].
  simpl. destruct (includes (Str.trim fp) fs); [now rewrite app_nil_r | reflexivity].
Qed.

Lemma scan_line_spec (line : string) (fs : list string) :
  scan_line line fs = fs ++ first_seen fs (candidates line).
Proof.
  unfold Parser.scan_line, Parser.candidates.
  apply (fold_first_seen
           (fun acc pattern =>
              fold_left (add_match line) (Regex.matches pattern line) acc)
           (fun pattern => flat_map (candidate line) (Regex.matches pattern line))).
  intros acc pattern. apply fold_first_seen. intros. apply add_match_spec.
Qed.

(** ** The loop against the sections of the document *)

Lemma capture_description_fields (line : string) (st : PState) :
  let st1 := capture_description line st in
  name st1 = name st /\ currentSection st1 = currentSection st
  /\ currentFiles st1 = currentFiles st /\ sectionIndex st1 = sectionIndex st
  /\ maxRow st1 = maxRow st /\ maxCol st1 = maxCol st
  /\ referenceGroups st1 = referenceGroups st.
Proof.
  unfold capture_description.
  destruct (inDescription st && Str.truthy line && negb (Str.startsWith line "#"));
    [simpl; tauto|].
  destruct (inDescription st && (Str.startsWith line "#" || String.eqb line ""));
    simpl; tauto.
Qed.

Lemma pending_nil (st : PState) :
  pending st [] = if has_files st then [(currentSection st, currentFiles st)] else [].
Proof.
  unfold Parser.pending, Parser.open_sections. simpl. rewrite app_nil_r.
  unfold emitted, nonempty, has_files. simpl. reflexivity.
Qed.

Lemma step_placement (st : PState) (raw : string) (ls : list string) :
  placement (step st raw) (pending (step st raw) ls)
  = placement st (pending st (raw :: ls)).
Proof.
  unfold Parser.step, pending, Parser.open_sections.
  cbn [scanned_lines].
  destruct (is_title (Str.trim raw) && String.eqb (name st) placeholder) eqn:Et.
  - reflexivity.
  - destruct (capture_description_fields (Str.trim raw) st)
      as (Hn & Hc & Hf & Hi & Hr & Hk & Hg).
    set (st1 := capture_description (Str.trim raw) st) in *.
    cbn [split_sections].
    destruct (split_sections (scanned_lines (name st) ls)) as [pre secs] eqn:Es.
    destruct (is_section (Str.trim raw)) eqn:Eh.
    + cbn [fst snd map set_section name currentSection currentFiles app filter].
      unfold Parser.body_candidates at 2. cbn [flat_map first_seen].
      rewrite app_nil_r.
      assert (En : name (if has_files st1 then next_index (saveSection st1) else st1)
                   = name st).
      { destruct (has_files st1); simpl; assumption. }
      rewrite En, Es. cbn [fst snd].
      change (emitted (currentSection st, currentFiles st)) with (has_files st).
      assert (Eh1 : has_files st1 = has_files st).
      { unfold has_files. now rewrite Hc, Hf. }
      rewrite Eh1. unfold keep_first.
      destruct (has_files st) eqn:Ehf.
      * unfold placement. cbn [length grid_max assign fst snd].
        simpl. rewrite Hi, Hr, Hk, Hg, Hc, Hf. reflexivity.
      * unfold placement. simpl. rewrite Hi, Hr, Hk, Hg. reflexivity.
    + cbn [fst snd map set_files set_section name currentSection currentFiles].
      rewrite Hn, Es. cbn [fst snd].
      rewrite scan_line_spec, Hf, Hc.
      change (body_candidates (Str.trim raw :: pre))
        with (candidates (Str.trim raw) ++ body_candidates pre).
      rewrite first_seen_app, app_assoc.
      unfold placement. simpl. rewrite Hi, Hr, Hk, Hg. reflexivity.
Qed.

Lemma run_placement (ls : list string) (st : PState) :
  let st' := save_last (fold_left step ls st) in
  (maxRow st', maxCol st', referenceGroups st') = placement st (pending st ls).
Proof.
  revert st. induction ls as [|raw ls IH]; intros st.
  - simpl. rewrite pending_nil. unfold save_last, placement.
    destruct (has_files st); reflexivity.
  - simpl. rewrite <- step_placement. apply IH.
Qed.

(** ** The result of the parser *)

Lemma scanned_trimmed (nm : string) (ls : list string) :
  Forall trimmed (scanned_lines nm ls).
Proof.
  revert nm. induction ls as [|raw ls IH]; intros nm; simpl; [constructor|].
  destruct (is_title (Str.trim raw) && String.eqb nm placeholder); [apply IH|].
  constructor; [now exists raw | apply IH].
Qed.

Lemma split_labels (xs : list string) :
  Forall trimmed xs ->
  Forall (fun s => Str.truthy (fst s) = true) (snd (split_sections xs)).
Proof.
  induction 1 as [|l xs [raw ->] _ IH]; simpl; [constructor|].
  destruct (split_sections xs) as [pre secs]. simpl in IH.
  destruct (is_section (Str.trim raw)) eqn:E; simpl; [|assumption].
  constructor; [now apply label_truthy | assumption].
Qed.

Lemma section_labels (lines : list string) :
  Forall (fun s => Str.truthy (fst s) = true) (section_bodies lines).
Proof. apply split_labels, scanned_trimmed. Qed.

Lemma pending_initial (lines : list string) : pending initial lines = flushed lines.
Proof.
  unfold Parser.pending, Parser.open_sections, Parser.flushed,
    Parser.sections, Parser.section_bodies.
  cbn [name initial currentSection currentFiles filter emitted fst Str.truthy
       String.eqb negb andb].
  generalize (section_labels lines). unfold Parser.section_bodies.
  generalize (snd (split_sections (scanned_lines placeholder lines))).
  induction 1 as [|s secs Hs _ IH]; simpl; [reflexivity|].
  unfold emitted at 1. cbn [fst]. rewrite Hs. cbn [andb].
  destruct (nonempty _); [f_equal|]; exact IH.
Qed.

(** The groups are the emitted sections placed one after the other, and the
    grid size comes from the largest row and column among them. *)
Lemma extract_spec (content : string) :
  let r := extract content in
  let fl := flushed (Str.split "010" content) in
  ex_referenceGroups r = assign 0 fl Obj.empty
  /\ ex_rows r = (if 0 <? length (ex_referenceGroups r)
                  then list_max (map (fun i => i / 3) (seq 0 (length fl))) + 1
                  else 1)
  /\ ex_cols r = (if 0 <? length (ex_referenceGroups r)
                  then Nat.min (list_max (map (fun i => i mod 3) (seq 0 (length fl))) + 1) 3
                  else 1).
Proof.
  cbv zeta. unfold Parser.extractStructureFromMarkdown, finish, Parser.run.
  cbn [ex_referenceGroups ex_rows ex_cols].
  pose proof (run_placement (Str.split "010" content) initial) as H.
  cbv zeta in H. rewrite pending_initial in H.
  unfold placement in H. rewrite grid_max_list in H. cbn [fst snd initial maxRow maxCol
    sectionIndex referenceGroups] in H. rewrite !Nat.max_0_l in H.
  injection H as Hr Hc Hg. rewrite Hr, Hc, Hg. unfold Obj.keys. rewrite length_map.
  repeat split; reflexivity.
Qed.

Lemma assign_not_empty (i : nat) (secs : list (string * list string))
      (o : Obj.t CodebaseViewFileCell) :
  ~ In "__proto__" (map fst secs) -> secs <> [] \/ o <> [] -> assign i secs o <> [].
Proof.
  revert i o. induction secs as [|[l fs] secs IH]; intros i o Hp Hne; simpl.
  - destruct Hne as [Hne|Hne]; [congruence | assumption].
  - simpl in Hp. apply IH; [tauto|]. right. unfold Obj.set.
    destruct (String.eqb_spec l "__proto__") as [->|_]; [tauto | apply put_not_empty].
Qed.

Lemma get_In {A : Type} (k : string) (v : A) (o : Obj.t A) :
  Obj.get k o = Some v -> In (k, v) o.
Proof.
  induction o as [|[k' v'] o IH]; simpl; [discriminate|].
  destruct (String.eqb_spec k k') as [->|_].
  - intros [= ->]. now left.
  - intros H. right. now apply IH.
Qed.

Lemma get_None {A : Type} (k : string) (o : Obj.t A) :
  (forall v, ~ In (k, v) o) -> Obj.get k o = None.
Proof.
  intros H. destruct (Obj.get k o) as [v|] eqn:E; [|reflexivity].
  apply get_In in E. now apply H in E.
Qed.

Lemma flushed_In (lines : list string) (l : string) (fs : list string) :
  In (l, fs) (flushed lines) <-> In (l, fs) (sections lines) /\ fs <> [].
Proof.
  unfold Parser.flushed. rewrite filter_In. unfold nonempty. simpl.
  destruct fs; simpl; split; intros [H1 H2]; split;
    try assumption; try discriminate; try reflexivity; congruence.
Qed.

Lemma filter_index {A : Type} (f : A -> bool) (pre post : list A) (x : A) :
  f x = true ->
  nth_error (filter f (pre ++ x :: post)) (length (filter f pre)) = Some x.
Proof.
  intros H. rewrite filter_app. simpl. rewrite H.
  rewrite nth_error_app2 by lia. now rewrite Nat.sub_diag.
Qed.

Lemma groups_In (content : string) (l : string) (c : CodebaseViewFileCell) :
  In (l, c) (ex_referenceGroups (extract content)) ->
  exists i, nth_error (flushed (Str.split "010" content)) i = Some (l, files c)
            /\ c = cell_at i (files c).
Proof.
  destruct (extract_spec content) as (Hg & _). rewrite Hg. intros H.
  apply assign_In in H. destruct H as [[]|(j & fs & Hj & Hc)].
  simpl in Hj, Hc. exists j. subst c. simpl. split; [assumption | reflexivity].
Qed.

Lemma all_flushed (lines : list string) :
  Forall (fun s => snd s <> []) (sections lines) -> flushed lines = sections lines.
Proof.
  intros H. unfold Parser.flushed. apply forallb_filter_id.
  apply forallb_forall. intros s Hs. rewrite Forall_forall in H.
  specialize (H s Hs). unfold nonempty. destruct (snd s); [congruence | reflexivity].
Qed.

(** C1 (amended): the [i]-th emitted section is written under its label
    with coordinates [[floor(i/3), i mod 3]].  When the emitted sections
    have pairwise distinct labels, none of them [__proto__], each is found
    under its label with these coordinates; the grid has
    [rows = maxRow + 1] and [cols = min(maxCol + 1, 3)] for the largest row
    and column among them; and a document of exactly 7 sections, each with
    at least one discovered file, has the coordinates [0,0] ... [2,0] in
    heading order, 7 groups, 3 rows and 3 columns. *)
Theorem grid_assignment (content : string) :
  let r := extract content in
  let lines := Str.split "010" content in
  ex_referenceGroups r = assign 0 (flushed lines) Obj.empty
  /\ (NoDup (map fst (flushed lines)) ->
      ~ In "__proto__" (map fst (flushed lines)) ->
      (forall i l fs,
          nth_error (flushed lines) i = Some (l, fs) ->
          Obj.get l (ex_referenceGroups r) = Some (MkCell (i / 3, i mod 3) fs 0))
      /\ ex_rows r
         = list_max (map (fun i => i / 3) (seq 0 (length (flushed lines)))) + 1
      /\ ex_cols r
         = Nat.min (list_max (map (fun i => i mod 3)
                                  (seq 0 (length (flushed lines)))) + 1) 3
      /\ (length (sections lines) = 7 ->
          Forall (fun s => snd s <> []) (sections lines) ->
          map (fun s => option_map coordinates
                                   (Obj.get (fst s) (ex_referenceGroups r)))
              (sections lines)
          = map Some [(0, 0); (0, 1); (0, 2); (1, 0); (1, 1); (1, 2); (2, 0)]
          /\ length (Obj.keys (ex_referenceGroups r)) = 7
          /\ ex_rows r = 3 /\ ex_cols r = 3)).
Proof.
  cbv zeta.
  destruct (extract_spec content) as (Hg & Hr & Hc). cbv zeta in Hg, Hr, Hc.
  split; [exact Hg|]. intros Hn Hp.
  set (fl := flushed (Str.split "010" content)) in *.
  assert (Hget : forall i l fs,
             nth_error fl i = Some (l, fs) ->
             Obj.get l (ex_referenceGroups (extract content))
             = Some (MkCell (i / 3, i mod 3) fs 0)).
  { intros i l fs Hi. rewrite Hg.
    apply (assign_get fl 0 i Obj.empty l fs Hn); [|assumption].
    intros ->. apply Hp. apply nth_error_In in Hi.
    now apply (in_map fst) in Hi. }
  assert (Hlen : length (ex_referenceGroups (extract content)) = length fl).
  { rewrite Hg. rewrite assign_length; [reflexivity | assumption | assumption |].
    intros; reflexivity. }
  assert (Hrows : ex_rows (extract content)
                  = list_max (map (fun i => i / 3) (seq 0 (length fl))) + 1).
  { rewrite Hr, Hlen. destruct fl; reflexivity. }
  assert (Hcols : ex_cols (extract content)
                  = Nat.min (list_max (map (fun i => i mod 3) (seq 0 (length fl))) + 1) 3).
  { rewrite Hc, Hlen. destruct fl; reflexivity. }
  split; [exact Hget|]. split; [exact Hrows|]. split; [exact Hcols|].
  intros H7 Hall.
  assert (Hfl : fl = sections (Str.split "010" content))
    by (apply all_flushed; assumption).
  rewrite <- Hfl in H7.
  split; [| rewrite Hrows, Hcols; unfold Obj.keys; rewrite length_map, Hlen, H7;
            repeat split; reflexivity].
  rewrite <- Hfl. clear Hfl.
  destruct fl as [|s0 [|s1 [|s2 [|s3 [|s4 [|s5 [|s6 [|s7 fl]]]]]]]];
    try discriminate.
  destruct s0, s1, s2, s3, s4, s5, s6. cbn [map fst].
  rewrite (Hget 0 _ _ eq_refl), (Hget 1 _ _ eq_refl), (Hget 2 _ _ eq_refl),
    (Hget 3 _ _ eq_refl), (Hget 4 _ _ eq_refl), (Hget 5 _ _ eq_refl),
    (Hget 6 _ _ eq_refl).
  reflexivity.
Qed.

(** C4: the groups are exactly the sections with at least one file, placed
    at consecutive indices: a section without files is not stored and takes
    no index (a section with files sits at the index that counts the
    sections with files before it); when no section is emitted the groups
    are empty, and empty groups come with one row and one column. *)
Theorem empty_sections_dropped (content : string) :
  let r := extract content in
  let lines := Str.split "010" content in
  ex_referenceGroups r = assign 0 (filter nonempty (sections lines)) Obj.empty
  /\ (forall l c, In (l, c) (ex_referenceGroups r) ->
                  files c <> [] /\ In (l, files c) (sections lines))
  /\ (forall l, (forall fs, In (l, fs) (sections lines) -> fs = []) ->
                Obj.get l (ex_referenceGroups r) = None)
  /\ (forall pre l fs post,
         sections lines = pre ++ (l, fs) :: post -> fs <> [] ->
         nth_error (flushed lines) (length (filter nonempty pre)) = Some (l, fs))
  /\ (flushed lines = [] -> ex_referenceGroups r = [])
  /\ (ex_referenceGroups r = [] -> ex_rows r = 1 /\ ex_cols r = 1).
Proof.
  cbv zeta. destruct (extract_spec content) as (Hg & Hr & Hc). cbv zeta in Hg, Hr, Hc.
  assert (Hin : forall l c, In (l, c) (ex_referenceGroups (extract content)) ->
                files c <> [] /\ In (l, files c) (sections (Str.split "010" content))).
  { intros l c H. apply groups_In in H. destruct H as (i & Hi & _).
    apply nth_error_In in Hi. apply flushed_In in Hi. tauto. }
  split; [exact Hg|]. split; [exact Hin|]. split; [|split; [|split]].
  - intros l Hl. apply get_None. intros c H. apply Hin in H.
    destruct H as [Hne H]. apply Hl in H. contradiction.
  - intros pre l fs post Hs Hne. unfold Parser.flushed. rewrite Hs.
    apply filter_index. unfold nonempty. simpl. destruct fs; [congruence | reflexivity].
  - intros Hf. rewrite Hg, Hf. reflexivity.
  - intros He. rewrite Hr, Hc, He. split; reflexivity.
Qed.


(** ** Title and description *)

Lemma append_assoc (a b c : string) : ((a ++ b) ++ c = a ++ (b ++ c))%string.
Proof. induction a as [|x a IH]; simpl; [reflexivity | now rewrite IH]. Qed.

Lemma truthy_append (a b : string) :
  Str.truthy (a ++ b) = Str.truthy a || Str.truthy b.
Proof. destruct a; simpl; [reflexivity|]. reflexivity. Qed.

Lemma prose_not_heading (line : string) :
  is_prose line = true -> is_title line = false /\ is_section line = false.
Proof.
  unfold is_prose, is_title, is_section. intros H.
  apply andb_true_iff in H. destruct H as [_ H]. apply negb_true_iff in H.
  destruct line as [|c line]; [split; reflexivity|].
  cbn [Str.startsWith andb] in H |- *. rewrite andb_true_r in H.
  rewrite H. split; reflexivity.
Qed.

Lemma step_heading_state (st : PState) (raw : string) :
  is_title (Str.trim raw) && String.eqb (name st) placeholder = false ->
  heading_state (step st raw) = heading_state (capture_description (Str.trim raw) st).
Proof.
  intros H. unfold Parser.step. rewrite H.
  destruct (is_section (Str.trim raw)); [|reflexivity].
  destruct (has_files (capture_description (Str.trim raw) st)); reflexivity.
Qed.

(** Outside description capture, a line that is not taken as the title
    changes neither the title nor the description. *)
Lemma step_idle (st : PState) (raw : string) :
  is_title (Str.trim raw) && String.eqb (name st) placeholder = false ->
  inDescription st = false ->
  heading_state (step st raw) = heading_state st.
Proof.
  intros H Hd. rewrite step_heading_state by assumption.
  unfold capture_description. rewrite Hd. reflexivity.
Qed.

Lemma fold_idle (ls : list string) (st : PState) :
  inDescription st = false ->
  String.eqb (name st) placeholder = false
  \/ Forall (fun l => is_title (Str.trim l) = false) ls ->
  heading_state (fold_left step ls st) = heading_state st.
Proof.
  revert st. induction ls as [|raw ls IH]; intros st Hd Hn; [reflexivity|].
  assert (Ht : is_title (Str.trim raw) && String.eqb (name st) placeholder = false).
  { destruct Hn as [Hn|Hn]; [rewrite Hn; apply andb_false_r|].
    inversion Hn as [|? ? H1 _]; subst. now rewrite H1. }
  pose proof (step_idle st raw Ht Hd) as Hs.
  unfold heading_state in Hs. injection Hs as H1 H2 H3.
  simpl. rewrite IH.
  - unfold heading_state. now rewrite H1, H2, H3.
  - now rewrite H3.
  - rewrite H1. destruct Hn as [Hn|Hn]; [now left|].
    right. now inversion Hn.
Qed.

Lemma step_prose (st : PState) (raw : string) :
  String.eqb (name st) placeholder = false ->
  inDescription st = true ->
  is_prose (Str.trim raw) = true ->
  heading_state (step st raw)
  = (name st, glue (description st) (Str.trim raw), true).
Proof.
  intros Hn Hd Hp. rewrite step_heading_state by (rewrite Hn; apply andb_false_r).
  unfold capture_description. rewrite Hd. unfold is_prose in Hp.
  cbn [andb]. rewrite Hp. reflexivity.
Qed.

Lemma fold_prose (body : list string) (st : PState) :
  String.eqb (name st) placeholder = false ->
  inDescription st = true ->
  Forall (fun l => is_prose (Str.trim l) = true) body ->
  heading_state (fold_left step body st)
  = (name st, fold_left glue (map Str.trim body) (description st), true).
Proof.
  revert st. induction body as [|raw body IH]; intros st Hn Hd Hb.
  - simpl. unfold heading_state. now rewrite Hd.
  - inversion Hb as [|? ? H1 H2]; subst.
    pose proof (step_prose st raw Hn Hd H1) as Hs.
    unfold heading_state in Hs. injection Hs as E1 E2 E3.
    simpl. rewrite IH; [now rewrite E1, E2 | now rewrite E1 | assumption | assumption].
Qed.

Lemma step_stop (st : PState) (raw : string) :
  String.eqb (name st) placeholder = false ->
  inDescription st = true ->
  is_prose (Str.trim raw) = false ->
  heading_state (step st raw) = (name st, description st, false).
Proof.
  intros Hn Hd Hp. rewrite step_heading_state by (rewrite Hn; apply andb_false_r).
  unfold capture_description. rewrite Hd. unfold is_prose in Hp.
  cbn [andb]. rewrite Hp.
  assert (E : Str.startsWith (Str.trim raw) "#" || String.eqb (Str.trim raw) "" = true).
  { destruct (Str.trim raw) as [|c t]; [reflexivity|].
    cbn [Str.startsWith Str.truthy String.eqb negb andb] in Hp |- *.
    destruct (Ascii.eqb c "#"); [reflexivity | discriminate]. }
  rewrite E. reflexivity.
Qed.

Lemma glue_join (ls : list string) (d : string) :
  Forall (fun l => Str.truthy l = true) ls ->
  fold_left glue ls d
  = if Str.truthy d then Str.join " " (d :: ls) else Str.join " " ls.
Proof.
  revert d. induction ls as [|l ls IH]; intros d H.
  - simpl. destruct d; reflexivity.
  - inversion H as [|? ? Hl Hls]; subst. cbn [fold_left]. rewrite IH by assumption.
    unfold glue. destruct (Str.truthy d) eqn:Ed.
    + rewrite !truthy_append, Ed. cbn [orb]. cbn [Str.join].
      destruct ls as [|l' ls]; [now rewrite append_assoc|].
      now rewrite !append_assoc.
    + destruct d; [|discriminate]. cbn [append]. rewrite Hl. reflexivity.
Qed.

(** The title and the description of a document whose first level-1
    heading [t] does not carry the placeholder text: [pre] has no level-1
    heading, [body] is the paragraph right after the title, and [rest] is
    empty or starts with a line that ends the paragraph. *)
Lemma title_and_description (lines pre body rest : list string) (t : string) :
  lines = pre ++ t :: body ++ rest ->
  Forall (fun l => is_title (Str.trim l) = false) pre ->
  is_title (Str.trim t) = true ->
  Str.trim (Str.substring_from 2 (Str.trim t)) <> placeholder ->
  Forall (fun l => is_prose (Str.trim l) = true) body ->
  match rest with
  | [] => True
  | l :: _ => is_prose (Str.trim l) = false
  end ->
  name (run lines) = Str.trim (Str.substring_from 2 (Str.trim t))
  /\ description (run lines) = Str.join " " (map Str.trim body).
Proof.
  intros -> Hpre Ht Hne Hbody Hrest. unfold Parser.run.
  rewrite fold_left_app. cbn [fold_left]. rewrite fold_left_app.
  set (st0 := fold_left step pre initial).
  assert (H0 : heading_state st0 = heading_state initial).
  { apply fold_idle; [reflexivity | now right]. }
  unfold heading_state in H0. cbn in H0. injection H0 as N0 D0 I0.
  set (st1 := step st0 t).
  assert (H1 : heading_state st1
               = (Str.trim (Str.substring_from 2 (Str.trim t)), "", true)).
  { unfold st1, Parser.step. rewrite Ht, N0. cbn [String.eqb andb].
    change (String.eqb placeholder placeholder) with true. cbn [andb].
    unfold heading_state. cbn. now rewrite D0. }
  unfold heading_state in H1. injection H1 as N1 D1 I1.
  assert (Hn1 : String.eqb (name st1) placeholder = false).
  { rewrite N1. now apply String.eqb_neq. }
  set (st2 := fold_left step body st1).
  pose proof (fold_prose body st1 Hn1 I1 Hbody) as H2. fold st2 in H2.
  rewrite D1, glue_join in H2.
  2:{ rewrite Forall_map. eapply Forall_impl; [|exact Hbody].
      intros l Hl. unfold is_prose in Hl. now apply andb_true_iff in Hl. }
  cbn [Str.truthy String.eqb negb] in H2.
  unfold heading_state in H2. injection H2 as N2 D2 I2.
  assert (Hn2 : String.eqb (name st2) placeholder = false) by now rewrite N2.
  assert (H3 : name (fold_left step rest st2) = name st2
               /\ description (fold_left step rest st2) = description st2).
  { destruct rest as [|l rest]; [split; reflexivity | cbn [fold_left]].
    pose proof (step_stop st2 l Hn2 I2 Hrest) as Hs.
    unfold heading_state in Hs. injection Hs as E1 E2 E3.
    pose proof (fold_idle rest (step st2 l) E3) as Hi.
    unfold heading_state in Hi. rewrite E1, E2, E3 in Hi.
    specialize (Hi (or_introl Hn2)). injection Hi as F1 F2 _.
    now split. }
  destruct H3 as [N3 D3].
  rewrite N3, D3, N2, D2, N1. split; reflexivity.
Qed.

Lemma join_truthy (x : string) (xs : list string) :
  Str.truthy x = true -> Str.truthy (Str.join " " (x :: xs)) = true.
Proof.
  intros H. destruct xs as [|y ys]; [exact H|].
  cbn [Str.join]. rewrite truthy_append, H. reflexivity.
Qed.

(** C3 (amended): for a document whose first level-1 heading [t] does not
    carry the placeholder text, with [body] the lines right after it that
    are neither empty nor headings and [rest] empty or starting with the
    line that ends the paragraph, the description is the trimmed lines of
    [body] joined by single spaces; when [body] is empty it is the fixed
    default text.  Nothing of [rest] enters the description. *)
Theorem description_capture (content : string) (pre body rest : list string)
        (t : string) :
  Str.split "010" content = pre ++ t :: body ++ rest ->
  Forall (fun l => is_title (Str.trim l) = false) pre ->
  is_title (Str.trim t) = true ->
  Str.trim (Str.substring_from 2 (Str.trim t)) <> placeholder ->
  Forall (fun l => is_prose (Str.trim l) = true) body ->
  match rest with
  | [] => True
  | l :: _ => is_prose (Str.trim l) = false
  end ->
  ex_description (extract content)
  = match body with
    | [] => default_description
    | _ :: _ => Str.join " " (map Str.trim body)
    end.
Proof.
  intros Hs Hpre Ht Hne Hbody Hrest.
  destruct (title_and_description _ pre body rest t Hs Hpre Ht Hne Hbody Hrest)
    as [_ Hd].
  unfold Parser.extractStructureFromMarkdown, finish. cbn [ex_description].
  assert (E : description (save_last (run (Str.split "010" content)))
              = description (run (Str.split "010" content))).
  { unfold save_last. destruct (has_files _); reflexivity. }
  rewrite E, Hd. destruct body as [|l body]; [reflexivity|].
  cbn [map]. rewrite join_truthy; [reflexivity|].
  inversion Hbody as [|? ? Hl _]; subst. unfold is_prose in Hl.
  now apply andb_true_iff in Hl.
Qed.

(** The title of such a document is the text of that heading. *)
Lemma title_capture (content : string) (pre rest : list string) (t : string) :
  Str.split "010" content = pre ++ t :: rest ->
  Forall (fun l => is_title (Str.trim l) = false) pre ->
  is_title (Str.trim t) = true ->
  Str.trim (Str.substring_from 2 (Str.trim t)) <> placeholder ->
  ex_name (extract content) = Str.trim (Str.substring_from 2 (Str.trim t)).
Proof.
  intros Hs Hpre Ht Hne.
  unfold Parser.extractStructureFromMarkdown, finish, Parser.run. cbn [ex_name].
  rewrite Hs, fold_left_app. cbn [fold_left].
  set (st0 := fold_left step pre initial).
  assert (H0 : heading_state st0 = heading_state initial).
  { apply fold_idle; [reflexivity | now right]. }
  unfold heading_state in H0. cbn in H0. injection H0 as N0 D0 I0.
  assert (N1 : name (step st0 t) = Str.trim (Str.substring_from 2 (Str.trim t))).
  { unfold Parser.step. rewrite Ht, N0.
    change (String.eqb placeholder placeholder) with true. reflexivity. }
  assert (I1 : String.eqb (name (step st0 t)) placeholder = false).
  { rewrite N1. now apply String.eqb_neq. }
  assert (N2 : name (fold_left step rest (step st0 t)) = name (step st0 t)).
  { clear N1. revert I1. generalize (step st0 t). clear.
    induction rest as [|l rest IH]; intros st Hn; [reflexivity|].
    cbn [fold_left].
    assert (E : name (step st l) = name st).
    { unfold Parser.step. rewrite Hn, andb_false_r.
      destruct (capture_description_fields (Str.trim l) st) as (E & _).
      destruct (is_section (Str.trim l)); [|exact E].
      destruct (has_files (capture_description (Str.trim l) st)); exact E. }
    rewrite IH; [exact E | now rewrite E]. }
  assert (E : name (save_last (fold_left step rest (step st0 t)))
              = name (fold_left step rest (step st0 t))).
  { unfold save_last. destruct (has_files _); reflexivity. }
  rewrite E, N2, N1.
  now rewrite (title_truthy t Ht).
Qed.

(** Without a level-1 heading the title is the placeholder. *)
Lemma title_default (content : string) :
  Forall (fun l => is_title (Str.trim l) = false) (Str.split "010" content) ->
  ex_name (extract content) = placeholder.
Proof.
  intros H.
  unfold Parser.extractStructureFromMarkdown, finish, Parser.run. cbn [ex_name].
  assert (H0 : heading_state (fold_left step (Str.split "010" content) initial)
               = heading_state initial).
  { apply fold_idle; [reflexivity | now right]. }
  unfold heading_state in H0. cbn in H0. injection H0 as N0 _ _.
  assert (E : name (save_last (fold_left step (Str.split "010" content) initial))
              = placeholder).
  { unfold save_last. destruct (has_files _); exact N0. }
  rewrite E. reflexivity.
Qed.

(** The existence filter: with a repository path a candidate whose joined
    path does not exist is dropped; without one nothing is dropped. *)
Lemma existence_filter (line : string) (m : Regex.rmatch_result) (filePath : string) :
  matched_path line m = Some filePath ->
  Str.truthy filePath && negb (Str.startsWith filePath "http")
  && negb (Str.startsWith filePath "//") = true ->
  candidate line m
  = match repositoryPath with
    | Some repo =>
        if Str.truthy repo && negb (existsSync (path_join repo (Str.trim filePath)))
        then [] else [Str.trim filePath]
    | None => [Str.trim filePath]
    end.
Proof.
  intros Hm Hok. unfold Parser.candidate, missing. rewrite Hm, Hok.
  destruct repositoryPath; reflexivity.
Qed.

End ParserFacts.

(** * Facts about viewCreation.ts *)

Section CreationFacts.

Variable W : Type.
Variable h : Host W.


(** The title of an extracted structure is never empty. *)
Lemma ex_name_truthy (pj : string -> string -> string) (ex : string -> bool)
      (repo : option string) (content : string) :
  Str.truthy (ex_name (extractStructureFromMarkdown pj ex repo content)) = true.
Proof.
  unfold extractStructureFromMarkdown, finish. cbn [ex_name].
  destruct (Str.truthy (name _)) eqn:E; [exact E | reflexivity].
Qed.

Lemma resolve_name_spec (options : Options.t) (extracted : ExtractedStructure)
      (filePath : string) :
  Str.truthy (ex_name extracted) = true ->
  resolve_name h options extracted filePath
  = specified_name h (Options.name options) (ex_name extracted) filePath.
Proof.
  intros Ht. unfold resolve_name, specified_name, name_from_title, or_default, or_string.
  destruct (Options.name options) as [n|].
  - destruct (Str.truthy n) eqn:En.
    + rewrite En. cbn [negb orb]. rewrite orb_false_r. reflexivity.
    + rewrite Ht. cbn [negb]. rewrite orb_false_r. reflexivity.
  - rewrite Ht. cbn [negb]. rewrite orb_false_r. reflexivity.
Qed.

(** What [build_and_save] returns when it returns: a success whose name is
    the resolved one. *)
Lemma build_and_save_returns (repo : string) (docInfo : Doc.t) (options : Options.t)
      (category relativePath docContent : string) (w w' : W) (r : Creation.t) :
  build_and_save h repo docInfo options category relativePath docContent w
  = (Return r, w') ->
  Creation.file r = Doc.filePath docInfo
  /\ Creation.success r = true
  /\ Creation.viewName r
     = Some (resolve_name h options
               (extractStructureFromMarkdown (path_join h) (fs_existsSync h w)
                                             (Some repo) docContent)
               (Doc.filePath docInfo)).
Proof.
  unfold build_and_save, bind, observe, ret.
  destruct (generateViewIdFromName h _ w) as [[vid|e] w1]; [|discriminate].
  destruct (now_ISOString h w1) as [[stamp|e] w2]; [|discriminate].
  destruct (flag (Options.dryRun options)).
  { intros [= <- <-]. repeat split. }
  destruct (flag (Options.skipValidation options)).
  { destruct (saveView h repo _ w2) as [[u|e] w3]; [|discriminate].
    intros [= <- <-]. repeat split. }
  destruct (saveViewWithValidation h repo _ w2) as [[vr|e] w3]; [|discriminate].
  intros [= <- <-]. repeat split.
Qed.






(** C7 (amended): the name of a created view is the supplied name when one
    is supplied, not empty and not the placeholder; otherwise the extracted
    title unless it is the placeholder; otherwise (a supplied name equal to
    the placeholder included) the name derived from the document's path. *)
Theorem name_resolution (repo : string) (docInfo : Doc.t) (options : Options.t)
        (w w' : W) (r : Creation.t) :
  createViewFromDocument h repo docInfo options w = (Return r, w') ->
  Creation.success r = true ->
  exists w0 w1 docContent,
    fs_readFileSync h (Doc.fullPath docInfo) w0 = (Return docContent, w1)
    /\ let title := ex_name (extractStructureFromMarkdown
                               (path_join h) (fs_existsSync h w1) (Some repo)
                               docContent) in
       Creation.viewName r
       = Some (specified_name h (Options.name options) title (Doc.filePath docInfo))
       /\ (forall n, Options.name options = Some n -> Str.truthy n = true ->
                     n <> placeholder -> Creation.viewName r = Some n).
Proof.
  unfold createViewFromDocument, bind, try_catch, ret.
  destruct (new_NodeFileSystemAdapter h w) as [[[]|e] wa]; [|discriminate].
  destruct (new_MemoryPalace h repo wa) as [[[]|e] wb]; [|discriminate].
  destruct (guarded h repo docInfo options _ wb) as [[r0|e] wc] eqn:E.
  2:{ intros [= <- <-]. discriminate. }
  intros [= -> ->] Hs. revert E. unfold guarded, bind, attempt, ret.
  destruct (validateRelativePath h repo (Doc.fullPath docInfo) wb) as [[rel|e] w1].
  2:{ intros [= <- <-]. discriminate. }
  destruct (adapter_exists h (Doc.fullPath docInfo) w1) as [[found|e] w2]; [|discriminate].
  destruct found; cbn [negb].
  2:{ intros [= <- <-]. discriminate. }
  destruct (fs_readFileSync h (Doc.fullPath docInfo) w2) as [[content|e] w3] eqn:Er.
  2:{ intros [= <- <-]. discriminate. }
  intros H. apply build_and_save_returns in H. destruct H as (_ & _ & Hn).
  exists w2, w3, content. split; [exact Er|]. cbv zeta.
  rewrite resolve_name_spec in Hn by apply ex_name_truthy.
  split; [exact Hn|].
  intros n Hn1 Hn2 Hn3. rewrite Hn. unfold specified_name. rewrite Hn1, Hn2.
  apply String.eqb_neq in Hn3. now rewrite Hn3.
Qed.

End CreationFacts.

(** * Facts about validation.ts *)

Section ValidationFacts.

Variable W : Type.
Variable h : Host W.

Import Validate.

Lemma validate_loop_spec (repo : string) (views : list View.t)
      (rs : list ViewResult) (w : W) :
  validate_loop h repo views rs w
  = (Return (rs ++ map (fun p => result_of (fst p) (snd p))
                       (combine views (fst (validate_each h repo views w)))),
     snd (validate_each h repo views w)).
Proof.
  revert rs w. induction views as [|v vs IH]; intros rs w.
  - simpl. unfold ret. now rewrite app_nil_r.
  - cbn [validate_loop validate_each]. unfold bind at 1, attempt.
    destruct (validateView h repo v w) as [o w1].
    rewrite IH. destruct (validate_each h repo vs w1) as [os w2].
    cbn [fst snd combine map]. now rewrite <- app_assoc.
Qed.

Lemma validate_each_length (repo : string) (views : list View.t) (w : W) :
  length (fst (validate_each h repo views w)) = length views.
Proof.
  revert w. induction views as [|v vs IH]; intros w; [reflexivity|].
  cbn [validate_each]. destruct (validateView h repo v w) as [o w1].
  specialize (IH w1). destruct (validate_each h repo vs w1) as [os w2].
  simpl in *. now rewrite IH.
Qed.

Lemma combine_nth_error {A B : Type} (xs : list A) (ys : list B) (i : nat)
      (x : A) (y : B) :
  nth_error xs i = Some x -> nth_error ys i = Some y ->
  nth_error (combine xs ys) i = Some (x, y).
Proof.
  revert ys i. induction xs as [|x' xs IH]; intros [|y' ys] [|i] Hx Hy;
    try discriminate; simpl in *.
  - now injection Hx as ->; injection Hy as ->.
  - now apply IH.
Qed.

Lemma filter_partition_length {A : Type} (f : A -> bool) (xs : list A) :
  length xs = length (filter f xs) + length (filter (fun x => negb (f x)) xs).
Proof.
  induction xs as [|x xs IH]; [reflexivity|].
  simpl. destruct (f x); simpl; lia.
Qed.

(** C10: a returned summary has [totalViews = validViews + invalidViews],
    the length of [results], with [validViews] and [invalidViews] the
    numbers of results with and without [success]; and once the views are
    listed the function returns whatever [validateView] does: there is one
    result per view, in order, and the result of a view whose validation
    throws has [success = false], the message of the exception and a
    summary of exactly one error. *)
Theorem validate_all_summary (repo : string) (w : W) :
  (forall s w',
      validateAllViews h repo w = (Return s, w') ->
      totalViews s = validViews s + invalidViews s
      /\ totalViews s = length (results s)
      /\ validViews s = length (filter success (results s))
      /\ invalidViews s = length (filter (fun r => negb (success r)) (results s)))
  /\ (forall w1 w2 w3 views,
         new_NodeFileSystemAdapter h w = (Return tt, w1) ->
         new_MemoryPalace h repo w1 = (Return tt, w2) ->
         listViews h repo w2 = (Return views, w3) ->
         let outcomes := fst (validate_each h repo views w3) in
         exists s,
           validateAllViews h repo w
           = (Return s, snd (validate_each h repo views w3))
           /\ length (results s) = length views
           /\ results s = map (fun p => result_of (fst p) (snd p))
                              (combine views outcomes)
           /\ (forall i view e,
                  nth_error views i = Some view ->
                  nth_error outcomes i = Some (Throw e) ->
                  exists r, nth_error (results s) i = Some r
                            /\ viewId r = View.id view
                            /\ success r = false
                            /\ error r = Some (error_text e)
                            /\ Validation.summary (validationResult r)
                               = Validation.MkSummary 1 0 0)).
Proof.
  split.
  - intros s w'. unfold validateAllViews, bind, ret.
    destruct (new_NodeFileSystemAdapter h w) as [[[]|e] w1]; [|discriminate].
    destruct (new_MemoryPalace h repo w1) as [[[]|e] w2]; [|discriminate].
    destruct (listViews h repo w2) as [[views|e] w3]; [|discriminate].
    rewrite validate_loop_spec. intros [= <- _]. cbn [app].
    unfold summarize. cbn [totalViews validViews invalidViews results].
    repeat split. apply filter_partition_length.
  - intros w1 w2 w3 views Ha Hp Hl. cbv zeta.
    unfold validateAllViews, bind, ret. rewrite Ha, Hp, Hl, validate_loop_spec.
    cbn [app]. eexists. split; [reflexivity|].
    unfold summarize. cbn [results].
    split; [|split; [reflexivity|]].
    + rewrite length_map, length_combine, validate_each_length. apply Nat.min_id.
    + intros i view e Hv Ho. exists (caught view e).
      split; [|repeat split].
      apply (map_nth_error (fun p => result_of (fst p) (snd p)) i
                           (combine views (fst (validate_each h repo views w3)))
                           (d := (view, Throw e))).
      now apply combine_nth_error.
Qed.

End ValidationFacts.

(** * Facts about coverage.ts *)

Section CoverageFacts.

Variable path_extname : string -> string.

Import Coverage.

Lemma insert_sorted_length (x : string) (xs : list string) :
  length (insert_sorted x xs) = S (length xs).
Proof.
  induction xs as [|y xs IH]; simpl; [reflexivity|].
  destruct (String.leb x y); simpl; [reflexivity | now rewrite IH].
Qed.

Lemma sort_length (xs : list string) : length (sort xs) = length xs.
Proof.
  induction xs as [|x xs IH]; simpl; [reflexivity|].
  now rewrite insert_sorted_length, IH.
Qed.

Lemma visit_covered (referenced : list string) (files : list string) (a : Acc) :
  acc_covered (fold_left (visit path_extname referenced) files a)
  = acc_covered a ++ filter (fun f => includes f referenced) files.
Proof.
  revert a. induction files as [|f fs IH]; intros a; simpl.
  - now rewrite app_nil_r.
  - rewrite IH. unfold visit. destruct (includes f referenced); simpl.
    + now rewrite <- app_assoc.
    + reflexivity.
Qed.

(** C8: [totalFiles] is the size of the source set and [coveredFiles] the
    number of its files that are referenced; the percentage is
    [coveredFiles / totalFiles * 100] in double arithmetic when
    [totalFiles > 0], and exactly 100, which is not NaN, when
    [totalFiles = 0]; an empty source set has [totalFiles = 0] and 100. *)
Theorem coverage_percentage (sourceFiles referencedFiles : list string) :
  let m := calculateCoverageMetrics path_extname sourceFiles referencedFiles in
  totalFiles m = length sourceFiles
  /\ coveredFiles m
     = length (filter (fun f => includes f referencedFiles) sourceFiles)
  /\ (0 < totalFiles m ->
      coveragePercentage m
      = PrimFloat.mul (PrimFloat.div (number (coveredFiles m)) (number (totalFiles m)))
                      100%float)
  /\ (totalFiles m = 0 ->
      coveragePercentage m = 100%float
      /\ PrimFloat.is_nan (coveragePercentage m) = false)
  /\ (sourceFiles = [] -> totalFiles m = 0 /\ coveragePercentage m = 100%float).
Proof.
  cbv zeta. unfold calculateCoverageMetrics.
  cbn [totalFiles coveredFiles coveragePercentage].
  split; [reflexivity|]. split.
  { rewrite sort_length, visit_covered. reflexivity. }
  split.
  { intros H. apply Nat.ltb_lt in H. now rewrite H. }
  split.
  { intros H. rewrite H. cbn [Nat.ltb Nat.leb]. split; reflexivity. }
  intros ->. split; reflexivity.
Qed.

End CoverageFacts.

(** * The theorems on the documents of the small repository *)

Import Example.

(** The emitted sections of [seven_distinct] have distinct labels, and its
    seven groups lie on a 3 x 3 grid in heading order. *)
Lemma grid_assignment_witness :
  let lines := Str.split "010" seven_distinct in
  let r := extract (Some repo) seven_distinct in
  NoDup (map fst (flushed join on_disk (Some repo) lines))
  /\ ~ In "__proto__" (map fst (flushed join on_disk (Some repo) lines))
  /\ map (fun s => option_map coordinates (Obj.get (fst s) (ex_referenceGroups r)))
         (sections join on_disk (Some repo) lines)
     = map Some [(0, 0); (0, 1); (0, 2); (1, 0); (1, 1); (1, 2); (2, 0)]
  /\ length (Obj.keys (ex_referenceGroups r)) = 7
  /\ ex_rows r = 3 /\ ex_cols r = 3.
Proof.
  cbv zeta.
  assert (Hn : NoDup (map fst (flushed join on_disk (Some repo)
                                       (Str.split "010" seven_distinct)))).
  { vm_compute. repeat constructor; simpl; intuition discriminate. }
  assert (Hp : ~ In "__proto__" (map fst (flushed join on_disk (Some repo)
                                                  (Str.split "010" seven_distinct)))).
  { vm_compute. intuition discriminate. }
  split; [exact Hn|]. split; [exact Hp|].
  apply (proj2 (proj2 (proj2
          (proj2 (grid_assignment join on_disk (Some repo) seven_distinct) Hn Hp)))).
  - vm_compute. reflexivity.
  - vm_compute. repeat constructor; discriminate.
Defined.

(** Seven sections with a file each under one label give one group, at
    [2,0]; with the reserved key among the labels they give six groups. *)
Lemma grid_assignment_counterexample :
  (length (sections join on_disk (Some repo) (Str.split "010" seven_same)) = 7
   /\ forallb nonempty (sections join on_disk (Some repo) (Str.split "010" seven_same))
      = true
   /\ map (fun kv => coordinates (snd kv))
          (ex_referenceGroups (extract (Some repo) seven_same))
      = [(2, 0)])
  /\ (length (sections join on_disk (Some repo) (Str.split "010" seven_reserved)) = 7
      /\ forallb nonempty
                 (sections join on_disk (Some repo) (Str.split "010" seven_reserved))
         = true
      /\ map (fun kv => coordinates (snd kv))
             (ex_referenceGroups (extract (Some repo) seven_reserved))
         = [(0, 0); (0, 1); (0, 2); (1, 0); (1, 1); (1, 2)]).
Proof. vm_compute. repeat split. Qed.

(** C2 (failing input): the first level-1 heading carries the text
    "Codebase View"; the title returned is the text of the second level-1
    heading, and the paragraph after the second heading is added to the
    description. *)
Theorem title_taken_from_second_heading :
  let r := extract None (text ["# Codebase View"; "first"; ""; "# Second"; "more"]) in
  ex_name r = "Second" /\ ex_description r = "first more".
Proof. vm_compute. split; reflexivity. Qed.

Lemma description_capture_witness :
  ex_description (extract (Some repo) guide) = "How the parts fit together.".
Proof.
  apply (description_capture join on_disk (Some repo) guide []
           ["How the parts fit"; "together."]
           [""; "A later paragraph."; "## Parser";
            "[parser](src/a.ts) and [again](src/a.ts)";
            "[helper](src/c.ts) then [parser](src/a.ts)"]
           "# Guide").
  - vm_compute. reflexivity.
  - constructor.
  - reflexivity.
  - vm_compute. discriminate.
  - repeat constructor.
  - reflexivity.
Defined.

(** A title followed by a blank line: no line follows the title, and the
    description is the default text, not the empty string. *)
Lemma description_capture_counterexample :
  ex_description (extract None (text ["# T"; ""; "later"]))
  = "Codebase view extracted from documentation"
  /\ Str.join " " (map Str.trim []) = "".
Proof. vm_compute. split; reflexivity. Qed.

(** C5 (failing input): in the scenario of the specification the two
    backtick references give the single file "ts" without a repository
    path, and no group at all when [src/a.ts] exists and the repository
    path is given. *)
Theorem scenario_files :
  map (fun kv => (fst kv, files (snd kv)))
      (ex_referenceGroups (extract None scenario))
  = [("Section A", ["ts"])]
  /\ ex_referenceGroups (extract (Some repo) scenario) = []
  /\ on_disk "/repo/src/a.ts" = true /\ on_disk "/repo/src/b.ts" = false.
Proof. vm_compute. repeat split. Qed.


Lemma name_resolution_witness :
  match fst (createViewFromDocument host repo api_guide (dry_run (Some "Mine")) []) with
  | Return r => Creation.viewName r = Some "Mine"
  | Throw _ => False
  end.
Proof.
  destruct (createViewFromDocument host repo api_guide (dry_run (Some "Mine")) [])
    as [[r|e] w'] eqn:E; cbn [fst].
  - assert (Hs : Creation.success r = true).
    { vm_compute in E. injection E as <- _. reflexivity. }
    destruct (name_resolution World host repo api_guide _ [] w' r E Hs)
      as (w0 & w1 & c & _ & _ & Hn).
    apply Hn; [reflexivity | reflexivity | discriminate].
  - vm_compute in E. discriminate.
Defined.

(** The supplied name is "Codebase View": the view is named after the path. *)
Lemma name_resolution_counterexample :
  match fst (createViewFromDocument host repo api_guide
                                    (dry_run (Some "Codebase View")) []) with
  | Return r => Creation.success r = true
                /\ Creation.viewName r = Some "Docs - Api Guide"
  | Throw _ => False
  end.
Proof. vm_compute. split; reflexivity. Qed.



(** Two of four source files are referenced: 50 percent. *)
Example coverage_half :
  Coverage.coveragePercentage
    (Coverage.calculateCoverageMetrics extname
       ["src/a.ts"; "src/b.ts"; "README.md"; "Makefile"] ["src/a.ts"; "README.md"])
  = 50%float.
Proof. vm_compute. reflexivity. Qed.

(** ** The matcher and the other functions on small inputs *)

(** Group 2 of the backtick pattern is the extension; a span without an
    extension is passed over; the [i] flag accepts upper case. *)
Example backtick_groups :
  groups_of Patterns.backtick "See `src/a.ts` and `b.TSX`, `nofile` `x y.md`"
  = [(Some "src/a.ts", Some "ts"); (Some "b.TSX", Some "TSX");
     (Some "x y.md", Some "md")].
Proof. vm_compute. reflexivity. Qed.

(** The bare pattern consumes the white space after a path, so a path that
    follows after a single space is not matched. *)
Example bare_consumes_separator :
  groups_of Patterns.bare "a.ts b.ts  c.ts"
  = [(Some "a.ts", Some "ts"); (Some "c.ts", Some "ts")].
Proof. vm_compute. reflexivity. Qed.

(** Group 2 of the link pattern is the target; a target that starts with
    [http] is not a candidate. *)
Example link_targets :
  groups_of Patterns.link "[x](http://h.io/a.ts) [y](docs/b.md)"
  = [(Some "x", Some "http://h.io/a.ts"); (Some "y", Some "docs/b.md")]
  /\ candidates join on_disk None "[x](http://h.io/a.ts) [y](docs/b.md) **lib/c.js**"
     = ["js"; "docs/b.md"].
Proof. vm_compute. split; reflexivity. Qed.

Example view_name_of_path :
  generateViewNameFromPath host "README.md" = "README"
  /\ generateViewNameFromPath host "docs/getting_started/api-guide.md"
     = "Docs Getting Started - Api Guide".
Proof. vm_compute. split; reflexivity. Qed.

(** Four documents, two of them failing: four results, in order. *)
Example batch_of_four :
  match fst (createViewsFromDocuments host repo
               [api_guide; missing_doc; outside_doc; readme] Options.none []) with
  | Return rs =>
      map (fun r => (Creation.file r, Creation.success r, Creation.error r)) rs
      = [("docs/api-guide.md", true, None);
         ("gone.md", false, Some "File not found");
         ("../x.md", false, Some "File must be within repository");
         ("README.md", true, None)]
  | Throw _ => False
  end.
Proof. vm_compute. reflexivity. Qed.

(** Three stored views, the validation of the second throws. *)
Example validate_three :
  match fst (Validate.validateAllViews host repo
               [stored "a"; stored "broken"; stored "c"]) with
  | Return s =>
      (Validate.totalViews s, Validate.validViews s, Validate.invalidViews s,
       Validate.errorCount s)
      = (3, 2, 1, 1)
      /\ map Validate.error (Validate.results s)
         = [None; Some "cannot validate"; None]
  | Throw _ => False
  end.
Proof. vm_compute. split; reflexivity. Qed.

(** * Further properties *)

(** ** More facts about objects *)

Section PutFacts.

Context {A B : Type}.
Variable f : A -> B.

Lemma put_keys_NoDup (k : string) (v : A) (o : Obj.t A) :
  NoDup (map fst o) -> NoDup (map fst (Obj.put k v o)).
Proof.
  induction o as [|[k' v'] o IH]; simpl; intros H.
  - constructor; [intros [] | constructor].
  - inversion H as [|? ? Hn Hr]; subst.
    destruct (String.eqb_spec k k') as [->|Hk]; simpl; [exact H|].
    constructor; [|now apply IH].
    intros Hin. apply in_map_iff in Hin. destruct Hin as ([k2 v2] & E & Hin).
    simpl in E. subst k2. apply In_put in Hin. destruct Hin as [Hin|Hin].
    + apply Hn. now apply (in_map fst) in Hin.
    + injection Hin as -> _. congruence.
Qed.

Lemma put_values_NoDup (k : string) (v : A) (o : Obj.t A) :
  NoDup (map (fun kv => f (snd kv)) o) ->
  ~ In (f v) (map (fun kv => f (snd kv)) o) ->
  NoDup (map (fun kv => f (snd kv)) (Obj.put k v o)).
Proof.
  induction o as [|[k' v'] o IH]; simpl; intros H Hv.
  - constructor; [intros [] | constructor].
  - inversion H as [|? ? Hn Hr]; subst.
    destruct (String.eqb k k'); simpl.
    + constructor; [intros Hin; apply Hv; now right | assumption].
    + constructor; [| apply IH; [assumption | intros Hin; apply Hv; now right]].
      intros Hin. apply in_map_iff in Hin. destruct Hin as ([k2 v2] & E & Hin).
      simpl in E. apply In_put in Hin. destruct Hin as [Hin|Hin].
      * apply Hn. rewrite <- E. now apply (in_map (fun kv => f (snd kv))) in Hin.
      * injection Hin as _ ->. apply Hv. left. now symmetry.
Qed.

Lemma put_Forall (P : string * A -> Prop) (k : string) (v : A) (o : Obj.t A) :
  Forall P o -> P (k, v) -> Forall P (Obj.put k v o).
Proof.
  intros Ho Hv. apply Forall_forall. intros e He. apply In_put in He.
  destruct He as [He| ->]; [|assumption].
  rewrite Forall_forall in Ho. now apply Ho.
Qed.

End PutFacts.

(** * More properties of the parser *)

Section GridFacts.

Variable path_join : string -> string -> string.
Variable existsSync : string -> bool.
Variable repositoryPath : option string.

Local Abbreviation extract :=
  (Parser.extractStructureFromMarkdown path_join existsSync repositoryPath).
Local Abbreviation flushed := (Parser.flushed path_join existsSync repositoryPath).
Local Abbreviation sections := (Parser.sections path_join existsSync repositoryPath).
Local Abbreviation candidates := (Parser.candidates path_join existsSync repositoryPath).
Local Abbreviation candidate := (Parser.candidate path_join existsSync repositoryPath).
Local Abbreviation body_candidates :=
  (Parser.body_candidates path_join existsSync repositoryPath).

Lemma list_max_In (x : nat) (xs : list nat) : In x xs -> x <= list_max xs.
Proof.
  intros H. pose proof (proj1 (list_max_le xs (list_max xs)) (le_n _)) as F.
  rewrite Forall_forall in F. now apply F.
Qed.

Lemma extracted_bounds (content : string) :
  let r := extract content in
  1 <= ex_rows r /\ 1 <= ex_cols r <= 3
  /\ forall label cell,
      In (label, cell) (ex_referenceGroups r) ->
      fst (coordinates cell) < ex_rows r /\ snd (coordinates cell) < ex_cols r.
Proof.
  cbv zeta. destruct (extract_spec path_join existsSync repositoryPath content)
    as (Hg & Hr & Hc). cbv zeta in Hg, Hr, Hc.
  split; [|split].
  - rewrite Hr. destruct (0 <? _); lia.
  - rewrite Hc. destruct (0 <? _); lia.
  - intros label cell H.
    assert (Hne : (0 <? length (ex_referenceGroups (extract content))) = true).
    { apply Nat.ltb_lt. destruct (ex_referenceGroups (extract content));
        [contradiction | simpl; lia]. }
    apply groups_In in H. destruct H as (i & Hi & Hcell).
    assert (Hlt : i < length (flushed (Str.split "010" content))).
    { apply nth_error_Some. now rewrite Hi. }
    rewrite Hr, Hc, Hne, Hcell. cbn [coordinates cell_at fst snd].
    assert (Hin : In i (seq 0 (length (flushed (Str.split "010" content))))).
    { apply in_seq. lia. }
    pose proof (list_max_In (i / 3) _ (in_map (fun k => k / 3) _ _ Hin)) as H1.
    pose proof (list_max_In (i mod 3) _ (in_map (fun k => k mod 3) _ _ Hin)) as H2.
    pose proof (Nat.mod_upper_bound i 3 ltac:(discriminate)) as H3.
    split; lia.
Qed.

(** X1: the grid always has at least one row and between one and three
    columns, and the coordinates of every group lie inside it. *)
Theorem grid_bounds (content : string) :
  let r := extract content in
  1 <= ex_rows r /\ 1 <= ex_cols r <= 3
  /\ forall label cell,
      In (label, cell) (ex_referenceGroups r) ->
      fst (coordinates cell) < ex_rows r /\ snd (coordinates cell) < ex_cols r.
Proof. exact (extracted_bounds content). Qed.

Lemma slot_injective (i j : nat) :
  (i / 3, i mod 3) = (j / 3, j mod 3) -> i = j.
Proof.
  intros H.
  assert (H1 : i / 3 = j / 3) by exact (f_equal fst H).
  assert (H2 : i mod 3 = j mod 3) by exact (f_equal snd H).
  pose proof (Nat.div_mod_eq i 3) as Hi.
  pose proof (Nat.div_mod_eq j 3) as Hj. rewrite H1, H2 in Hi. lia.
Qed.

Lemma assign_well_placed (secs : list (string * list string)) (i : nat)
      (o : Obj.t CodebaseViewFileCell) :
  well_placed i o -> well_placed (i + length secs) (assign i secs o).
Proof.
  revert i o. induction secs as [|[l fs] secs IH]; intros i o (Hk & Hc & Hf).
  - simpl. rewrite Nat.add_0_r. now repeat split.
  - cbn [assign length fst snd]. replace (i + S (length secs)) with (S i + length secs) by lia.
    apply IH. unfold Obj.set. destruct (String.eqb l "__proto__").
    + repeat split; try assumption. eapply Forall_impl; [|exact Hf].
      intros kv (j & Hj & E). exists j. split; [lia | exact E].
    + repeat split.
      * now apply put_keys_NoDup.
      * apply put_values_NoDup; [assumption|].
        intros Hin. apply in_map_iff in Hin. destruct Hin as (kv & E & Hin).
        rewrite Forall_forall in Hf. destruct (Hf kv Hin) as (j & Hj & Ej).
        rewrite Ej in E. cbn [cell_at coordinates] in E.
        apply slot_injective in E. lia.
      * apply put_Forall.
        -- eapply Forall_impl; [|exact Hf].
           intros kv (j & Hj & E). exists j. split; [lia | exact E].
        -- exists i. split; [lia | reflexivity].
Qed.

Lemma extracted_unique (content : string) :
  let groups := ex_referenceGroups (extract content) in
  NoDup (Obj.keys groups)
  /\ NoDup (map (fun kv => coordinates (snd kv)) groups).
Proof.
  cbv zeta. destruct (extract_spec path_join existsSync repositoryPath content)
    as (Hg & _). rewrite Hg.
  destruct (assign_well_placed (flushed (Str.split "010" content)) 0 Obj.empty)
    as (Hk & Hc & _).
  - repeat split; constructor.
  - split; assumption.
Qed.

(** X2: no two groups of an extracted structure have the same key or the
    same coordinates, whatever the labels of the document. *)
Theorem coordinates_unique (content : string) :
  let groups := ex_referenceGroups (extract content) in
  NoDup (Obj.keys groups)
  /\ NoDup (map (fun kv => coordinates (snd kv)) groups).
Proof. exact (extracted_unique content). Qed.

Lemma extracted_files_exist (content repo : string) (label : string)
        (cell : CodebaseViewFileCell) (file : string) :
  repositoryPath = Some repo -> Str.truthy repo = true ->
  In (label, cell) (ex_referenceGroups (extract content)) ->
  In file (files cell) ->
  existsSync (path_join repo file) = true.
Proof.
  intros Hrepo Ht H Hf. apply groups_In in H. destruct H as (i & Hi & _).
  apply nth_error_In in Hi. apply flushed_In in Hi. destruct Hi as [Hi _].
  unfold Parser.sections in Hi. apply in_map_iff in Hi.
  destruct Hi as ([l body] & He & _). simpl in He. injection He as _ He.
  rewrite <- He in Hf. apply (proj1 (keep_first_In _ _)) in Hf.
  unfold Parser.body_candidates in Hf. apply in_flat_map in Hf.
  destruct Hf as (line & _ & Hf). unfold Parser.candidates in Hf.
  apply in_flat_map in Hf. destruct Hf as (pattern & _ & Hf).
  apply in_flat_map in Hf. destruct Hf as (m & _ & Hf).
  unfold Parser.candidate in Hf.
  destruct (matched_path line m) as [fp|]; [|contradiction].
  destruct (Str.truthy fp && _ && _); [|contradiction].
  destruct (missing path_join existsSync repositoryPath (Str.trim fp)) eqn:Em;
    [contradiction|].
  destruct Hf as [<-|[]]. unfold missing in Em. rewrite Hrepo, Ht in Em.
  cbn [andb] in Em. now apply negb_false_iff in Em.
Qed.

(** X3: with a repository path, every file of every group exists under
    the repository (at the time of the extraction). *)
Theorem files_exist (content repo : string) (label : string)
        (cell : CodebaseViewFileCell) (file : string) :
  repositoryPath = Some repo -> Str.truthy repo = true ->
  In (label, cell) (ex_referenceGroups (extract content)) ->
  In file (files cell) ->
  existsSync (path_join repo file) = true.
Proof. exact (extracted_files_exist content repo label cell file). Qed.

Lemma scanned_no_sections (nm : string) (ls : list string) :
  Forall (fun l => is_section (Str.trim l) = false) ls ->
  Forall (fun l => is_section l = false) (scanned_lines nm ls).
Proof.
  intros H. revert nm. induction H as [|raw ls Hraw _ IH]; intros nm; simpl;
    [constructor|].
  destruct (is_title (Str.trim raw) && String.eqb nm placeholder); [apply IH|].
  constructor; [assumption | apply IH].
Qed.

Lemma split_no_sections (xs : list string) :
  Forall (fun l => is_section l = false) xs -> split_sections xs = (xs, []).
Proof.
  induction 1 as [|l xs Hl _ IH]; simpl; [reflexivity|]. now rewrite IH, Hl.
Qed.

(** X5: a document without a level-2 or level-3 heading has no group, one
    row and one column, whatever files its lines mention. *)
Theorem no_heading_no_groups (content : string) :
  Forall (fun l => is_section (Str.trim l) = false) (Str.split "010" content) ->
  let r := extract content in
  ex_referenceGroups r = [] /\ ex_rows r = 1 /\ ex_cols r = 1.
Proof.
  intros H. cbv zeta.
  destruct (extract_spec path_join existsSync repositoryPath content)
    as (Hg & Hr & Hc). cbv zeta in Hg, Hr, Hc.
  assert (Hf : flushed (Str.split "010" content) = []).
  { unfold Parser.flushed, Parser.sections, Parser.section_bodies.
    rewrite split_no_sections; [reflexivity | now apply scanned_no_sections]. }
  rewrite Hr, Hc, Hg, Hf. repeat split.
Qed.

Lemma assign_Forall (P : string * CodebaseViewFileCell -> Prop)
      (secs : list (string * list string)) (i : nat)
      (o : Obj.t CodebaseViewFileCell) :
  Forall P o ->
  (forall j l fs, nth_error secs j = Some (l, fs) -> l <> "__proto__" ->
                  P (l, cell_at (i + j) fs)) ->
  Forall P (assign i secs o).
Proof.
  revert i o. induction secs as [|[l fs] secs IH]; intros i o Ho Hs; [exact Ho|].
  cbn [assign fst snd]. apply IH.
  - unfold Obj.set. destruct (String.eqb_spec l "__proto__") as [|Hl]; [exact Ho|].
    apply put_Forall; [exact Ho|].
    specialize (Hs 0 l fs eq_refl Hl). now rewrite Nat.add_0_r in Hs.
  - intros j l' fs' Hj Hl'. specialize (Hs (S j) l' fs' Hj Hl').
    now rewrite Nat.add_succ_r in Hs.
Qed.

Lemma split_sections_labels (xs : list string) (l : string) (body : list string) :
  In (l, body) (snd (split_sections xs)) ->
  exists x, In x xs /\ is_section x = true /\ l = label_of x.
Proof.
  induction xs as [|x xs IH]; simpl; [intros []|].
  destruct (split_sections xs) as [pre secs]. simpl in IH.
  destruct (is_section x) eqn:E; simpl.
  - intros [[= <- _]|H].
    + exists x. repeat split; [now left | assumption].
    + destruct (IH H) as (y & Hy & Hs & Hl). exists y. repeat split; [now right | |];
        assumption.
  - intros H. destruct (IH H) as (y & Hy & Hs & Hl).
    exists y. repeat split; [now right | |]; assumption.
Qed.

Lemma scanned_from_lines (nm : string) (ls : list string) (x : string) :
  In x (scanned_lines nm ls) -> exists raw, In raw ls /\ x = Str.trim raw.
Proof.
  revert nm. induction ls as [|raw ls IH]; intros nm; simpl; [intros []|].
  destruct (is_title (Str.trim raw) && String.eqb nm placeholder).
  - intros H. destruct (IH _ H) as (r & Hr & E). exists r. split; [now right | exact E].
  - intros [<-|H]; [exists raw; split; [now left | reflexivity]|].
    destruct (IH _ H) as (r & Hr & E). exists r. split; [now right | exact E].
Qed.

(** X6: every key of the groups is the label of a level-2 or level-3
    heading line of the document; it is not empty and it is not the
    reserved key. *)
Theorem keys_are_labels (content : string) (label : string)
        (cell : CodebaseViewFileCell) :
  In (label, cell) (ex_referenceGroups (extract content)) ->
  Str.truthy label = true /\ label <> "__proto__"
  /\ exists raw, In raw (Str.split "010" content)
                 /\ is_section (Str.trim raw) = true
                 /\ label = label_of (Str.trim raw).
Proof.
  intros H.
  assert (Hp : label <> "__proto__").
  { destruct (extract_spec path_join existsSync repositoryPath content) as (Hg & _).
    rewrite Hg in H.
    pose proof (assign_Forall (fun kv => fst kv <> "__proto__")
                              (flushed (Str.split "010" content)) 0 Obj.empty
                              (Forall_nil _)) as F.
    rewrite Forall_forall in F. apply (F (fun j l fs _ Hl => Hl) _ H). }
  apply groups_In in H. destruct H as (i & Hi & _).
  apply nth_error_In in Hi. apply flushed_In in Hi. destruct Hi as [Hi _].
  unfold Parser.sections in Hi. apply in_map_iff in Hi.
  destruct Hi as ([l body] & He & Hb). simpl in He. injection He as -> _.
  unfold Parser.section_bodies in Hb.
  apply split_sections_labels in Hb. destruct Hb as (x & Hx & Hs & Hl).
  apply scanned_from_lines in Hx. destruct Hx as (raw & Hraw & ->).
  split; [|split; [exact Hp|]].
  - rewrite Hl. now apply label_truthy.
  - exists raw. repeat split; assumption.
Qed.

End GridFacts.

(** ** The existence filter only removes *)

Section FilterFacts.

Variable path_join : string -> string -> string.
Variable existsSync : string -> bool.

Lemma first_seen_unseen (seen xs : list string) (x : string) :
  ~ In x xs -> first_seen (x :: seen) xs = first_seen seen xs.
Proof.
  revert seen. induction xs as [|y xs IH]; intros seen H; [reflexivity|].
  simpl in H. cbn [first_seen].
  assert (E : includes y (x :: seen) = includes y seen).
  { unfold includes. cbn [existsb].
    destruct (String.eqb_spec y x) as [->|Hyx]; [tauto | reflexivity]. }
  rewrite E. destruct (includes y seen); [apply IH; tauto|].
  f_equal. rewrite <- (IH (y :: seen)) by tauto.
  apply first_seen_ext. intros z. unfold includes. simpl.
  destruct (String.eqb z x), (String.eqb z y); reflexivity.
Qed.

Lemma first_seen_filter (p : string -> bool) (seen xs : list string) :
  first_seen seen (filter p xs) = filter p (first_seen seen xs).
Proof.
  revert seen. induction xs as [|x xs IH]; intros seen; [reflexivity|].
  cbn [filter first_seen]. destruct (p x) eqn:Ep.
  - cbn [first_seen]. destruct (includes x seen); [apply IH|].
    cbn [filter]. rewrite Ep. f_equal. apply IH.
  - destruct (includes x seen); [apply IH|].
    cbn [filter]. rewrite Ep, <- IH. symmetry. apply first_seen_unseen.
    intros Hin. apply filter_In in Hin. destruct Hin as [_ Hin]. congruence.
Qed.

Lemma flat_map_filter {A : Type} (p : string -> bool) (g : A -> list string)
      (xs : list A) :
  flat_map (fun x => filter p (g x)) xs = filter p (flat_map g xs).
Proof.
  induction xs as [|x xs IH]; [reflexivity|]. simpl. now rewrite filter_app, IH.
Qed.

(** X4: extraction with a repository path is extraction without one with
    the files that do not exist removed from each section: the same
    sections in the same order, each with the existing files in their
    order of discovery, and the groups are placed after the sections left
    without a file are dropped. *)
Theorem filter_only_removes (repo content : string) :
  Str.truthy repo = true ->
  let present := fun file => existsSync (path_join repo file) in
  let lines := Str.split "010" content in
  let filtered :=
    map (fun s => (fst s, filter present (snd s)))
        (Parser.sections path_join existsSync None lines) in
  Parser.sections path_join existsSync (Some repo) lines = filtered
  /\ ex_referenceGroups
       (Parser.extractStructureFromMarkdown path_join existsSync (Some repo) content)
     = assign 0 (filter nonempty filtered) Obj.empty.
Proof.
  intros Ht. cbv zeta.
  assert (Hc : forall line,
             Parser.candidates path_join existsSync (Some repo) line
             = filter (fun file => existsSync (path_join repo file))
                      (Parser.candidates path_join existsSync None line)).
  { intros line. unfold Parser.candidates.
    rewrite <- flat_map_filter. apply flat_map_ext. intros pattern.
    rewrite <- flat_map_filter. apply flat_map_ext. intros m.
    unfold Parser.candidate, missing. rewrite Ht. cbn [andb].
    destruct (matched_path line m) as [fp|]; [|reflexivity].
    destruct (Str.truthy fp && _ && _); [|reflexivity].
    cbn [filter]. destruct (existsSync (path_join repo (Str.trim fp))); reflexivity. }
  assert (Hs : Parser.sections path_join existsSync (Some repo) (Str.split "010" content)
               = map (fun s => (fst s, filter (fun file => existsSync (path_join repo file))
                                              (snd s)))
                     (Parser.sections path_join existsSync None (Str.split "010" content))).
  { unfold Parser.sections. rewrite map_map. apply map_ext. intros [l body].
    cbn [fst snd]. f_equal. unfold keep_first. rewrite <- first_seen_filter.
    f_equal. unfold Parser.body_candidates. rewrite <- flat_map_filter.
    apply flat_map_ext. exact Hc. }
  split; [exact Hs|].
  destruct (extract_spec path_join existsSync (Some repo) content) as (Hg & _).
  rewrite Hg. unfold Parser.flushed. now rewrite Hs.
Qed.

End FilterFacts.

(** ** Statistics of created views *)

Lemma filter_partition_perm {A : Type} (f : A -> bool) (xs : list A) :
  Permutation (filter f xs ++ filter (fun x => negb (f x)) xs) xs.
Proof.
  induction xs as [|x xs IH]; [constructor|].
  simpl. destruct (f x); simpl.
  - now constructor.
  - symmetry. apply Permutation_cons_app. now symmetry.
Qed.



Section MoreCreationFacts.

Variable W : Type.
Variable h : Host W.

Lemma failed_shaped (file msg : string) : shaped (Creation.failed file msg).
Proof. unfold shaped. simpl. repeat split. now exists msg. Qed.

Lemma build_and_save_shaped (repo : string) (docInfo : Doc.t) (options : Options.t)
      (category relativePath docContent : string) (w w' : W) (r : Creation.t) :
  build_and_save h repo docInfo options category relativePath docContent w
  = (Return r, w') ->
  shaped r.
Proof.
  unfold build_and_save, bind, observe, ret.
  destruct (generateViewIdFromName h _ w) as [[vid|e] w1]; [|discriminate].
  destruct (now_ISOString h w1) as [[stamp|e] w2]; [|discriminate].
  destruct (flag (Options.dryRun options)).
  { intros [= <- <-]. unfold shaped. simpl. repeat split; eexists; reflexivity. }
  destruct (flag (Options.skipValidation options)).
  { destruct (saveView h repo _ w2) as [[u|e] w3]; [|discriminate].
    intros [= <- <-]. unfold shaped. simpl. repeat split; eexists; reflexivity. }
  destruct (saveViewWithValidation h repo _ w2) as [[vr|e] w3]; [|discriminate].
  intros [= <- <-]. unfold shaped. simpl. repeat split; eexists; reflexivity.
Qed.

Lemma create_shaped (repo : string) (docInfo : Doc.t) (options : Options.t)
        (w w' : W) (r : Creation.t) :
  createViewFromDocument h repo docInfo options w = (Return r, w') ->
  Creation.file r = Doc.filePath docInfo /\ shaped r.
Proof.
  unfold createViewFromDocument, bind, try_catch, ret.
  destruct (new_NodeFileSystemAdapter h w) as [[[]|e] wa]; [|discriminate].
  destruct (new_MemoryPalace h repo wa) as [[[]|e] wb]; [|discriminate].
  destruct (guarded h repo docInfo options _ wb) as [[r0|e] wc] eqn:E.
  2:{ intros [= <- <-]. split; [reflexivity | apply failed_shaped]. }
  intros [= -> ->]. revert E. unfold guarded, bind, attempt, ret.
  destruct (validateRelativePath h repo (Doc.fullPath docInfo) wb) as [[rel|e] w1].
  2:{ intros [= <- <-]. split; [reflexivity | apply failed_shaped]. }
  destruct (adapter_exists h (Doc.fullPath docInfo) w1) as [[found|e] w2]; [|discriminate].
  destruct found; cbn [negb].
  2:{ intros [= <- <-]. split; [reflexivity | apply failed_shaped]. }
  destruct (fs_readFileSync h (Doc.fullPath docInfo) w2) as [[content|e] w3] eqn:Er.
  2:{ intros [= <- <-]. split; [reflexivity | apply failed_shaped]. }
  intros H. split.
  - now apply build_and_save_returns in H.
  - now apply build_and_save_shaped in H.
Qed.

(** X8: a result of [createViewFromDocument] carries its document's path;
    a failure carries an error message and no name, identifier, issue
    count or view; a success carries a name, an identifier and a view and
    no message. *)
Theorem result_shape (repo : string) (docInfo : Doc.t) (options : Options.t)
        (w w' : W) (r : Creation.t) :
  createViewFromDocument h repo docInfo options w = (Return r, w') ->
  Creation.file r = Doc.filePath docInfo /\ shaped r.
Proof. exact (create_shaped repo docInfo options w w' r). Qed.

Lemma create_loop_Forall2 (P : Doc.t -> Creation.t -> Prop) (repo : string)
      (options : Options.t) :
  (forall d w r w', createViewFromDocument h repo d options w = (Return r, w') ->
                    P d r) ->
  forall documents results w out w',
    create_loop h repo options documents results w = (Return out, w') ->
    exists rs, out = results ++ rs /\ Forall2 P documents rs.
Proof.
  intros HP documents.
  induction documents as [|d ds IH]; intros results w out w'.
  - intros [= <- _]. exists []. split; [now rewrite app_nil_r | constructor].
  - cbn [create_loop]. unfold bind at 1.
    destruct (createViewFromDocument h repo d options w) as [[r|e] w1] eqn:E;
      [|discriminate].
    intros H. apply IH in H. destruct H as (rs & -> & Hf).
    exists (r :: rs). split; [now rewrite <- app_assoc|].
    constructor; [now apply HP in E | exact Hf].
Qed.

Lemma fold_add_shift {A : Type} (f : A -> nat) (xs : list A) (n : nat) :
  fold_left (fun sum r => sum + f r) xs n = n + fold_left (fun sum r => sum + f r) xs 0.
Proof.
  revert n. induction xs as [|x xs IH]; intros n; simpl; [lia|].
  rewrite (IH (n + f x)), (IH (f x)). lia.
Qed.

Lemma fold_add_successes (f : Creation.t -> nat) (rs : list Creation.t) :
  Forall (fun r => Creation.success r = false -> f r = 0) rs ->
  fold_left (fun sum r => sum + f r) (filter Creation.success rs) 0
  = fold_left (fun sum r => sum + f r) rs 0.
Proof.
  induction 1 as [|r rs Hr _ IH]; [reflexivity|].
  simpl. destruct (Creation.success r) eqn:E; simpl.
  - rewrite (fold_add_shift f (filter _ rs)), (fold_add_shift f rs). now rewrite IH.
  - rewrite (Hr eq_refl). exact IH.
Qed.

Lemma fold_view_add (f : View.t -> nat) (rs : list Creation.t) (n : nat) :
  fold_left (fun sum r => match Creation.view r with
                          | Some view => sum + f view
                          | None => sum
                          end) rs n
  = fold_left (fun sum r => sum + match Creation.view r with
                                  | Some view => f view
                                  | None => 0
                                  end) rs n.
Proof.
  revert n. induction rs as [|r rs IH]; intros n; [reflexivity|].
  simpl. rewrite IH. destruct (Creation.view r); [reflexivity|].
  now rewrite Nat.add_0_r.
Qed.

(** X9: the statistics of a batch: when [createViewsFromDocuments]
    returns, the total is the number of documents, the failures are the
    results of the documents that failed, with their paths, and the
    issues, files and cells are those of the successes alone: a failure
    adds nothing to them. *)
Theorem batch_statistics (repo : string) (options : Options.t)
        (documents : list Doc.t) (w w' : W) (results : list Creation.t) :
  createViewsFromDocuments h repo documents options w = (Return results, w') ->
  let s := getViewCreationStats results in
  let of_successes := getViewCreationStats (Stats.successes s) in
  Stats.total s = length documents
  /\ Stats.successful s + Stats.failed s = length documents
  /\ Forall2 (fun d r => Creation.file r = Doc.filePath d) documents results
  /\ Forall (fun r => exists msg, Creation.error r = Some msg) (Stats.failures s)
  /\ Stats.totalIssues s = Stats.totalIssues of_successes
  /\ Stats.totalFiles s = Stats.totalFiles of_successes
  /\ Stats.totalCells s = Stats.totalCells of_successes.
Proof.
  intros H. cbv zeta. unfold createViewsFromDocuments in H.
  apply (create_loop_Forall2
           (fun d r => Creation.file r = Doc.filePath d /\ shaped r)) in H.
  2:{ intros d w0 r w1 E. now apply create_shaped in E. }
  destruct H as (rs & -> & Hf). cbn [app].
  assert (Hlen : length rs = length documents)
    by (symmetry; eapply Forall2_length; exact Hf).
  assert (Hs : Forall shaped rs).
  { clear Hlen. induction Hf as [|d r ds rs [_ Hr] _ IH]; constructor; assumption. }
  unfold getViewCreationStats.
  cbn [Stats.total Stats.successful Stats.failed Stats.successes Stats.failures
       Stats.totalIssues Stats.totalFiles Stats.totalCells].
  split; [exact Hlen|].
  split; [rewrite <- Hlen; symmetry; apply filter_partition_length|].
  split.
  { clear Hlen Hs. induction Hf as [|d r ds rs [Hr _] _ IH]; constructor; assumption. }
  split.
  { apply Forall_forall. intros r Hr. apply filter_In in Hr. destruct Hr as [Hin Hr].
    rewrite Forall_forall in Hs. specialize (Hs r Hin). unfold shaped in Hs.
    apply negb_true_iff in Hr. rewrite Hr in Hs. tauto. }
  assert (Hnone : forall g : Creation.t -> nat,
             (forall r, Creation.issues r = None -> Creation.view r = None -> g r = 0) ->
             Forall (fun r => Creation.success r = false -> g r = 0) rs).
  { intros g Hg. eapply Forall_impl; [|exact Hs]. intros r Hr E.
    unfold shaped in Hr. rewrite E in Hr. apply Hg; tauto. }
  split; [|split].
  - symmetry. apply fold_add_successes. apply Hnone.
    intros r Hi _. unfold issues_or_zero. now rewrite Hi.
  - rewrite !fold_view_add. symmetry. apply fold_add_successes. apply Hnone.
    intros r _ Hv. now rewrite Hv.
  - rewrite !fold_view_add. symmetry. apply fold_add_successes. apply Hnone.
    intros r _ Hv. now rewrite Hv.
Qed.

(** X10: a dry run never saves: with [dryRun] set, the result and the
    world left behind are the same whatever the palace's [saveView] and
    [saveViewWithValidation] would do. *)
Theorem dry_run_never_saves (repo : string) (docInfo : Doc.t) (options : Options.t)
        (save : string -> View.t -> M W unit)
        (saveValidated : string -> View.t -> M W Validation.Result) (w : W) :
  flag (Options.dryRun options) = true ->
  createViewFromDocument (with_saves h save saveValidated) repo docInfo options w
  = createViewFromDocument h repo docInfo options w.
Proof.
  intros Hd.
  unfold createViewFromDocument, guarded, build_and_save, bind, try_catch, attempt,
    observe, ret, with_saves.
  cbn [path_join path_basename path_extname path_dirname fs_existsSync
       fs_readFileSync new_NodeFileSystemAdapter new_MemoryPalace
       validateRelativePath adapter_exists generateViewIdFromName now_ISOString
       saveView saveViewWithValidation listViews validateView].
  rewrite Hd.
  destruct (new_NodeFileSystemAdapter h w) as [[[]|e] wa]; [|reflexivity].
  destruct (new_MemoryPalace h repo wa) as [[[]|e] wb]; [|reflexivity].
  destruct (validateRelativePath h repo (Doc.fullPath docInfo) wb) as [[rel|e] w1];
    [|reflexivity].
  destruct (adapter_exists h (Doc.fullPath docInfo) w1) as [[found|e] w2];
    [|reflexivity].
  destruct found; cbn [negb]; [|reflexivity].
  destruct (fs_readFileSync h (Doc.fullPath docInfo) w2) as [[content|e] w3];
    reflexivity.
Qed.

(** The description of an extracted structure is never empty. *)
Lemma ex_description_truthy (pj : string -> string -> string) (ex : string -> bool)
      (repo : option string) (content : string) :
  Str.truthy (ex_description (extractStructureFromMarkdown pj ex repo content)) = true.
Proof.
  unfold extractStructureFromMarkdown, finish. cbn [ex_description].
  destruct (Str.truthy (description _)) eqn:E; [exact E | reflexivity].
Qed.

Lemma or_one_positive (n : nat) : 1 <= n -> or_one n = n.
Proof. unfold or_one. destruct n; [lia | reflexivity]. Qed.

Lemma build_and_save_view (repo : string) (docInfo : Doc.t) (options : Options.t)
      (category relativePath docContent : string) (w w' : W) (r : Creation.t) :
  flag (Options.dryRun options) = true \/ flag (Options.skipValidation options) = true ->
  build_and_save h repo docInfo options category relativePath docContent w
  = (Return r, w') ->
  exists viewId stamp,
    let extracted := extractStructureFromMarkdown (path_join h) (fs_existsSync h w)
                                                  (Some repo) docContent in
    let viewName := resolve_name h options extracted (Doc.filePath docInfo) in
    Creation.view r
    = Some (build_view viewId viewName
                       (resolve_description options extracted (Doc.filePath docInfo))
                       relativePath category stamp extracted)
    /\ Creation.viewId r = Some viewId
    /\ Creation.viewName r = Some viewName
    /\ Creation.issues r = None.
Proof.
  intros Hmode. unfold build_and_save, bind, observe, ret.
  destruct (generateViewIdFromName h _ w) as [[vid|e] w1]; [|discriminate].
  destruct (now_ISOString h w1) as [[stamp|e] w2]; [|discriminate].
  destruct (flag (Options.dryRun options)).
  { intros [= <- <-]. exists vid, stamp. repeat split. }
  destruct (flag (Options.skipValidation options)).
  { destruct (saveView h repo _ w2) as [[u|e] w3]; [|discriminate].
    intros [= <- <-]. exists vid, stamp. repeat split. }
  destruct Hmode; discriminate.
Qed.

(** X11: the view of a dry run or of a run that skips validation: its
    fields are those of the structure extracted from the document that was
    read, the fallbacks for the rows, the columns and the description are
    never taken, the overview path is the validated relative path, and
    the view is well formed: a grid of at least one row and one to three
    columns that holds the coordinates of every group. *)
Theorem created_view (repo : string) (docInfo : Doc.t) (options : Options.t)
        (w w' : W) (r : Creation.t) :
  createViewFromDocument h repo docInfo options w = (Return r, w') ->
  Creation.success r = true ->
  flag (Options.dryRun options) = true \/ flag (Options.skipValidation options) = true ->
  exists view rel docContent wv wv' wr wr',
    validateRelativePath h repo (Doc.fullPath docInfo) wv = (Return rel, wv')
    /\ fs_readFileSync h (Doc.fullPath docInfo) wr = (Return docContent, wr')
    /\ let extracted := extractStructureFromMarkdown (path_join h) (fs_existsSync h wr')
                                                     (Some repo) docContent in
       Creation.view r = Some view
       /\ Creation.viewId r = Some (View.id view)
       /\ Creation.viewName r = Some (View.name view)
       /\ Creation.issues r = None
       /\ View.version view = "1.0.0"
       /\ View.overviewPath view = rel
       /\ View.category view = or_default (Options.category options) "docs"
       /\ View.displayOrder view = 0
       /\ View.description view
          = or_default (Options.description options) (ex_description extracted)
       /\ Str.truthy (View.description view) = true
       /\ View.referenceGroups view = ex_referenceGroups extracted
       /\ View.rows view = ex_rows extracted
       /\ View.cols view = ex_cols extracted
       /\ View.ui_rows (View.ui (View.metadata view)) = View.rows view
       /\ View.ui_cols (View.ui (View.metadata view)) = View.cols view
       /\ 1 <= View.rows view /\ 1 <= View.cols view <= 3
       /\ (forall label cell,
              In (label, cell) (View.referenceGroups view) ->
              fst (coordinates cell) < View.rows view
              /\ snd (coordinates cell) < View.cols view).
Proof.
  unfold createViewFromDocument, bind, try_catch, ret.
  destruct (new_NodeFileSystemAdapter h w) as [[[]|e] wa]; [|discriminate].
  destruct (new_MemoryPalace h repo wa) as [[[]|e] wb]; [|discriminate].
  destruct (guarded h repo docInfo options _ wb) as [[r0|e] wc] eqn:E.
  2:{ intros [= <- <-]. discriminate. }
  intros [= -> ->] Hs Hmode. revert E. unfold guarded, bind, attempt, ret.
  destruct (validateRelativePath h repo (Doc.fullPath docInfo) wb) as [[rel|e] w1] eqn:Ev.
  2:{ intros [= <- <-]. discriminate. }
  destruct (adapter_exists h (Doc.fullPath docInfo) w1) as [[found|e] w2]; [|discriminate].
  destruct found; cbn [negb].
  2:{ intros [= <- <-]. discriminate. }
  destruct (fs_readFileSync h (Doc.fullPath docInfo) w2) as [[content|e] w3] eqn:Er.
  2:{ intros [= <- <-]. discriminate. }
  intros H. apply (build_and_save_view _ _ _ _ _ _ _ _ _ Hmode) in H.
  destruct H as (vid & stamp & Hv & Hi & Hn & Hiss). cbv zeta in Hv, Hn.
  destruct (extracted_bounds (path_join h) (fs_existsSync h w3) (Some repo) content)
    as (Hrows & Hcols & Hin).
  eexists _, rel, content, wb, w1, w2, w3.
  split; [exact Ev|]. split; [exact Er|]. cbv zeta.
  split; [exact Hv|].
  unfold build_view.
  cbn [View.id View.name View.version View.overviewPath View.category
       View.displayOrder View.description View.referenceGroups View.rows View.cols
       View.metadata View.ui View.ui_rows View.ui_cols].
  rewrite !or_one_positive by lia.
  assert (Hd : resolve_description options
                 (extractStructureFromMarkdown (path_join h) (fs_existsSync h w3)
                                               (Some repo) content)
                 (Doc.filePath docInfo)
               = or_default (Options.description options)
                   (ex_description
                      (extractStructureFromMarkdown (path_join h) (fs_existsSync h w3)
                                                    (Some repo) content))).
  { unfold resolve_description. f_equal. unfold or_string.
    now rewrite ex_description_truthy. }
  rewrite Hd.
  repeat (split; [first [assumption | reflexivity | lia]|]).
  split.
  { unfold or_default, or_string. destruct (Options.description options) as [d|].
    - destruct (Str.truthy d) eqn:Ed; [exact Ed | apply ex_description_truthy].
    - apply ex_description_truthy. }
  repeat (split; [first [assumption | reflexivity | lia]|]).
  exact Hin.
Qed.

End MoreCreationFacts.

(** ** Untracked documents *)

Lemma reject_spec (f : string -> outcome bool) (xs ys : list string) :
  reject f xs = Return ys ->
  ys = filter (fun x => negb (is_ignored f x)) xs
  /\ Forall (fun x => exists b, f x = Return b) xs.
Proof.
  revert ys. induction xs as [|x xs IH]; intros ys; simpl.
  - intros [= <-]. split; [reflexivity | constructor].
  - unfold is_ignored at 1. destruct (f x) as [b|e] eqn:E; [|discriminate].
    destruct (reject f xs) as [kept|e]; [|discriminate].
    destruct (IH kept eq_refl) as [-> Hf]. intros [= <-].
    split; [destruct b; reflexivity|].
    constructor; [now exists b | exact Hf].
Qed.

Lemma filter_filter {A : Type} (p q : A -> bool) (xs : list A) :
  filter p (filter q xs) = filter (fun x => q x && p x) xs.
Proof.
  induction xs as [|x xs IH]; [reflexivity|].
  simpl. destruct (q x); simpl; [destruct (p x); now rewrite IH | exact IH].
Qed.

Lemma includes_snoc (x y : string) (xs : list string) :
  includes x (xs ++ [y]) = includes x xs || String.eqb x y.
Proof.
  unfold includes. rewrite existsb_app. simpl. now rewrite orb_false_r.
Qed.

Lemma overview_includes (views : list View.t) (acc : list string) (file : string) :
  includes file (fold_left add_overview views acc)
  = includes file acc || tracked views file.
Proof.
  revert acc. induction views as [|v vs IH]; intros acc.
  - simpl. now rewrite orb_false_r.
  - cbn [fold_left tracked existsb]. rewrite IH. fold (tracked vs file).
    unfold add_overview. destruct (Str.truthy (View.overviewPath v)); cbn [andb].
    + destruct (includes (normalize (View.overviewPath v)) acc) eqn:Ei.
      * destruct (String.eqb_spec (normalize (View.overviewPath v)) file) as [<-|];
          [now rewrite Ei | reflexivity].
      * rewrite includes_snoc, <- orb_assoc. f_equal. f_equal. apply String.eqb_sym.
    + reflexivity.
Qed.

Section DiscoveryFacts.

Variable W : Type.
Variable h : Host W.
Variable globby : string -> M W (list string).
Variable ignores : option string -> string -> outcome bool.
Variable PRIMARY : string.

(** X12: the untracked documents are the files found by the search, in
    its order, that the ignore rules of [.gitignore] (read when it exists)
    do not ignore, that are not under the primary directory, and that are
    not the overview path of a view, where a leading [./] of an overview
    path does not count; each is reported with its path joined to the
    repository path. *)
Theorem untracked_documents (repo : string) (w w' : W) (docs : list Doc.t) :
  findUntrackedDocuments h globby ignores PRIMARY repo w = (Return docs, w') ->
  exists ig files views wg wg' wl,
    (if fs_existsSync h w (path_join h repo ".gitignore")
     then exists content, fs_readFileSync h (path_join h repo ".gitignore") w
                          = (Return content, wg)
                          /\ ig = Some content
     else ig = None /\ wg = w)
    /\ globby repo wg = (Return files, wg')
    /\ listViews h repo wl = (Return views, w')
    /\ map Doc.filePath docs
       = filter (fun file => negb (is_ignored (ignores ig) file)
                             && negb (Str.startsWith file (PRIMARY ++ "/")%string)
                             && negb (tracked views file)) files
    /\ Forall (fun file => exists b, ignores ig file = Return b) files
    /\ Forall (fun d => Doc.relativePath d = Doc.filePath d
                        /\ Doc.fullPath d = path_join h repo (Doc.filePath d)) docs.
Proof.
  unfold findUntrackedDocuments, bind, observe, ret, lift.
  set (gitignorePath := path_join h repo ".gitignore").
  intros H.
  assert (Hig : exists ig wg,
             (if fs_existsSync h w gitignorePath
              then exists content, fs_readFileSync h gitignorePath w = (Return content, wg)
                                   /\ ig = Some content
              else ig = None /\ wg = w)
             /\ match globby repo wg with
                | (Return files, wg') =>
                    match reject (ignores ig) files with
                    | Return kept =>
                        match new_NodeFileSystemAdapter h wg' with
                        | (Return _, w1) =>
                            match new_MemoryPalace h repo w1 with
                            | (Return _, w2) =>
                                match listViews h repo w2 with
                                | (Return views, w3) =>
                                    (Return
                                       (map (fun file =>
                                               Doc.Mk file file (path_join h repo file))
                                            (filter
                                               (fun file =>
                                                  negb (includes file
                                                          (fold_left add_overview views [])))
                                               (filter
                                                  (fun file =>
                                                     negb (Str.startsWith file
                                                             (PRIMARY ++ "/")%string))
                                                  kept))), w3)
                                | (Throw e, w3) => (Throw e, w3)
                                end
                            | (Throw e, w2) => (Throw e, w2)
                            end
                        | (Throw e, w1) => (Throw e, w1)
                        end
                    | Throw e => (Throw e, wg')
                    end
                | (Throw e, wg') => (Throw e, wg')
                end = (Return docs, w')).
  { destruct (fs_existsSync h w gitignorePath).
    - destruct (fs_readFileSync h gitignorePath w) as [[content|e] w0] eqn:Er;
        [|discriminate].
      exists (Some content), w0. split; [now exists content | exact H].
    - exists None, w. split; [split; reflexivity | exact H]. }
  clear H. destruct Hig as (ig & wg & Hig & H).
  destruct (globby repo wg) as [[files|e] wg'] eqn:Eg; [|discriminate].
  destruct (reject (ignores ig) files) as [kept|e] eqn:Ek; [|discriminate].
  destruct (new_NodeFileSystemAdapter h wg') as [[[]|e] w1]; [|discriminate].
  destruct (new_MemoryPalace h repo w1) as [[[]|e] w2]; [|discriminate].
  destruct (listViews h repo w2) as [[views|e] w3] eqn:El; [|discriminate].
  injection H as <- <-.
  apply reject_spec in Ek. destruct Ek as [-> Hf].
  exists ig, files, views, wg, wg', w2.
  split; [exact Hig|]. split; [exact Eg|]. split; [exact El|].
  split; [|split; [exact Hf|]].
  - rewrite map_map. cbn [Doc.filePath]. rewrite map_id, !filter_filter.
    apply filter_ext. intros file. rewrite overview_includes.
    cbn [includes existsb orb]. now rewrite andb_assoc.
  - apply Forall_forall. intros d Hd. apply in_map_iff in Hd.
    destruct Hd as (file & <- & _). split; reflexivity.
Qed.

End DiscoveryFacts.

(** ** Chosen views and views by status *)

Section MoreValidationFacts.

Variable W : Type.
Variable h : Host W.
Variable no_view : View.t.

Import Validate.




Lemma chosen_loop_unknown (repo : string) (allViews : list View.t)
      (identifiers : list string) (rs : list ViewResult) (w : W) :
  Forall (fun identifier => find_view allViews identifier = None) identifiers ->
  chosen_loop h no_view repo allViews identifiers rs w
  = (Return (rs ++ map (not_found no_view) identifiers), w).
Proof.
  intros H. revert rs. induction H as [|identifier rest Hi _ IH]; intros rs.
  - simpl. unfold ret. now rewrite app_nil_r.
  - cbn [chosen_loop map]. rewrite Hi, IH, <- app_assoc. reflexivity.
Qed.

Lemma sum_of_constant (f : ViewResult -> nat) (c : nat) (rs : list ViewResult) :
  Forall (fun r => f r = c) rs -> sum_of f rs = c * length rs.
Proof.
  unfold sum_of. intros H.
  assert (G : forall n, fold_left (fun acc r => acc + f r) rs n = n + c * length rs).
  { induction H as [|r rs Hr _ IH]; intros n; simpl; [lia|].
    rewrite IH, Hr. lia. }
  now rewrite G.
Qed.

(** X14: identifiers that no view carries: nothing is validated (the
    world is the one left by the listing), and the summary counts every
    identifier as an invalid view with one error and no issue. *)
Theorem unknown_identifiers (repo : string) (identifiers : list string)
        (w w1 w2 w3 : W) (allViews : list View.t) :
  new_NodeFileSystemAdapter h w = (Return tt, w1) ->
  new_MemoryPalace h repo w1 = (Return tt, w2) ->
  listViews h repo w2 = (Return allViews, w3) ->
  Forall (fun identifier => find_view allViews identifier = None) identifiers ->
  exists s,
    validateSpecificViews h no_view repo identifiers w = (Return s, w3)
    /\ results s = map (not_found no_view) identifiers
    /\ totalViews s = length identifiers
    /\ validViews s = 0
    /\ invalidViews s = length identifiers
    /\ errorCount s = length identifiers
    /\ totalIssues s = 0 /\ warningCount s = 0 /\ infoCount s = 0.
Proof.
  intros Ha Hp Hl Hu. unfold validateSpecificViews, bind, ret.
  rewrite Ha, Hp, Hl, (chosen_loop_unknown repo allViews identifiers [] w3 Hu).
  cbn [app]. eexists. split; [reflexivity|].
  unfold summarize.
  cbn [totalViews validViews invalidViews results errorCount totalIssues
       warningCount infoCount].
  assert (Hall : forall (f : ViewResult -> nat) (c : nat),
             (forall identifier, f (not_found no_view identifier) = c) ->
             sum_of f (map (not_found no_view) identifiers) = c * length identifiers).
  { intros f c Hf. rewrite sum_of_constant with (c := c).
    - now rewrite length_map.
    - apply Forall_forall. intros r Hr. apply in_map_iff in Hr.
      destruct Hr as (identifier & <- & _). apply Hf. }
  split; [reflexivity|]. split; [apply length_map|].
  assert (Hfail : forall p, (forall identifier, p (not_found no_view identifier) = false) ->
                            filter p (map (not_found no_view) identifiers) = []).
  { intros p Hp0. clear - Hp0. induction identifiers as [|x xs IH]; [reflexivity|].
    simpl. now rewrite Hp0. }
  split; [rewrite Hfail; reflexivity|].
  split.
  { pose proof (filter_partition_length success (map (not_found no_view) identifiers))
      as E. rewrite Hfail in E by reflexivity. rewrite length_map in E.
    simpl in E. now symmetry. }
  split; [rewrite (Hall _ 1); [lia | reflexivity]|].
  split; [rewrite (Hall _ 0); [lia | reflexivity]|].
  split; rewrite (Hall _ 0); solve [lia | reflexivity].
Qed.

Lemma all_results (repo : string) (w w' : W) (s : Summary) :
  validateAllViews h repo w = (Return s, w') -> s = summarize (results s).
Proof.
  unfold validateAllViews, bind, ret.
  destruct (new_NodeFileSystemAdapter h w) as [[[]|e] w1]; [|discriminate].
  destruct (new_MemoryPalace h repo w1) as [[[]|e] w2]; [|discriminate].
  destruct (listViews h repo w2) as [[views|e] w3]; [|discriminate].
  rewrite validate_loop_spec. intros [= <- _]. reflexivity.
Qed.

Lemma status_partition (rs : list ViewResult) :
  Permutation (filter is_clean rs ++ filter has_warnings rs
               ++ filter (fun r => negb (success r)) rs) rs.
Proof.
  induction rs as [|r rs IH]; [constructor|].
  cbn [filter]. unfold is_clean at 1, has_warnings at 1.
  destruct (success r); cbn [negb andb].
  - destruct (length (Validation.issues (validationResult r))) as [|n];
      cbn [Nat.eqb Nat.ltb Nat.leb].
    + cbn [app]. now constructor.
    + symmetry. apply Permutation_cons_app. now symmetry.
  - symmetry. rewrite app_assoc. apply Permutation_cons_app.
    rewrite <- app_assoc. now symmetry.
Qed.

Lemma issues_partition (rs : list ViewResult) :
  Permutation (filter has_issues rs)
              (filter has_warnings rs ++ filter (fun r => negb (success r)) rs).
Proof.
  induction rs as [|r rs IH]; [constructor|].
  cbn [filter]. unfold has_issues at 1, has_warnings at 1.
  destruct (success r); cbn [negb andb orb].
  - destruct (0 <? _); [cbn [app]; now constructor | exact IH].
  - apply Permutation_cons_app. exact IH.
Qed.

(** X15: the three lists of [getViewsByStatus] hold every result of
    [validateAllViews] once: a result is valid, valid with warnings or
    invalid; the invalid ones are as many as [invalidViews] and the other
    two as many as [validViews]; and [getViewsWithIssues], from the same
    world, returns the results that are valid with warnings or invalid,
    in the order of the views. *)
Theorem views_by_status (repo : string) (w w' : W) (st : Status.t) :
  getViewsByStatus h repo w = (Return st, w') ->
  exists s flagged,
    validateAllViews h repo w = (Return s, w')
    /\ getViewsWithIssues h repo w = (Return flagged, w')
    /\ Permutation (Status.valid st ++ Status.validWithWarnings st ++ Status.invalid st)
                   (results s)
    /\ length (Status.valid st) + length (Status.validWithWarnings st) = validViews s
    /\ length (Status.invalid st) = invalidViews s
    /\ flagged = filter (fun r => negb (is_clean r)) (results s)
    /\ Permutation flagged (Status.validWithWarnings st ++ Status.invalid st).
Proof.
  unfold getViewsByStatus, getViewsWithIssues, bind, ret.
  destruct (validateAllViews h repo w) as [[s|e] w0] eqn:E; [|discriminate].
  intros [= <- <-]. exists s. eexists. split; [reflexivity|]. split; [reflexivity|].
  cbn [Status.valid Status.validWithWarnings Status.invalid].
  apply all_results in E.
  split; [apply status_partition|].
  split.
  { rewrite E at 3. unfold summarize. cbn [validViews].
    pose proof (Permutation_length (status_partition (results s))) as H1.
    rewrite !length_app in H1.
    pose proof (filter_partition_length success (results s)) as H2. lia. }
  split; [rewrite E at 2; reflexivity|].
  split; [|apply issues_partition].
  apply filter_ext. intros r. unfold has_issues, is_clean.
  destruct (success r); cbn [negb andb orb]; [|reflexivity].
  destruct (length (Validation.issues (validationResult r))); reflexivity.
Qed.

Lemma no_failure (rs : list ViewResult) :
  (length (filter (fun r => negb (success r)) rs) =? 0) = forallb success rs.
Proof.
  induction rs as [|r rs IH]; [reflexivity|].
  simpl. destruct (success r); [exact IH | reflexivity].
Qed.

Lemma forallb_results (views : list View.t) (os : list (outcome Validation.Result)) :
  length os = length views ->
  forallb success (map (fun p => result_of (fst p) (snd p)) (combine views os))
  = forallb (fun o => match o with
                      | Return r => Validation.isValid r
                      | Throw _ => false
                      end) os.
Proof.
  revert os. induction views as [|v vs IH]; intros [|o os] Hl; try discriminate;
    [reflexivity|].
  simpl. rewrite IH by (simpl in Hl; lia). destruct o; reflexivity.
Qed.

(** X16: once the views are listed, [areAllViewsValid] returns, and its
    answer is [true] exactly when every call of [validateView] returned a
    result that is valid: a view whose validation throws makes it
    [false], and a repository without a view gives [true]. *)
Theorem all_views_valid (repo : string) (w w1 w2 w3 : W) (views : list View.t) :
  new_NodeFileSystemAdapter h w = (Return tt, w1) ->
  new_MemoryPalace h repo w1 = (Return tt, w2) ->
  listViews h repo w2 = (Return views, w3) ->
  let outcomes := fst (validate_each h repo views w3) in
  exists b,
    areAllViewsValid h repo w = (Return b, snd (validate_each h repo views w3))
    /\ (b = true <-> Forall (fun o => exists r, o = Return r
                                                /\ Validation.isValid r = true)
                            outcomes)
    /\ (views = [] -> b = true).
Proof.
  intros Ha Hp Hl. cbv zeta.
  unfold areAllViewsValid, validateAllViews, bind, ret.
  rewrite Ha, Hp, Hl, validate_loop_spec. cbn [app].
  eexists. split; [reflexivity|].
  unfold summarize. cbn [invalidViews].
  rewrite no_failure, forallb_results by apply validate_each_length.
  split.
  - rewrite forallb_forall, Forall_forall. split; intros H o Ho.
    + specialize (H o Ho). destruct o as [r|e]; [now exists r | discriminate].
    + destruct (H o Ho) as (r & -> & Hr). exact Hr.
  - intros ->. reflexivity.
Qed.

End MoreValidationFacts.

(** ** The lists and the extension statistics of the coverage metrics *)

Lemma leb_trans (a b c : string) :
  String.leb a b = true -> String.leb b c = true -> String.leb a c = true.
Proof.
  unfold String.leb. revert b c.
  induction a as [|x a IH]; intros [|y b] [|z c]; simpl; try easy.
  unfold Ascii.compare.
  destruct (N.compare_spec (N_of_ascii x) (N_of_ascii y)) as [E1|L1|G1];
    destruct (N.compare_spec (N_of_ascii y) (N_of_ascii z)) as [E2|L2|G2];
    try easy.
  - rewrite E1, E2, N.compare_refl. apply IH.
  - intros _ _. rewrite E1. now apply N.compare_lt_iff in L2 as ->.
  - intros _ _. rewrite <- E2. now apply N.compare_lt_iff in L1 as ->.
  - intros _ _. assert (L : (N_of_ascii x < N_of_ascii z)%N) by lia.
    now apply N.compare_lt_iff in L as ->.
Qed.

Section MoreCoverageFacts.

Variable path_extname : string -> string.

Import Coverage.

Lemma insert_sorted_perm (x : string) (xs : list string) :
  Permutation (insert_sorted x xs) (x :: xs).
Proof.
  induction xs as [|y xs IH]; simpl; [constructor; constructor|].
  destruct (String.leb x y); [apply Permutation_refl|].
  rewrite IH. apply perm_swap.
Qed.

Lemma sort_perm (xs : list string) : Permutation (sort xs) xs.
Proof.
  induction xs as [|x xs IH]; simpl; [constructor|].
  rewrite insert_sorted_perm. now constructor.
Qed.

Lemma insert_sorted_sorted (x : string) (xs : list string) :
  StronglySorted ascending xs -> StronglySorted ascending (insert_sorted x xs).
Proof.
  induction 1 as [|y xs Hs IH Hy]; simpl.
  - constructor; constructor.
  - destruct (String.leb x y) eqn:E.
    + constructor; [now constructor|]. constructor; [exact E|].
      eapply Forall_impl; [|exact Hy]. intros z Hz. now apply (leb_trans x y z).
    + constructor; [exact IH|].
      apply (Permutation_Forall (x := x :: xs)); [symmetry; apply insert_sorted_perm|].
      constructor; [|exact Hy].
      destruct (String.leb_total x y) as [H|H]; [congruence | exact H].
Qed.

Lemma sort_sorted (xs : list string) : StronglySorted ascending (sort xs).
Proof.
  induction xs as [|x xs IH]; simpl; [constructor | now apply insert_sorted_sorted].
Qed.

Lemma visit_uncovered (referenced : list string) (fs : list string) (a : Acc) :
  acc_uncovered (fold_left (visit path_extname referenced) fs a)
  = acc_uncovered a ++ filter (fun f => negb (includes f referenced)) fs.
Proof.
  revert a. induction fs as [|f fs IH]; intros a; simpl.
  - now rewrite app_nil_r.
  - rewrite IH. unfold visit. destruct (includes f referenced); simpl.
    + reflexivity.
    + now rewrite <- app_assoc.
Qed.

Lemma lists_spec (sourceFiles referencedFiles : list string) :
  let m := calculateCoverageMetrics path_extname sourceFiles referencedFiles in
  Permutation (coveredFilesList m)
              (filter (fun f => includes f referencedFiles) sourceFiles)
  /\ Permutation (uncoveredFiles m)
                 (filter (fun f => negb (includes f referencedFiles)) sourceFiles)
  /\ Permutation (coveredFilesList m ++ uncoveredFiles m) sourceFiles
  /\ StronglySorted ascending (coveredFilesList m)
  /\ StronglySorted ascending (uncoveredFiles m)
  /\ coveredFiles m + length (uncoveredFiles m) = totalFiles m
  /\ (forall f, In f (coveredFilesList m) -> ~ In f (uncoveredFiles m)).
Proof.
  cbv zeta. unfold calculateCoverageMetrics.
  cbn [coveredFilesList uncoveredFiles totalFiles coveredFiles].
  rewrite visit_covered, visit_uncovered. cbn [acc_covered acc_uncovered app].
  pose proof (sort_perm (filter (fun f => includes f referencedFiles) sourceFiles))
    as Pc.
  pose proof (sort_perm (filter (fun f => negb (includes f referencedFiles))
                                sourceFiles)) as Pu.
  split; [exact Pc|]. split; [exact Pu|].
  split; [rewrite Pc, Pu; apply filter_partition_perm|].
  split; [apply sort_sorted|]. split; [apply sort_sorted|].
  split.
  { rewrite !sort_length. symmetry. apply filter_partition_length. }
  intros f Hc Hu.
  apply (Permutation_in _ Pc) in Hc. apply (Permutation_in _ Pu) in Hu.
  apply filter_In in Hc. apply filter_In in Hu.
  destruct Hc as [_ Hc]. destruct Hu as [_ Hu]. rewrite Hc in Hu. discriminate.
Qed.

(** X17: the two lists of the metrics: the covered files are the source
    files that are referenced and the uncovered ones are the others, each
    list in ascending order; together they hold every source file once,
    and no file is in both. *)
Theorem coverage_lists (sourceFiles referencedFiles : list string) :
  let m := calculateCoverageMetrics path_extname sourceFiles referencedFiles in
  Permutation (coveredFilesList m)
              (filter (fun f => includes f referencedFiles) sourceFiles)
  /\ Permutation (uncoveredFiles m)
                 (filter (fun f => negb (includes f referencedFiles)) sourceFiles)
  /\ Permutation (coveredFilesList m ++ uncoveredFiles m) sourceFiles
  /\ StronglySorted ascending (coveredFilesList m)
  /\ StronglySorted ascending (uncoveredFiles m)
  /\ coveredFiles m + length (uncoveredFiles m) = totalFiles m
  /\ (forall f, In f (coveredFilesList m) -> ~ In f (uncoveredFiles m)).
Proof. exact (lists_spec sourceFiles referencedFiles). Qed.

Lemma put_sum {A : Type} (g : A -> nat) (k : string) (v : A) (o : Obj.t A) :
  list_sum (map g (Obj.values (Obj.put k v o)))
  + match Obj.get k o with Some v0 => g v0 | None => 0 end
  = list_sum (map g (Obj.values o)) + g v.
Proof.
  unfold Obj.values. induction o as [|[k' v'] o IH]; simpl; [lia|].
  destruct (String.eqb k k'); simpl; lia.
Qed.

Lemma visit_byExt (referenced : list string) (a : Acc) (file : string) :
  let ext := ext_of path_extname file in
  exists byExt,
    acc_byExt (visit path_extname referenced a file)
    = Obj.put ext (MkStats (S (total (entry ext (acc_byExt a))))
                           (covered (entry ext (acc_byExt a))
                            + one_if (includes file referenced))) byExt
    /\ Obj.get ext byExt = Some (entry ext (acc_byExt a))
    /\ (forall k, k <> ext -> Obj.get k byExt = Obj.get k (acc_byExt a))
    /\ (NoDup (Obj.keys (acc_byExt a)) -> NoDup (Obj.keys byExt))
    /\ (forall g : ExtStats -> nat, g (MkStats 0 0) = 0 ->
        list_sum (map g (Obj.values byExt))
        = list_sum (map g (Obj.values (acc_byExt a))))
    /\ (forall P : string * ExtStats -> Prop,
           Forall P (acc_byExt a) -> P (ext, MkStats 0 0) -> Forall P byExt).
Proof.
  cbv zeta. unfold visit, entry.
  set (ext := ext_of path_extname file).
  destruct (Obj.get ext (acc_byExt a)) as [st|] eqn:E.
  - exists (acc_byExt a). rewrite E.
    split.
    { destruct (includes file referenced); cbn [acc_byExt one_if];
        f_equal; f_equal; lia. }
    repeat split; auto.
  - exists (Obj.put ext (MkStats 0 0) (acc_byExt a)). rewrite get_put_same.
    split.
    { destruct (includes file referenced); cbn [acc_byExt one_if total covered];
        reflexivity. }
    split; [reflexivity|].
    split; [intros k Hk; now apply get_put_other|].
    split; [apply put_keys_NoDup|].
    split.
    + intros g Hg. pose proof (put_sum g ext (MkStats 0 0) (acc_byExt a)) as H.
      rewrite E, Hg in H. lia.
    + intros P HP H0. now apply put_Forall.
Qed.

Lemma visit_get (referenced : list string) (a : Acc) (file : string) (k : string) :
  Obj.get k (acc_byExt (visit path_extname referenced a file))
  = if String.eqb k (ext_of path_extname file)
    then Some (MkStats (S (total (entry k (acc_byExt a))))
                       (covered (entry k (acc_byExt a))
                        + one_if (includes file referenced)))
    else Obj.get k (acc_byExt a).
Proof.
  destruct (visit_byExt referenced a file) as (byExt & -> & Hg & Ho & _).
  destruct (String.eqb_spec k (ext_of path_extname file)) as [->|Hk].
  - apply get_put_same.
  - rewrite get_put_other by exact Hk. now apply Ho.
Qed.

Lemma visit_sum (referenced : list string) (a : Acc) (file : string)
      (g : ExtStats -> nat) (d : nat) :
  g (MkStats 0 0) = 0 ->
  (forall st, g (MkStats (S (total st))
                         (covered st + one_if (includes file referenced)))
              = g st + d) ->
  list_sum (map g (Obj.values (acc_byExt (visit path_extname referenced a file))))
  = list_sum (map g (Obj.values (acc_byExt a))) + d.
Proof.
  intros H0 Hd.
  destruct (visit_byExt referenced a file) as (byExt & -> & Hg & _ & _ & Hs & _).
  pose proof (put_sum g (ext_of path_extname file)
                (MkStats (S (total (entry (ext_of path_extname file) (acc_byExt a))))
                         (covered (entry (ext_of path_extname file) (acc_byExt a))
                          + one_if (includes file referenced))) byExt) as H.
  rewrite Hg, Hd, (Hs g H0) in H. lia.
Qed.

Lemma fold_get (referenced : list string) (fs : list string) (a : Acc) (ext : string) :
  Obj.get ext (acc_byExt (fold_left (visit path_extname referenced) fs a))
  = match Obj.get ext (acc_byExt a) with
    | Some st =>
        Some (MkStats (total st + length (with_ext path_extname ext fs))
                      (covered st + length (covered_with_ext path_extname referenced ext fs)))
    | None =>
        match with_ext path_extname ext fs with
        | [] => None
        | _ => Some (MkStats (length (with_ext path_extname ext fs))
                             (length (covered_with_ext path_extname referenced ext fs)))
        end
    end.
Proof.
  revert a. induction fs as [|f fs IH]; intros a.
  - simpl. destruct (Obj.get ext (acc_byExt a)) as [[t c]|]; [|reflexivity].
    simpl. now rewrite !Nat.add_0_r.
  - cbn [fold_left]. rewrite IH, visit_get.
    unfold covered_with_ext, with_ext. cbn [filter].
    rewrite (String.eqb_sym (ext_of path_extname f) ext).
    destruct (String.eqb ext (ext_of path_extname f)); [|reflexivity].
    unfold entry. cbn [filter total covered length].
    destruct (includes f referenced); cbn [one_if length];
      destruct (Obj.get ext (acc_byExt a)) as [[t c]|]; cbn [total covered];
      f_equal; f_equal; lia.
Qed.

Lemma fold_byExt (referenced : list string) (fs : list string) (a : Acc) :
  let a' := fold_left (visit path_extname referenced) fs a in
  (NoDup (Obj.keys (acc_byExt a)) -> NoDup (Obj.keys (acc_byExt a')))
  /\ list_sum (map total (Obj.values (acc_byExt a')))
     = list_sum (map total (Obj.values (acc_byExt a))) + length fs
  /\ list_sum (map covered (Obj.values (acc_byExt a')))
     = list_sum (map covered (Obj.values (acc_byExt a)))
       + length (filter (fun f => includes f referenced) fs).
Proof.
  cbv zeta. revert a. induction fs as [|f fs IH]; intros a.
  - simpl. repeat split; [tauto | lia | lia].
  - cbn [fold_left]. destruct (IH (visit path_extname referenced a f)) as (Hn & Ht & Hc).
    split; [|split].
    + intros H. apply Hn.
      destruct (visit_byExt referenced a f) as (byExt & -> & _ & _ & Hk & _).
      apply put_keys_NoDup. now apply Hk.
    + rewrite Ht, (visit_sum referenced a f total 1); [simpl; lia | reflexivity|].
      intros st. simpl. lia.
    + rewrite Hc, (visit_sum referenced a f covered
                              (one_if (includes f referenced)));
        [|reflexivity | intros st; reflexivity].
      cbn [filter]. destruct (includes f referenced); simpl; lia.
Qed.

(** X18: the statistics by extension: an extension has an entry exactly
    when a source file has it, its [total] is the number of the source
    files with that extension and its [covered] the number of those that
    are referenced; no extension has two entries, and over the
    extensions the totals add up to [totalFiles] and the covered counts
    to [coveredFiles]. *)
Theorem extension_statistics (sourceFiles referencedFiles : list string) :
  let m := calculateCoverageMetrics path_extname sourceFiles referencedFiles in
  NoDup (Obj.keys (filesByExtension m))
  /\ (forall ext,
         Obj.get ext (filesByExtension m)
         = match with_ext path_extname ext sourceFiles with
           | [] => None
           | fs => Some (MkStats (length fs)
                                 (length (covered_with_ext path_extname referencedFiles ext
                                                           sourceFiles)))
           end)
  /\ list_sum (map total (Obj.values (filesByExtension m))) = totalFiles m
  /\ list_sum (map covered (Obj.values (filesByExtension m))) = coveredFiles m.
Proof.
  cbv zeta. unfold calculateCoverageMetrics.
  cbn [filesByExtension totalFiles coveredFiles].
  destruct (fold_byExt referencedFiles sourceFiles (MkAcc [] [] Obj.empty))
    as (Hn & Ht & Hc). cbv zeta in Hn, Ht, Hc.
  split; [apply Hn; constructor|].
  split.
  - intros ext. rewrite fold_get. cbn [acc_byExt Obj.get Obj.empty].
    destruct (with_ext path_extname ext sourceFiles); reflexivity.
  - split; [exact Ht|].
    rewrite Hc, sort_length, visit_covered. reflexivity.
Qed.

End MoreCoverageFacts.

(** ** The repository root *)

Section RepositoryFacts.

Variable W : Type.
Variable h : Host W.
Variable process_cwd : M W string.
Variable path_resolve : string -> M W string.

Lemma ancestor_next (k : nat) (p : string) :
  ancestor h k (path_dirname h p) = ancestor h (S k) p.
Proof. unfold ancestor. now rewrite Nat.iter_succ_r. Qed.

Lemma passed_next (ex : string -> bool) (p : string) (k : nat) :
  is_top h p = false -> ex (path_join h p ".git") = false ->
  passed h ex (path_dirname h p) k -> passed h ex p (S k).
Proof.
  intros Ht He H [|j] Hj; [split; assumption|].
  rewrite <- ancestor_next. apply H. lia.
Qed.

Lemma climb_located (fuel : nat) (ex : string -> bool) (p : string)
      (r : option string) :
  climb h fuel ex p = Some r -> located h ex p r.
Proof.
  revert p. induction fuel as [|fuel IH]; intros p; [discriminate|].
  cbn [climb]. fold (is_top h p).
  destruct (is_top h p) eqn:Et; cbn [negb].
  - intros [= <-]. exists 0. split; [intros j Hj; lia | exact Et].
  - destruct (ex (path_join h p ".git")) eqn:Ee.
    + intros [= <-]. exists 0. split; [intros j Hj; lia|].
      repeat split; assumption.
    + intros H. apply IH in H. destruct H as (k & Hp & Hr).
      exists (S k). split; [now apply passed_next|].
      destruct r as [root|]; rewrite <- ancestor_next; exact Hr.
Qed.

Lemma climb_total (n : nat) (ex : string -> bool) (p : string) (fuel : nat) :
  is_top h (ancestor h n p) = true -> n < fuel ->
  exists r, climb h fuel ex p = Some r.
Proof.
  revert p fuel. induction n as [|n IH]; intros p fuel Ht Hf;
    (destruct fuel as [|fuel]; [lia|]); cbn [climb]; fold (is_top h p).
  - unfold ancestor in Ht. simpl in Ht. rewrite Ht. now exists None.
  - destruct (is_top h p); cbn [negb]; [now exists None|].
    destruct (ex (path_join h p ".git")); [now eexists|].
    apply IH; [now rewrite ancestor_next | lia].
Qed.

(** X19: the search for the repository root: when some ancestor of the
    resolved start path is its own parent and the fuel exceeds its
    level, [getRepositoryRoot] answers: it returns the nearest ancestor,
    the start path included, that holds [.git] and is not its own
    parent, and throws the error [Not in a git repository...] when the
    ancestors below the first one that is its own parent hold none; the
    top directory itself is never returned. *)
Theorem repository_root (fuel n : nat) (searchPath : option string)
        (w w0 w1 : W) (start p : string) :
  search_start process_cwd searchPath w = (Return start, w0) ->
  path_resolve start w0 = (Return p, w1) ->
  is_top h (ancestor h n p) = true -> n < fuel ->
  exists r,
    findRepositoryRoot h process_cwd path_resolve fuel (Some start) w0
    = (Return (Some r), w1)
    /\ located h (fs_existsSync h w1) p r
    /\ getRepositoryRoot h process_cwd path_resolve fuel searchPath w
       = match r with
         | Some root => (Return (Some root), w1)
         | None => (Throw (ErrorObject not_in_repository), w1)
         end.
Proof.
  intros Hs Hr Ht Hf.
  destruct (climb_total n (fs_existsSync h w1) p fuel Ht Hf) as [r Hc].
  exists r.
  assert (Hfind : findRepositoryRoot h process_cwd path_resolve fuel (Some start) w0
                  = (Return (Some r), w1)).
  { unfold findRepositoryRoot, bind, ret, observe. rewrite Hr. now rewrite Hc. }
  split; [exact Hfind|]. split; [now apply climb_located in Hc|].
  unfold getRepositoryRoot, bind. rewrite Hs, Hfind. now destruct r.
Qed.

End RepositoryFacts.

(** ** The files of the views and the coverage of a repository *)






Section ContextFacts.

Variable W : Type.
Variable h : Host W.
Variable process_cwd : M W string.
Variable path_resolve : string -> M W string.
Variable PRIMARY : string.
Variable globby : list string -> string -> list string -> bool -> M W (list string).




End ContextFacts.

(** ** The title of a document *)

Section TitleFacts.

Variable path_join : string -> string -> string.
Variable existsSync : string -> bool.
Variable repositoryPath : option string.

Local Abbreviation step := (Parser.step path_join existsSync repositoryPath).
Local Abbreviation extract :=
  (Parser.extractStructureFromMarkdown path_join existsSync repositoryPath).

Lemma step_name (st : PState) (raw : string) :
  name (step st raw)
  = if is_title (Str.trim raw) && String.eqb (name st) placeholder
    then heading_text raw else name st.
Proof.
  unfold Parser.step.
  destruct (is_title (Str.trim raw) && String.eqb (name st) placeholder);
    [reflexivity|].
  assert (Hc : name (capture_description (Str.trim raw) st) = name st).
  { unfold capture_description.
    destruct (inDescription st && _ && _); [reflexivity|].
    destruct (inDescription st && _); reflexivity. }
  destruct (is_section (Str.trim raw)); [|exact Hc].
  destruct (has_files _); exact Hc.
Qed.

Lemma fold_name (ls : list string) (st : PState) :
  name (fold_left step ls st)
  = if String.eqb (name st) placeholder
    then match find names_document ls with
         | Some raw => heading_text raw
         | None => placeholder
         end
    else name st.
Proof.
  revert st. induction ls as [|raw ls IH]; intros st.
  - simpl. destruct (String.eqb_spec (name st) placeholder) as [->|]; reflexivity.
  - cbn [fold_left find]. rewrite IH, step_name. unfold names_document at 2.
    destruct (String.eqb_spec (name st) placeholder) as [E|E].
    + rewrite andb_true_r. destruct (is_title (Str.trim raw)); cbn [andb negb].
      * destruct (String.eqb (heading_text raw) placeholder); reflexivity.
      * apply String.eqb_eq in E. now rewrite E.
    + rewrite andb_false_r. apply String.eqb_neq in E. now rewrite E.
Qed.

(** X22: the title of an extracted structure is the text of the first
    level-1 heading whose text is not the placeholder [Codebase View];
    without such a heading it is the placeholder. *)
Theorem title_rule (content : string) :
  ex_name (extract content)
  = match find names_document (Str.split "010" content) with
    | Some raw => heading_text raw
    | None => placeholder
    end.
Proof.
  unfold Parser.extractStructureFromMarkdown, finish, Parser.run. cbn [ex_name].
  assert (E : forall st, name (save_last st) = name st).
  { intros st. unfold save_last. destruct (has_files st); reflexivity. }
  rewrite E, fold_name. cbn [name initial]. rewrite String.eqb_refl.
  destruct (find names_document (Str.split "010" content)) as [raw|] eqn:F;
    [|reflexivity].
  apply find_some in F. destruct F as [_ F]. unfold names_document in F.
  apply andb_true_iff in F. destruct F as [F _].
  unfold heading_text. now rewrite (title_truthy raw F).
Qed.

End TitleFacts.

(** ** The characters of a generated name *)

Lemma mentions_append (c : ascii) (a b : string) :
  mentions c (a ++ b) = mentions c a || mentions c b.
Proof.
  induction a as [|d a IH]; [reflexivity|]. simpl. now rewrite IH, orb_assoc.
Qed.

Lemma mentions_map (c : ascii) (f : ascii -> ascii) (s : string) :
  (forall d, Ascii.eqb (f d) c = false) -> mentions c (Title.map f s) = false.
Proof.
  intros H. induction s as [|d s IH]; [reflexivity|]. simpl. now rewrite H, IH.
Qed.

Lemma upper_not_separator (d : ascii) :
  Str.is_lower d = true ->
  Ascii.eqb (Str.upper d) "_" = false /\ Ascii.eqb (Str.upper d) "-" = false.
Proof.
  destruct d as [[] [] [] [] [] [] [] []]; vm_compute; intros H;
    first [discriminate H | split; reflexivity].
Qed.

Lemma mentions_capitalize (c : ascii) (after_word : bool) (s : string) :
  c = "_"%char \/ c = "-"%char ->
  mentions c s = false -> mentions c (Title.capitalize_from after_word s) = false.
Proof.
  intros Hc. revert after_word. induction s as [|d s IH]; intros after_word;
    [reflexivity|].
  simpl. intros H. apply orb_false_iff in H. destruct H as [Hd Hs].
  rewrite (IH _ Hs), orb_false_r.
  destruct (Title.is_word d && negb after_word); [|exact Hd].
  unfold Str.upper at 1. destruct (Str.is_lower d) eqn:El; [|exact Hd].
  pose proof (upper_not_separator d El) as [H1 H2]. unfold Str.upper in H1, H2.
  rewrite El in H1, H2. destruct Hc as [-> | ->]; assumption.
Qed.

Lemma title_map_length (f : ascii -> ascii) (s : string) :
  String.length (Title.map f s) = String.length s.
Proof. induction s as [|d s IH]; [reflexivity|]. simpl. now rewrite IH. Qed.

Lemma capitalize_length (after_word : bool) (s : string) :
  String.length (Title.capitalize_from after_word s) = String.length s.
Proof.
  revert after_word. induction s as [|d s IH]; intros b; [reflexivity|].
  simpl. now rewrite IH.
Qed.

Lemma no_slash (after_word : bool) (s : string) :
  mentions "/" (Title.capitalize_from after_word (Title.dir_spaces s)) = false.
Proof.
  revert after_word. induction s as [|d s IH]; intros after_word; [reflexivity|].
  simpl. rewrite IH, orb_false_r.
  destruct d as [[] [] [] [] [] [] [] []]; destruct after_word; reflexivity.
Qed.

Section NameFacts.

Variable W : Type.
Variable h : Host W.

(** X23: a name generated from a path never holds an underscore; the
    name of a file of the root directory holds no hyphen either and is as
    long as the file name without its extension; the name of a file in a
    subdirectory holds no hyphen but the one of the separator [ - ]
    between the directory part, as long as the directory name, and the
    file part. *)
Theorem generated_name_shape (filePath : string) :
  let fileName := path_basename h filePath (path_extname h filePath) in
  let dirName := path_dirname h filePath in
  let viewName := generateViewNameFromPath h filePath in
  mentions "_" viewName = false
  /\ (dirName = "." ->
      mentions "-" viewName = false
      /\ String.length viewName = String.length fileName)
  /\ (dirName <> "." ->
      exists formattedDir formattedFile,
        viewName = (formattedDir ++ " - " ++ formattedFile)%string
        /\ mentions "-" formattedDir = false /\ mentions "/" formattedDir = false
        /\ mentions "-" formattedFile = false
        /\ String.length formattedDir = String.length dirName
        /\ String.length formattedFile = String.length fileName).
Proof.
  cbv zeta. unfold generateViewNameFromPath.
  set (fileName := path_basename h filePath (path_extname h filePath)).
  set (dirName := path_dirname h filePath).
  assert (Hfile : forall c, c = "_"%char \/ c = "-"%char ->
                            mentions c (Title.capitalize (Title.spaces fileName)) = false).
  { intros c Hc. apply mentions_capitalize; [exact Hc|].
    apply mentions_map. intros d.
    destruct Hc as [-> | ->];
      destruct d as [[] [] [] [] [] [] [] []]; reflexivity. }
  assert (Hdir : forall c, c = "_"%char \/ c = "-"%char ->
                           mentions c (Title.capitalize (Title.dir_spaces dirName))
                           = false).
  { intros c Hc. apply mentions_capitalize; [exact Hc|].
    apply mentions_map. intros d.
    destruct Hc as [-> | ->];
      destruct d as [[] [] [] [] [] [] [] []]; reflexivity. }
  assert (Hslash : mentions "/" (Title.capitalize (Title.dir_spaces dirName)) = false)
    by apply no_slash.
  destruct (String.eqb_spec dirName ".") as [E|E].
  - split; [apply Hfile; now left|]. split; [|intros H; contradiction].
    intros _. split; [apply Hfile; now right|].
    unfold Title.capitalize, Title.spaces. now rewrite capitalize_length, title_map_length.
  - split.
    { rewrite !mentions_append, Hdir, Hfile by now left. reflexivity. }
    split; [intros H; contradiction|]. intros _.
    exists (Title.capitalize (Title.dir_spaces dirName)),
      (Title.capitalize (Title.spaces fileName)).
    split; [reflexivity|]. split; [apply Hdir; now right|].
    split; [exact Hslash|]. split; [apply Hfile; now right|].
    unfold Title.capitalize, Title.spaces, Title.dir_spaces.
    now rewrite !capitalize_length, !title_map_length.
Qed.

End NameFacts.

(** ** Closed instances of the properties above *)

Lemma files_exist_witness :
  on_disk (join repo "src/a.ts") = true.
Proof.
  apply (files_exist join on_disk (Some repo) guide repo "Parser"
                     (MkCell (0, 0) ["src/a.ts"; "src/c.ts"] 0) "src/a.ts"
                     eq_refl eq_refl).
  - vm_compute. left. reflexivity.
  - left. reflexivity.
Defined.

Lemma no_heading_no_groups_witness :
  let r := extract (Some repo) (text ["# Notes"; "See `src/a.ts`."; "#### Deep"]) in
  ex_referenceGroups r = [] /\ ex_rows r = 1 /\ ex_cols r = 1.
Proof.
  apply (no_heading_no_groups join on_disk (Some repo)).
  vm_compute. repeat constructor.
Defined.

Lemma keys_are_labels_witness :
  Str.truthy "Parser" = true /\ "Parser" <> "__proto__"
  /\ exists raw, In raw (Str.split "010" guide)
                 /\ is_section (Str.trim raw) = true
                 /\ "Parser" = label_of (Str.trim raw).
Proof.
  apply (keys_are_labels join on_disk (Some repo) guide "Parser"
                         (MkCell (0, 0) ["src/a.ts"; "src/c.ts"] 0)).
  vm_compute. left. reflexivity.
Defined.

Lemma filter_only_removes_witness :
  let present := fun file => on_disk (join repo file) in
  let lines := Str.split "010" (seven ["A"; "B"]) in
  let filtered :=
    map (fun s => (fst s, filter present (snd s)))
        (Parser.sections join on_disk None lines) in
  Parser.sections join on_disk (Some repo) lines = filtered
  /\ ex_referenceGroups (extract (Some repo) (seven ["A"; "B"]))
     = assign 0 (filter nonempty filtered) Obj.empty.
Proof.
  apply (filter_only_removes join on_disk repo (seven ["A"; "B"])). reflexivity.
Defined.

Lemma result_shape_witness :
  match createViewFromDocument host repo missing_doc Options.none [] with
  | (Return r, _) => Creation.file r = "gone.md" /\ shaped r
  | (Throw _, _) => False
  end.
Proof.
  destruct (createViewFromDocument host repo missing_doc Options.none [])
    as [[r|e] w'] eqn:E.
  - exact (result_shape World host repo missing_doc Options.none [] w' r E).
  - vm_compute in E. discriminate E.
Defined.

Lemma batch_statistics_witness :
  match createViewsFromDocuments host repo [api_guide; missing_doc; readme]
                                 (dry_run None) [] with
  | (Return results, _) =>
      let s := getViewCreationStats results in
      let of_successes := getViewCreationStats (Stats.successes s) in
      Stats.total s = 3
      /\ Stats.successful s + Stats.failed s = 3
      /\ Forall2 (fun d r => Creation.file r = Doc.filePath d)
                 [api_guide; missing_doc; readme] results
      /\ Forall (fun r => exists msg, Creation.error r = Some msg) (Stats.failures s)
      /\ Stats.totalIssues s = Stats.totalIssues of_successes
      /\ Stats.totalFiles s = Stats.totalFiles of_successes
      /\ Stats.totalCells s = Stats.totalCells of_successes
  | (Throw _, _) => False
  end.
Proof.
  destruct (createViewsFromDocuments host repo [api_guide; missing_doc; readme]
                                     (dry_run None) [])
    as [[results|e] w'] eqn:E.
  - exact (batch_statistics World host repo (dry_run None)
                            [api_guide; missing_doc; readme] [] w' results E).
  - vm_compute in E. discriminate E.
Defined.

Lemma dry_run_never_saves_witness :
  createViewFromDocument
    (with_saves host (fun _ _ w => (Throw (ErrorObject "disk full"), w))
                (fun _ _ w => (Throw (ErrorObject "disk full"), w)))
    repo api_guide (dry_run None) []
  = createViewFromDocument host repo api_guide (dry_run None) [].
Proof. apply (dry_run_never_saves World host). reflexivity. Defined.

Lemma created_view_witness :
  match createViewFromDocument host repo api_guide (dry_run None) [] with
  | (Return r, _) =>
      exists view rel docContent wv wv' wr wr',
      validateRelativePath host repo (Doc.fullPath api_guide) wv = (Return rel, wv')
      /\ fs_readFileSync host (Doc.fullPath api_guide) wr = (Return docContent, wr')
      /\ let extracted :=
           extractStructureFromMarkdown (path_join host) (fs_existsSync host wr')
                                        (Some repo) docContent in
         Creation.view r = Some view
         /\ Creation.viewId r = Some (View.id view)
         /\ Creation.viewName r = Some (View.name view)
         /\ Creation.issues r = None
         /\ View.version view = "1.0.0"
         /\ View.overviewPath view = rel
         /\ View.category view = "docs"
         /\ View.displayOrder view = 0
         /\ View.description view
            = or_default (Options.description (dry_run None))
                         (ex_description extracted)
         /\ Str.truthy (View.description view) = true
         /\ View.referenceGroups view = ex_referenceGroups extracted
         /\ View.rows view = ex_rows extracted
         /\ View.cols view = ex_cols extracted
         /\ View.ui_rows (View.ui (View.metadata view)) = View.rows view
         /\ View.ui_cols (View.ui (View.metadata view)) = View.cols view
         /\ 1 <= View.rows view /\ 1 <= View.cols view <= 3
         /\ (forall label cell,
                In (label, cell) (View.referenceGroups view) ->
                fst (coordinates cell) < View.rows view
                /\ snd (coordinates cell) < View.cols view)
  | (Throw _, _) => False
  end.
Proof.
  destruct (createViewFromDocument host repo api_guide (dry_run None) [])
    as [[r|e] w'] eqn:E.
  - assert (Hs : Creation.success r = true).
    { vm_compute in E. injection E as <- _. reflexivity. }
    exact (created_view World host repo api_guide (dry_run None) [] w' r E Hs
                        (or_introl eq_refl)).
  - vm_compute in E. discriminate E.
Defined.

Lemma untracked_documents_witness :
  match findUntrackedDocuments Sample.host Sample.markdown Sample.ignores
                               ".alexandria" repo [Sample.view] with
  | (Return docs, w') =>
      exists ig files views wg wg' wl,
      (if fs_existsSync Sample.host [Sample.view]
                        (path_join Sample.host repo ".gitignore")
       then exists content,
           fs_readFileSync Sample.host (path_join Sample.host repo ".gitignore")
                           [Sample.view]
           = (Return content, wg)
           /\ ig = Some content
       else ig = None /\ wg = [Sample.view])
      /\ Sample.markdown repo wg = (Return files, wg')
      /\ listViews Sample.host repo wl = (Return views, w')
      /\ map Doc.filePath docs
         = filter (fun file => negb (is_ignored (Sample.ignores ig) file)
                               && negb (Str.startsWith file ".alexandria/")
                               && negb (tracked views file)) files
      /\ Forall (fun file => exists b, Sample.ignores ig file = Return b) files
      /\ Forall (fun d => Doc.relativePath d = Doc.filePath d
                          /\ Doc.fullPath d
                             = path_join Sample.host repo (Doc.filePath d)) docs
  | (Throw _, _) => False
  end.
Proof.
  destruct (findUntrackedDocuments Sample.host Sample.markdown Sample.ignores
                                   ".alexandria" repo [Sample.view])
    as [[docs|e] w'] eqn:E.
  - exact (untracked_documents World Sample.host Sample.markdown Sample.ignores
                               ".alexandria" repo [Sample.view] w' docs E).
  - vm_compute in E. discriminate E.
Defined.


Lemma unknown_identifiers_witness :
  exists s,
    validateSpecificViews host (stored "") repo ["zzz"; "README.md"] [stored "a"]
    = (Return s, [stored "a"])
    /\ Validate.results s = map (not_found (stored "")) ["zzz"; "README.md"]
    /\ Validate.totalViews s = 2
    /\ Validate.validViews s = 0
    /\ Validate.invalidViews s = 2
    /\ Validate.errorCount s = 2
    /\ Validate.totalIssues s = 0 /\ Validate.warningCount s = 0
    /\ Validate.infoCount s = 0.
Proof.
  apply (unknown_identifiers World host (stored "") repo ["zzz"; "README.md"]
           [stored "a"] [stored "a"] [stored "a"] [stored "a"] [stored "a"]
           eq_refl eq_refl eq_refl).
  repeat constructor.
Defined.

Lemma views_by_status_witness :
  match getViewsByStatus host repo [stored "a"; stored "broken"; stored "c"] with
  | (Return st, w') =>
      exists s flagged,
      Validate.validateAllViews host repo [stored "a"; stored "broken"; stored "c"]
      = (Return s, w')
      /\ getViewsWithIssues host repo [stored "a"; stored "broken"; stored "c"]
         = (Return flagged, w')
      /\ Permutation (Status.valid st ++ Status.validWithWarnings st
                      ++ Status.invalid st) (Validate.results s)
      /\ length (Status.valid st) + length (Status.validWithWarnings st)
         = Validate.validViews s
      /\ length (Status.invalid st) = Validate.invalidViews s
      /\ flagged = filter (fun r => negb (is_clean r)) (Validate.results s)
      /\ Permutation flagged (Status.validWithWarnings st ++ Status.invalid st)
  | (Throw _, _) => False
  end.
Proof.
  destruct (getViewsByStatus host repo [stored "a"; stored "broken"; stored "c"])
    as [[st|e] w'] eqn:E.
  - exact (views_by_status World host repo
                           [stored "a"; stored "broken"; stored "c"] w' st E).
  - vm_compute in E. discriminate E.
Defined.

Lemma all_views_valid_witness :
  let views := [stored "a"; stored "broken"] in
  let outcomes := fst (Validate.validate_each host repo views views) in
  exists b,
    areAllViewsValid host repo views
    = (Return b, snd (Validate.validate_each host repo views views))
    /\ (b = true <-> Forall (fun o => exists r, o = Return r
                                                /\ Validation.isValid r = true)
                            outcomes)
    /\ (views = [] -> b = true).
Proof.
  exact (all_views_valid World host repo
           [stored "a"; stored "broken"] [stored "a"; stored "broken"]
           [stored "a"; stored "broken"] [stored "a"; stored "broken"]
           [stored "a"; stored "broken"] eq_refl eq_refl eq_refl).
Defined.

Lemma repository_root_witness :
  exists r,
    findRepositoryRoot Sample.host Sample.cwd Sample.resolve 5 (Some "/repo/docs") []
    = (Return (Some r), [])
    /\ located Sample.host (fs_existsSync Sample.host []) "/repo/docs" r
    /\ getRepositoryRoot Sample.host Sample.cwd Sample.resolve 5 None []
       = match r with
         | Some root => (Return (Some root), [])
         | None => (Throw (ErrorObject not_in_repository), [])
         end.
Proof.
  apply (repository_root World Sample.host Sample.cwd Sample.resolve 5 2 None
                         [] [] [] "/repo/docs" "/repo/docs" eq_refl eq_refl).
  - reflexivity.
  - lia.
Defined.



(** ** The sample repository *)

(** Of four markdown files, one is ignored, one is under the primary
    directory and one is the overview of a view. *)
Example untracked_in_sample :
  findUntrackedDocuments Sample.host Sample.markdown Sample.ignores ".alexandria"
                         repo [Sample.view]
  = (Return [api_guide], [Sample.view]).
Proof. vm_compute. reflexivity. Qed.

(** The root is found one level above the working directory; from the
    top directory nothing is found. *)
Example root_of_sample :
  getRepositoryRoot Sample.host Sample.cwd Sample.resolve 5 None []
  = (Return (Some "/repo"), [])
  /\ getRepositoryRoot Sample.host Sample.cwd Sample.resolve 5 (Some "/") []
     = (Throw (ErrorObject not_in_repository), [])
  /\ getRepositoryRoot Sample.host Sample.cwd Sample.resolve 1 None []
     = (Return None, []).
Proof. vm_compute. repeat split. Qed.

(** Four source files found, one of them twice; one is referenced. *)
Example coverage_of_sample :
  match getContextCoverage Sample.host Sample.cwd Sample.resolve ".alexandria"
                           Sample.sources 5 "/repo/docs" CoverageOptions.none
                           [Sample.view] with
  | (Return (Some m), _) =>
      Coverage.totalFiles m = 3 /\ Coverage.coveredFiles m = 1
      /\ Coverage.coveredFilesList m = ["src/a.ts"]
      /\ Coverage.uncoveredFiles m = ["README.md"; "src/c.ts"]
      /\ Coverage.filesByExtension m
         = [(".ts", Coverage.MkStats 2 1); (".md", Coverage.MkStats 1 0)]
  | _ => False
  end.
Proof. vm_compute. repeat split. Qed.

(** Three documents in a dry run, one of them missing. *)
Example statistics_of_batch :
  match createViewsFromDocuments host repo [api_guide; missing_doc; readme]
                                 (dry_run None) [] with
  | (Return results, _) =>
      let s := getViewCreationStats results in
      (Stats.successful s, Stats.failed s, Stats.total s) = (2, 1, 3)
      /\ (Stats.totalIssues s, Stats.totalFiles s, Stats.totalCells s) = (0, 2, 1)
      /\ map Creation.file (Stats.failures s) = ["gone.md"]
  | _ => False
  end.
Proof. vm_compute. repeat split. Qed.

(** An identifier that is a name, one that is unknown. *)
Example chosen_in_sample :
  match validateSpecificViews host (stored "") repo ["Read me"; "zzz"]
                              [Sample.view] with
  | (Return s, _) =>
      map (fun r => (Validate.viewId r, Validate.success r, Validate.error r))
          (Validate.results s)
      = [("readme", true, None); ("zzz", false, Some "View not found: zzz")]
      /\ (Validate.validViews s, Validate.invalidViews s, Validate.errorCount s)
         = (1, 1, 1)
  | _ => False
  end.
Proof. vm_compute. repeat split. Qed.

(** ** The size of the grid *)

Lemma max_rows (n : nat) :
  list_max (map (fun i => i / 3) (seq 0 (S n))) = n / 3.
Proof.
  induction n as [|n IH]; [reflexivity|].
  rewrite seq_S, map_app, list_max_app, IH.
  change (list_max (map (fun i => i / 3) [0 + S n])) with (Nat.max (S n / 3) 0).
  assert (n / 3 <= S n / 3) by (apply Nat.Div0.div_le_mono; lia). lia.
Qed.

Lemma max_cols (n : nat) :
  list_max (map (fun i => i mod 3) (seq 0 (S n))) = Nat.min n 2.
Proof.
  induction n as [|n IH]; [reflexivity|].
  rewrite seq_S, map_app, list_max_app, IH.
  change (list_max (map (fun i => i mod 3) [0 + S n])) with (Nat.max (S n mod 3) 0).
  pose proof (Nat.mod_upper_bound (S n) 3 ltac:(discriminate)) as Hm.
  destruct n as [|[|n]]; [reflexivity | reflexivity|].
  rewrite !Nat.min_r by lia. lia.
Qed.

Lemma assign_at_most (secs : list (string * list string)) (i : nat)
      (o : Obj.t CodebaseViewFileCell) :
  length (assign i secs o) <= length o + length secs.
Proof.
  revert i o. induction secs as [|[l fs] secs IH]; intros i o; simpl; [lia|].
  etransitivity; [apply IH|]. unfold Obj.set.
  destruct (String.eqb l "__proto__"); [lia|].
  rewrite put_length. destruct (Obj.get l o); lia.
Qed.

Section SizeFacts.

Variable path_join : string -> string -> string.
Variable existsSync : string -> bool.
Variable repositoryPath : option string.

Local Abbreviation extract :=
  (Parser.extractStructureFromMarkdown path_join existsSync repositoryPath).
Local Abbreviation flushed := (Parser.flushed path_join existsSync repositoryPath).

(** X24: the size of the grid in closed form: with [n] the number of
    sections that have a file, there are at most [n] groups; without a
    group the grid is 1 by 1; otherwise it has [ceil(n / 3)] rows and
    [min(n, 3)] columns, whether or not two sections share a label; and
    the grid always has at least as many cells as there are groups. *)
Theorem grid_size (content : string) :
  let r := extract content in
  let n := length (flushed (Str.split "010" content)) in
  let groups := length (Obj.keys (ex_referenceGroups r)) in
  groups <= n
  /\ (groups = 0 -> ex_rows r = 1 /\ ex_cols r = 1)
  /\ (0 < groups -> ex_rows r = (n - 1) / 3 + 1 /\ ex_cols r = Nat.min n 3)
  /\ groups <= ex_rows r * ex_cols r.
Proof.
  cbv zeta. destruct (extract_spec path_join existsSync repositoryPath content)
    as (Hg & Hr & Hc). cbv zeta in Hg, Hr, Hc.
  unfold Obj.keys. rewrite length_map.
  set (n := length (flushed (Str.split "010" content))) in *.
  assert (Hle : length (ex_referenceGroups (extract content)) <= n).
  { rewrite Hg. pose proof (assign_at_most (flushed (Str.split "010" content)) 0
                                            Obj.empty) as H. simpl in H. exact H. }
  destruct (length (ex_referenceGroups (extract content))) as [|g] eqn:E.
  - cbn [Nat.ltb Nat.leb] in Hr, Hc. rewrite Hr, Hc.
    repeat split; lia.
  - cbn [Nat.ltb Nat.leb] in Hr, Hc.
    destruct n as [|m]; [lia|].
    rewrite max_rows in Hr. rewrite max_cols in Hc.
    replace (S m - 1) with m by lia.
    assert (Hcols : ex_cols (extract content) = Nat.min (S m) 3) by lia.
    split; [lia|]. split; [intros H; discriminate H|].
    split; [intros _; split; [exact Hr | exact Hcols]|].
    rewrite Hr, Hcols.
    pose proof (Nat.div_mod_eq m 3) as Hd.
    pose proof (Nat.mod_upper_bound m 3 ltac:(discriminate)) as Hm.
    destruct (Nat.le_gt_cases 3 (S m)) as [H3|H3].
    + rewrite Nat.min_r by lia. lia.
    + rewrite Nat.min_l by lia.
      assert (m / 3 = 0) by (apply Nat.div_small; lia). nia.
Qed.

End SizeFacts.

(** ** Extraction without a repository path *)

Lemma fold_left_pointwise {A B : Type} (f g : A -> B -> A) (xs : list B) (a : A) :
  (forall x y, f x y = g x y) -> fold_left f xs a = fold_left g xs a.
Proof.
  intros H. revert a. induction xs as [|x xs IH]; intros a; [reflexivity|].
  simpl. now rewrite H, IH.
Qed.

Section NoRepositoryFacts.

Variable path_join : string -> string -> string.

Lemma step_unchecked (existsSync existsSync' : string -> bool)
      (repositoryPath : option string) (st : PState) (raw : string) :
  repositoryPath = None \/ repositoryPath = Some EmptyString ->
  Parser.step path_join existsSync repositoryPath st raw
  = Parser.step path_join existsSync' None st raw.
Proof.
  intros Hrepo. unfold Parser.step.
  assert (Hscan : forall line fs,
             Parser.scan_line path_join existsSync repositoryPath line fs
             = Parser.scan_line path_join existsSync' None line fs).
  { intros line fs. unfold Parser.scan_line. apply fold_left_pointwise.
    intros acc pattern. apply fold_left_pointwise. intros fs0 m.
    unfold Parser.add_match, Parser.missing.
    destruct Hrepo as [-> | ->]; reflexivity. }
  destruct (is_title (Str.trim raw) && _); [reflexivity|].
  destruct (is_section (Str.trim raw)); [reflexivity|].
  now rewrite Hscan.
Qed.

(** X25: without a repository path, and with the empty string as
    repository path as well, nothing is looked up: the extracted
    structure is the same whatever files exist. *)
Theorem no_repository_no_check (existsSync existsSync' : string -> bool)
        (repositoryPath : option string) (content : string) :
  repositoryPath = None \/ repositoryPath = Some EmptyString ->
  Parser.extractStructureFromMarkdown path_join existsSync repositoryPath content
  = Parser.extractStructureFromMarkdown path_join existsSync' None content.
Proof.
  intros Hrepo. unfold Parser.extractStructureFromMarkdown, Parser.run.
  f_equal. apply fold_left_pointwise. intros st raw. now apply step_unchecked.
Qed.

End NoRepositoryFacts.

(** ** One way of saving for each mode *)

Section SaveFacts.

Variable W : Type.
Variable h : Host W.

(** X26: a run that skips validation never calls
    [saveViewWithValidation], and a run that validates never calls
    [saveView]: in each mode the result and the world left behind do not
    depend on the other method. *)
Theorem one_save_per_mode (repo : string) (docInfo : Doc.t) (options : Options.t)
        (save : string -> View.t -> M W unit)
        (saveValidated : string -> View.t -> M W Validation.Result) (w : W) :
  (flag (Options.skipValidation options) = true ->
   createViewFromDocument (with_saves h (saveView h) saveValidated)
                          repo docInfo options w
   = createViewFromDocument h repo docInfo options w)
  /\ (flag (Options.dryRun options) = false ->
      flag (Options.skipValidation options) = false ->
      createViewFromDocument (with_saves h save (saveViewWithValidation h))
                             repo docInfo options w
      = createViewFromDocument h repo docInfo options w).
Proof.
  split; [intros Hs | intros Hd Hs];
    unfold createViewFromDocument, guarded, build_and_save, bind, try_catch,
      attempt, observe, ret, with_saves;
    cbn [path_join path_basename path_extname path_dirname fs_existsSync
         fs_readFileSync new_NodeFileSystemAdapter new_MemoryPalace
         validateRelativePath adapter_exists generateViewIdFromName now_ISOString
         saveView saveViewWithValidation listViews validateView];
    rewrite Hs; try rewrite Hd;
    (destruct (new_NodeFileSystemAdapter h w) as [[[]|e] wa]; [|reflexivity]);
    (destruct (new_MemoryPalace h repo wa) as [[[]|e] wb]; [|reflexivity]);
    (destruct (validateRelativePath h repo (Doc.fullPath docInfo) wb)
       as [[rel|e] w1]; [|reflexivity]);
    (destruct (adapter_exists h (Doc.fullPath docInfo) w1) as [[found|e] w2];
     [|reflexivity]);
    (destruct found; cbn [negb]; [|reflexivity]);
    (destruct (fs_readFileSync h (Doc.fullPath docInfo) w2) as [[content|e] w3];
     reflexivity).
Qed.

End SaveFacts.

(** ** Further closed instances *)

Lemma no_repository_no_check_witness :
  Parser.extractStructureFromMarkdown join on_disk (Some EmptyString) guide
  = Parser.extractStructureFromMarkdown join (fun _ => false) None guide.
Proof.
  apply (no_repository_no_check join on_disk (fun _ => false) (Some EmptyString)).
  now right.
Defined.

(** Seven sections with a file each: three rows of three columns, and one
    group only when the sections share a label. *)
Example grid_of_seven :
  (ex_rows (extract None seven_distinct), ex_cols (extract None seven_distinct),
   length (ex_referenceGroups (extract None seven_distinct))) = (3, 3, 7)
  /\ (ex_rows (extract None seven_same), ex_cols (extract None seven_same),
      length (ex_referenceGroups (extract None seven_same))) = (3, 3, 1).
Proof. vm_compute. split; reflexivity. Qed.
